(** * hana_ml.algorithms.pal.random: the parameter-marshalling protocol

    A shallow embedding of [random.py], the client-side wrappers around the
    PAL random-distribution procedures, and the properties of its argument
    validation, temporary-table naming, alias fallback and failure cleanup.

    Conventions of the embedding.
    - Python values are the inductive [value]; a finite Python float is a
      rational ([Q]), and NaN and the two infinities are values of their own:
      comparisons follow IEEE 754 (every comparison with NaN is false), while
      the rounding of [1.0/scale] and the sign of zero are not modelled.
    - The database connection is an external collaborator.  Every request the
      module sends through it is recorded, in order, in the [events] of the
      [World]; the collaborator's answer (success, or an exception) is given
      by an arbitrary function [remote] of the request history.
    - A wrapper is a computation in the monad [M]: it reads and extends the
      [World] and ends in [Return] with a value or in [Raise] with an
      exception.
    - [pyodbc.Error] carries the two arguments (SQL state, message) the
      driver gives it. *)

From Stdlib Require Import ZArith QArith Qround List String Ascii Bool Lia Lqa.
From Stdlib Require Import DecimalString.
Import ListNotations.

Local Open Scope Z_scope.
Local Open Scope list_scope.
Local Open Scope string_scope.

Set Implicit Arguments.

(* ================================================================= *)
(** ** Python values *)

(** The floats that are not finite: [float('nan')], [float('inf')] and
    [float('-inf')]. *)
Inductive nonfinite : Type :=
| NaN
| PosInf
| NegInf.

#[warnings="-register-all"]
Inductive value : Type :=
| VNone
| VBool (b : bool)
| VInt (z : Z)
| VFloat (q : Q)               (* a finite float *)
| VStr (s : string)
| VList (l : list value)
| VTuple (l : list value)
| VNdarray (l : list value)    (* a numpy array, by its row-major elements *)
| VNonfinite (x : nonfinite).  (* a float that is not finite *)

Inductive pytype : Type :=
| Tint | Tfloat | Tbool | Tstr | Ttuple | Tlist | Tndarray.

Definition pytype_eqb (a b : pytype) : bool :=
  match a, b with
  | Tint, Tint | Tfloat, Tfloat | Tbool, Tbool | Tstr, Tstr
  | Ttuple, Ttuple | Tlist, Tlist | Tndarray, Tndarray => true
  | _, _ => false
  end.

(** The class of a value, and Python's [isinstance] against a tuple of
    classes: [bool] is a subclass of [int]. *)
Definition type_of (v : value) : option pytype :=
  match v with
  | VNone => None
  | VBool _ => Some Tbool
  | VInt _ => Some Tint
  | VFloat _ => Some Tfloat
  | VStr _ => Some Tstr
  | VList _ => Some Tlist
  | VTuple _ => Some Ttuple
  | VNdarray _ => Some Tndarray
  | VNonfinite _ => Some Tfloat
  end.

Definition subclass (a b : pytype) : bool :=
  pytype_eqb a b || (pytype_eqb a Tbool && pytype_eqb b Tint).

Definition isinstance (v : value) (ts : list pytype) : bool :=
  match type_of v with
  | None => false
  | Some t => existsb (subclass t) ts
  end.

Definition is_none (v : value) : bool :=
  match v with VNone => true | _ => false end.

(* ================================================================= *)
(** ** Exceptions and outcomes *)

Inductive exn : Type :=
| ValueError (msg : string)
| TypeError (msg : string)
| ZeroDivisionError
| OverflowError (msg : string)
| IndexError
| KeyError (key : string)
| NameError (name : string)
| InvalidArgument (attr : string)        (* raised by [pal_base.arg] *)
| DbapiError (msg : string)              (* hdbcli's [dbapi.Error] *)
| PyodbcError (sqlstate msg : string)    (* [pyodbc.Error], args (sqlstate, msg) *)
| OtherError (msg : string).

Inductive outcome (A : Type) : Type :=
| Return (a : A)
| Raise (e : exn).

Arguments Return {A} a.
Arguments Raise {A} e.

(** A pure computation that may raise. *)
Definition bindo {A B} (x : outcome A) (f : A -> outcome B) : outcome B :=
  match x with
  | Return a => f a
  | Raise e => Raise e
  end.

(* ================================================================= *)
(** ** Numbers, comparisons and strings *)

(** The value of a finite number ([True] and [False] count as 1 and 0). *)
Definition as_num (v : value) : option Q :=
  match v with
  | VBool b => Some (if b then 1%Q else 0%Q)
  | VInt z => Some (inject_Z z)
  | VFloat q => Some q
  | _ => None
  end.

Definition Qlt_bool (a b : Q) : bool := negb (Qle_bool b a).

(** A number as an extended real: finite, infinite or NaN. *)
Inductive ext : Type :=
| Fin (q : Q)
| Special (x : nonfinite).

Definition as_ext (v : value) : option ext :=
  match v with
  | VNonfinite x => Some (Special x)
  | _ => option_map Fin (as_num v)
  end.

(** The IEEE 754 comparisons: every comparison with a NaN is false. *)
Definition ext_le (x y : ext) : bool :=
  match x, y with
  | Special NaN, _ | _, Special NaN => false
  | Special NegInf, _ | _, Special PosInf => true
  | Fin p, Fin q => Qle_bool p q
  | _, _ => false
  end.

Definition ext_lt (x y : ext) : bool := ext_le x y && negb (ext_le y x).

Definition ext_eq (x y : ext) : bool := ext_le x y && ext_le y x.

(** [a < b], [a <= b], [a > b], [a >= b] on the operands the module compares
    (numbers, or [None] when an optional argument was left out): finite
    numbers by the rational order, a NaN or an infinity by the IEEE order;
    ordering [None] against a number is a [TypeError]. *)
Definition py_cmp (op : string) (test : Q -> Q -> bool)
  (special : ext -> ext -> bool) (a b : value) : outcome bool :=
  match as_num a, as_num b with
  | Some x, Some y => Return (test x y)
  | _, _ =>
      match as_ext a, as_ext b with
      | Some x, Some y => Return (special x y)
      | _, _ =>
          Raise (TypeError ("'" ++ op ++ "' not supported between instances"))
      end
  end.

Definition py_lt := py_cmp "<" Qlt_bool ext_lt.
Definition py_le := py_cmp "<=" Qle_bool ext_le.
Definition py_gt := py_cmp ">" (fun x y => Qlt_bool y x) (fun x y => ext_lt y x).
Definition py_ge := py_cmp ">=" (fun x y => Qle_bool y x) (fun x y => ext_le y x).

(** [a == b]: numbers by value (a NaN equals nothing, itself included),
    containers element-wise, never an error. *)
Fixpoint py_eq (a b : value) {struct a} : bool :=
  let fix eq_list (l : list value) (m : list value) {struct l} : bool :=
    match l, m with
    | [], [] => true
    | x :: l', y :: m' => py_eq x y && eq_list l' m'
    | _, _ => false
    end in
  match a, b with
  | VNone, VNone => true
  | VStr s, VStr t => String.eqb s t
  | VList l, VList m => eq_list l m
  | VTuple l, VTuple m => eq_list l m
  | VNdarray l, VNdarray m => eq_list l m
  | _, _ =>
      match as_ext a, as_ext b with
      | Some x, Some y => ext_eq x y
      | _, _ => false
      end
  end.

(** The elements of a list are objects: a value is carried with the
    position it had in the list it comes from, which stands for its
    identity.  (Two positions may hold one object, but then they hold equal
    values, unless the object is a NaN; and the sort below never compares a
    NaN with the element of another position for equality, because it never
    moves one.) *)
Definition obj : Type := (nat * value)%type.

Definition objects (l : list value) : list obj :=
  combine (seq 0 (List.length l)) l.

(** [x is y or x == y]: how the comparison of two lists compares their
    elements. *)
Definition same_or_equal (x y : obj) : bool :=
  Nat.eqb (fst x) (fst y) || py_eq (snd x) (snd y).

(** [l == m] on lists. *)
Fixpoint py_list_eq (l m : list obj) : bool :=
  match l, m with
  | [], [] => true
  | x :: l', y :: m' => same_or_equal x y && py_list_eq l' m'
  | _, _ => false
  end.

(** [sorted(l)]: a stable sort by [<].  Each element in turn is inserted
    into the sorted prefix, which it enters from the right, moving left past
    every element it is less than; the prefix is kept last element first.
    On a list of up to three elements this gives the list CPython's sort
    gives (binary insertion after the run at the start of the list), also
    when [<] is not an order, as with a NaN. *)
Fixpoint insert_sorted (x : obj) (prefix : list obj) : outcome (list obj) :=
  match prefix with
  | [] => Return [x]
  | y :: prefix' =>
      bindo (py_lt (snd x) (snd y)) (fun lt =>
        if lt then bindo (insert_sorted x prefix') (fun r => Return (y :: r))
        else Return (x :: y :: prefix'))
  end.

Fixpoint sort_onto (prefix l : list obj) : outcome (list obj) :=
  match l with
  | [] => Return (rev prefix)
  | x :: l' => bindo (insert_sorted x prefix) (fun p => sort_onto p l')
  end.

Definition py_sorted (l : list obj) : outcome (list obj) := sort_onto [] l.

(** [int(x)] of a number: truncation towards zero. *)
Definition py_int (v : value) : outcome value :=
  match v with
  | VBool b => Return (VInt (if b then 1 else 0))
  | VInt z => Return (VInt z)
  | VFloat q => Return (VInt (Z.quot (Qnum q) (Z.pos (Qden q))))
  | VNonfinite NaN => Raise (ValueError "cannot convert float NaN to integer")
  | VNonfinite _ =>
      Raise (OverflowError "cannot convert float infinity to integer")
  | _ => Raise (TypeError "int() argument must be a number")
  end.

(** [x / y] on extended reals, as float division: dividing by zero is an
    error whatever is divided. *)
Definition ext_div (x y : ext) : outcome value :=
  match x, y with
  | _, Fin q =>
      if Qeq_bool q 0 then Raise ZeroDivisionError
      else
        match x with
        | Fin p => Return (VFloat (p / q))
        | Special NaN => Return (VNonfinite NaN)
        | Special PosInf =>
            Return (VNonfinite (if Qlt_bool q 0 then NegInf else PosInf))
        | Special NegInf =>
            Return (VNonfinite (if Qlt_bool q 0 then PosInf else NegInf))
        end
  | Fin _, Special NaN => Return (VNonfinite NaN)
  | Fin _, Special _ => Return (VFloat 0)
  | Special _, Special _ => Return (VNonfinite NaN)
  end.

(** [a / b] on numbers: true division. *)
Definition py_truediv (a b : value) : outcome value :=
  match as_ext a, as_ext b with
  | Some x, Some y => ext_div x y
  | _, _ => Raise (TypeError "unsupported operand type(s) for /")
  end.

(** [s.upper()] and [s.replace(a, b)] for single characters, on ASCII. *)
Definition upper_ascii (c : ascii) : ascii :=
  let n := nat_of_ascii c in
  if (Nat.leb 97 n && Nat.leb n 122)%bool then ascii_of_nat (n - 32) else c.

Fixpoint upper (s : string) : string :=
  match s with
  | EmptyString => EmptyString
  | String c s' => String (upper_ascii c) (upper s')
  end.

Fixpoint replace_char (a b : ascii) (s : string) : string :=
  match s with
  | EmptyString => EmptyString
  | String c s' =>
      String (if Ascii.eqb c a then b else c) (replace_char a b s')
  end.

(** [sub in s] for strings. *)
Fixpoint contains (sub s : string) : bool :=
  String.prefix sub s ||
  match s with
  | EmptyString => false
  | String _ s' => contains sub s'
  end.

Definition str_of_Z (z : Z) : string := NilZero.string_of_int (Z.to_int z).

Fixpoint join (sep : string) (l : list string) : string :=
  match l with
  | [] => ""
  | [x] => x
  | x :: l' => x ++ sep ++ join sep l'
  end.

(** Association lists stand for the dicts whose order matters
    ([str(dict)] prints in insertion order). *)
Fixpoint assoc {A} (k : string) (d : list (string * A)) : option A :=
  match d with
  | [] => None
  | (k', v) :: d' => if String.eqb k k' then Some v else assoc k d'
  end.

(** [dict(pairs)[k]]: the last binding of a repeated key wins. *)
Definition dict_get {A} (pairs : list (string * A)) (k : string) : outcome A :=
  match assoc k (rev pairs) with
  | Some v => Return v
  | None => Raise (KeyError k)
  end.

(* ================================================================= *)
(** ** Tables, the collaborator and the world *)

Inductive sqltype : Type :=
| NVARCHAR (n : Z)
| DOUBLE.

(** Modelled from the spec: [pal_base.Table] is not part of this module.
    The collaborator offers "a way to create a named table from a schema and
    rows": [Table(name, spec).with_data(data)] is the named table with that
    schema and those rows. *)
Record Table : Type := mkTable {
  table_name : string;
  table_spec : list (string * sqltype);
  table_data : list (list value)
}.

(** A row as the module builds it for a parameter table:
    (name, int value, double value, string value). *)
Definition param_row : Type := (string * value * value * value)%type.

(** Modelled from the spec: [pal_base.ParameterTable] is not part of this
    module.  A ParameterRow is "one encoded row of the generic
    parameter-table shape (name, int_value, double_value, string_value)",
    and "exactly one of the three value slots is populated per row": of the
    rows handed to [ParameterTable(name).with_data(rows)], those with a
    populated slot are the rows of the table. *)
Record ParameterTable : Type := mkParameterTable {
  ptable_name : string;
  ptable_data : list param_row
}.

(** One of the three value slots of the row holds a value. *)
Definition populated (r : param_row) : bool :=
  match r with
  | (_, int_value, double_value, string_value) =>
      negb (is_none int_value && is_none double_value && is_none string_value)
  end.

(** Modelled from the spec: [ParameterTable(name).with_data(rows)], of
    [pal_base].  Every ParameterRow has a populated slot, so a built row
    whose three slots are [None] (an omitted parameter) is no row of the
    table; the other rows are kept, in order. *)
Definition with_data (name : string) (rows : list param_row) : ParameterTable :=
  mkParameterTable name (filter populated rows).

(** [conn_context.table(name)]: a lazy handle on a named table. *)
Inductive DataFrame : Type :=
| DataFrameOf (name : string).

Inductive pal_arg : Type :=
| ArgDataFrame (df : DataFrame)
| ArgParameterTable (pt : ParameterTable)
| ArgName (name : string).

(** The requests sent through the connection. *)
Inductive Event : Type :=
| EvRequirePal                                   (* require_pal_usable(conn) *)
| EvCreate (t : Table)                           (* create(conn, table) *)
| EvCallPal (proc : string) (args : list pal_arg)(* call_pal_auto_with_hint *)
| EvDrop (name : string).                        (* DROP TABLE, from try_drop *)

Inductive LogRecord : Type :=
| LogError (msg : string)                        (* logger.error *)
| LogException (msg : string).                   (* logger.exception *)

Record World : Type := mkWorld {
  events : list Event;        (* requests sent so far, oldest first *)
  log : list LogRecord;       (* records logged so far, oldest first *)
  uuid_calls : nat            (* number of uuid.uuid1() calls so far *)
}.

Definition empty_world : World := mkWorld [] [] 0.

(** What the module does not decide: the collaborator's answers, whether
    [import pyodbc] succeeded, the identifiers [uuid.uuid1()] hands out, the
    decimal text [repr] gives a finite float, and what numpy makes of a
    nested list: the elements of [np.array(x).reshape([-1])], or nothing
    when numpy rejects the nesting with its [ValueError]. *)
Record Env : Type := mkEnv {
  remote : list Event -> Event -> option exn;
  pyodbc_imported : bool;
  uuid1 : nat -> string;
  float_repr : Q -> string;
  np_ravel : value -> option (list value)
}.

(** What a wrapper returns: [conn_context.table(...)], a data frame over
    the result table. *)
Inductive pyresult : Type :=
| ResDataFrame (df : DataFrame).

(* ================================================================= *)
(** ** The monad of wrappers *)

Definition M (A : Type) : Type := World -> outcome A * World.

Definition ret {A} (a : A) : M A := fun w => (Return a, w).

Definition raise {A} (e : exn) : M A := fun w => (Raise e, w).

Definition bind {A B} (c : M A) (k : A -> M B) : M B :=
  fun w =>
    match c w with
    | (Return a, w') => k a w'
    | (Raise e, w') => (Raise e, w')
    end.

Definition lift {A} (x : outcome A) : M A := fun w => (x, w).

(** [try: body except ... as e: handler e] *)
Definition try_except {A} (body : M A) (handler : exn -> M A) : M A :=
  fun w =>
    match body w with
    | (Return a, w') => (Return a, w')
    | (Raise e, w') => handler e w'
    end.

Notation "x <- c ;; k" := (bind c (fun x => k))
  (at level 61, c at next level, right associativity).
Notation "c ;;; k" := (bind c (fun _ => k))
  (at level 61, right associativity).

Definition logger_error (msg : string) : M unit :=
  fun w => (Return tt, mkWorld (events w) (log w ++ [LogError msg])%list (uuid_calls w)).

Definition logger_exception (msg : string) : M unit :=
  fun w =>
    (Return tt, mkWorld (events w) (log w ++ [LogException msg])%list (uuid_calls w)).

(** [any(test(x) for x in xs)]: stops at the first true test. *)
Fixpoint py_any {A} (test : A -> outcome bool) (xs : list A) : outcome bool :=
  match xs with
  | [] => Return false
  | x :: xs' => bindo (test x) (fun b => if b then Return true else py_any test xs')
  end.

Section Wrappers.

Variable env : Env.

(** Send one request; the collaborator answers from the history. *)
Definition request (ev : Event) : M unit :=
  fun w =>
    let w' := mkWorld (events w ++ [ev])%list (log w) (uuid_calls w) in
    match remote env (events w) ev with
    | Some e => (Raise e, w')
    | None => (Return tt, w')
    end.

(** [str(uuid.uuid1())] *)
Definition uuid1_str : M string :=
  fun w =>
    (Return (uuid1 env (uuid_calls w)),
     mkWorld (events w) (log w) (S (uuid_calls w))).

(** [repr(v)] and [str(v)].  A string is quoted without escapes, and the
    elements of an array print as Python numbers. *)
Fixpoint py_repr (v : value) : string :=
  let fix reprs (l : list value) : list string :=
    match l with
    | [] => []
    | x :: l' => py_repr x :: reprs l'
    end in
  match v with
  | VNone => "None"
  | VBool b => if b then "True" else "False"
  | VInt z => str_of_Z z
  | VFloat q => float_repr env q
  | VStr s => "'" ++ s ++ "'"
  | VList l => "[" ++ join ", " (reprs l) ++ "]"
  | VTuple [x] => "(" ++ py_repr x ++ ",)"
  | VTuple l => "(" ++ join ", " (reprs l) ++ ")"
  | VNdarray l => "array([" ++ join ", " (reprs l) ++ "])"
  | VNonfinite NaN => "nan"
  | VNonfinite PosInf => "inf"
  | VNonfinite NegInf => "-inf"
  end.

Definition py_str (v : value) : string :=
  match v with
  | VStr s => s
  | _ => py_repr v
  end.

(** [str(e)] of a database error. *)
Definition str_exn (e : exn) : string :=
  match e with
  | ValueError m | TypeError m | OverflowError m | DbapiError m
  | OtherError m => m
  | PyodbcError st m => "('" ++ st ++ "', '" ++ m ++ "')"
  | ZeroDivisionError => "division by zero"
  | IndexError => "list index out of range"
  | KeyError k => "'" ++ k ++ "'"
  | NameError n => "name '" ++ n ++ "' is not defined"
  | InvalidArgument a => a
  end.

(* ----------------------------------------------------------------- *)
(** *** The helpers imported from [pal_base]

    [pal_base] is not part of this module.  [require_pal_usable], [create]
    and [call_pal_auto_with_hint] act through the connection: each is one
    request, answered by the collaborator.  [arg] and [try_drop] are modelled
    from the specification of the Argument Validator and of the Cleanup /
    Failure Handler. *)

(** The constraint argument of [arg]: a class, a tuple of classes, or a dict
    of accepted names. *)
Inductive constraint : Type :=
| CType (t : pytype)
| CTypes (ts : list pytype)
| CDict (d : list (string * string)).

Definition has_type (v : value) (t : pytype) : bool :=
  match type_of v with
  | Some t' => pytype_eqb t' t
  | None => false
  end.

(** Modelled from the spec: [pal_base.arg], the Argument Validator's
    per-parameter step, is not part of this module.  It "coerces each
    parameter to its declared semantic type (integer, floating point, bounded
    float, enum-of-strings)" and raises a classified InvalidArgument naming
    the parameter; an omitted ([None]) parameter is an error only when it is
    required (then "InvalidArgument naming the missing field"), and an
    "unknown distribution kind" is an InvalidArgument.  An integer given for
    a floating-point parameter is coerced to a float. *)
Definition arg (attr : string) (v : value) (c : constraint) (required : bool)
  : outcome value :=
  match v with
  | VNone => if required then Raise (InvalidArgument attr) else Return VNone
  | _ =>
      match c with
      | CDict d =>
          match v with
          | VStr s =>
              match assoc s d with
              | Some r => Return (VStr r)
              | None => Raise (InvalidArgument attr)
              end
          | _ => Raise (InvalidArgument attr)
          end
      | CType Tfloat =>
          match v with
          | VInt z => Return (VFloat (inject_Z z))
          | VFloat _ | VNonfinite _ => Return v
          | _ => Raise (InvalidArgument attr)
          end
      | CType t =>
          if has_type v t then Return v else Raise (InvalidArgument attr)
      | CTypes ts =>
          if existsb (has_type v) ts then Return v
          else Raise (InvalidArgument attr)
      end
  end.

(** [require_pal_usable(conn)]: a check made through the connection. *)
Definition require_pal_usable : M unit := request EvRequirePal.

(** [create(conn, table)] *)
Definition create (t : Table) : M unit := request (EvCreate t).

(** [call_pal_auto_with_hint(conn, None, proc, *args)] *)
Definition call_pal_auto_with_hint (proc : string) (args : list pal_arg)
  : M unit :=
  request (EvCallPal proc args).

(** Modelled from the spec: [pal_base.try_drop] is not part of this module.
    It "attempts best-effort removal of every temporary resource" named:
    one drop request per name, and "errors during removal are swallowed". *)
Fixpoint try_drop (names : list string) : M unit :=
  match names with
  | [] => ret tt
  | n :: names' =>
      try_except (request (EvDrop n)) (fun _ => ret tt) ;;;
      try_drop names'
  end.

(** [conn_context.table(name)] *)
Definition conn_table (name : string) : DataFrame := DataFrameOf name.

(* ----------------------------------------------------------------- *)
(** *** The failure handler shared by [_rds], [multinomial] and [mcmc]

    [except dbapi.Error as db_err: ...] then [except pyodbc.Error as db_err:
    ...]: the second clause names [pyodbc], which is unbound when the import
    at the top of the module failed. *)
Definition db_except {A} (tables : list string) (e : exn) : M A :=
  match e with
  | DbapiError _ =>
      logger_exception (str_exn e) ;;;
      try_drop tables ;;;
      raise e
  | _ =>
      if pyodbc_imported env then
        match e with
        | PyodbcError _ msg =>
            logger_exception msg ;;;
            try_drop tables ;;;
            raise e
        | _ => raise e
        end
      else raise (NameError "pyodbc")
  end.

Definition num_random_msg : string :=
  "Parameter num_random should be greater than or equal to zero.".

Definition table_roles : list string :=
  ["DISTRIBUTION_PARAMETER"; "PARAMETER"; "RESULT"].

(** [unique_id = str(uuid.uuid1()).replace('-', '_').upper()] *)
Definition unique_id_of (u : string) : string :=
  upper (replace_char "-"%char "_"%char u).

(** [['#{}_{}_{}'.format(dist_name, tbl_name, unique_id) for tbl_name in
    ['DISTRIBUTION_PARAMETER', 'PARAMETER', 'RESULT']]] *)
Definition rds_tables (dist_name unique_id : string) : list string :=
  map (fun tbl_name => "#" ++ dist_name ++ "_" ++ tbl_name ++ "_" ++ unique_id)
      table_roles.

Definition dist_rows (dist_params : list (string * value)) : list (list value) :=
  map (fun p => [VStr (fst p); snd p]) dist_params.

Definition _rds (dist_params : list (string * value))
  (num_random seed thread_ratio : value) : M pyresult :=
  require_pal_usable ;;;
  num_random <- lift (arg "num_random" num_random (CType Tint) false) ;;
  seed <- lift (arg "seed" seed (CType Tint) false) ;;
  thread_ratio <- lift (arg "thread_ratio" thread_ratio (CType Tfloat) false) ;;
  neg <- lift (py_lt num_random (VInt 0)) ;;
  if neg : bool then
    logger_error num_random_msg ;;;
    raise (ValueError num_random_msg)
  else
    u <- uuid1_str ;;
    let unique_id := unique_id_of u in
    dist_name <- lift (dict_get dist_params "DISTRIBUTIONNAME") ;;
    let tables := rds_tables (py_str dist_name) unique_id in
    match tables with
    | [dist_param_tbl; general_param_tbl; res_tbl] =>
        let dist_param_spec := [("NAME", NVARCHAR 100); ("VALUE", NVARCHAR 100)] in
        let general_params : list param_row :=
          [("NUM_RANDOM", num_random, VNone, VNone);
           ("SEED", seed, VNone, VNone);
           ("THREAD_RATIO", VNone, thread_ratio, VNone)] in
        try_except
          (create (mkTable dist_param_tbl dist_param_spec (dist_rows dist_params)) ;;;
           call_pal_auto_with_hint "PAL_DISTRIBUTION_RANDOM"
             [ArgDataFrame (conn_table dist_param_tbl);
              ArgParameterTable (with_data general_param_tbl general_params);
              ArgName res_tbl])
          (db_except tables) ;;;
        ret (ResDataFrame (conn_table res_tbl))
    | _ => raise (ValueError "not enough values to unpack")
    end.

(* ----------------------------------------------------------------- *)
(** *** The univariate entry points

    Each takes the connection implicitly (the [World]) and its Python
    arguments in the order of the signature; the signature's defaults are
    the [default_*] values below. *)

Definition default_num_random : value := VInt 100.

(** [msg = ...; logger.error(msg); raise ValueError(msg)] *)
Definition value_error {A} (msg : string) : M A :=
  logger_error msg ;;; raise (ValueError msg).

(** [a or b] on tests that may raise: [b] is not evaluated when [a] holds. *)
Definition py_or (a b : outcome bool) : outcome bool :=
  bindo a (fun x => if x : bool then Return true else b).

(** [p < 0 or p > 1] *)
Definition outside_unit (p : value) : outcome bool :=
  py_or (py_lt p (VInt 0)) (py_gt p (VInt 1)).

Definition non_positive (x : value) : outcome bool := py_le x (VInt 0).

Definition bernoulli (p num_random seed thread_ratio : value) : M pyresult :=
  p <- lift (arg "p" p (CType Tfloat) false) ;;
  bad <- lift (outside_unit p) ;;
  if bad : bool then
    value_error "Parameter p should be in the range of 0 and 1."
  else
    _rds [("DISTRIBUTIONNAME", VStr "BERNOULLI");
          ("SUCCESS_FRACTION", p)]
         num_random seed thread_ratio.

Definition beta (a b num_random seed thread_ratio : value) : M pyresult :=
  a <- lift (arg "a" a (CType Tfloat) false) ;;
  b <- lift (arg "b" b (CType Tfloat) false) ;;
  bad <- lift (py_any non_positive [a; b]) ;;
  if bad : bool then
    value_error "Parameters a and b should be greater than zero."
  else
    _rds [("DISTRIBUTIONNAME", VStr "BETA");
          ("SHAPE1", a);
          ("SHAPE2", b)]
         num_random seed thread_ratio.

Definition binomial (n p num_random seed thread_ratio : value) : M pyresult :=
  p <- lift (arg "p" p (CType Tfloat) false) ;;
  n <- lift (arg "n" n (CType Tint) false) ;;
  bad <- lift (outside_unit p) ;;
  if bad : bool then
    value_error "Parameter p should be in the range of 0 and 1."
  else
    neg <- lift (py_lt n (VInt 0)) ;;
    if neg : bool then
      value_error "Parameter n should be at least zero."
    else
      _rds [("DISTRIBUTIONNAME", VStr "BINOMIAL");
            ("SUCCESS_FRACTION", p);
            ("TRIALS", n)]
           num_random seed thread_ratio.

Definition cauchy (location scale num_random seed thread_ratio : value)
  : M pyresult :=
  location <- lift (arg "location" location (CType Tfloat) false) ;;
  scale <- lift (arg "scale" scale (CType Tfloat) false) ;;
  bad <- lift (non_positive scale) ;;
  if bad : bool then
    value_error "Parameter scale should be greater than zero."
  else
    _rds [("DISTRIBUTIONNAME", VStr "CAUCHY");
          ("LOCATION", location);
          ("SCALE", scale)]
         num_random seed thread_ratio.

Definition chi_squared (dof num_random seed thread_ratio : value) : M pyresult :=
  dof <- lift (arg "dof" dof (CType Tint) false) ;;
  bad <- lift (non_positive dof) ;;
  if bad : bool then
    value_error "Parameter dof should be greater than zero."
  else
    _rds [("DISTRIBUTIONNAME", VStr "CHI_SQUARED");
          ("DEGREES_OF_FREEDOM", dof)]
         num_random seed thread_ratio.

Definition exponential (lamb num_random seed thread_ratio : value) : M pyresult :=
  lamb <- lift (arg "lamb" lamb (CType Tfloat) false) ;;
  bad <- lift (non_positive lamb) ;;
  if bad : bool then
    value_error "Parameter lamb should be greater than zero."
  else
    _rds [("DISTRIBUTIONNAME", VStr "EXPONENTIAL");
          ("RATE", lamb)]
         num_random seed thread_ratio.

Definition gumbel (location scale num_random seed thread_ratio : value)
  : M pyresult :=
  location <- lift (arg "location" location (CType Tfloat) false) ;;
  scale <- lift (arg "scale" scale (CType Tfloat) false) ;;
  bad <- lift (non_positive scale) ;;
  if bad : bool then
    value_error "Parameter scale should be greater than zero."
  else
    _rds [("DISTRIBUTIONNAME", VStr "EXTREME_VALUE");
          ("LOCATION", location);
          ("SCALE", scale)]
         num_random seed thread_ratio.

Definition f (dof1 dof2 num_random seed thread_ratio : value) : M pyresult :=
  dof1 <- lift (arg "dof1" dof1 (CType Tfloat) false) ;;
  dof2 <- lift (arg "dof2" dof2 (CType Tfloat) false) ;;
  bad <- lift (py_any non_positive [dof1; dof2]) ;;
  if bad : bool then
    value_error "Parameters dof1 and dof2 should be positive."
  else
    _rds [("DISTRIBUTIONNAME", VStr "FISHER_F");
          ("DEGREES_OF_FREEDOM1", dof1);
          ("DEGREES_OF_FREEDOM2", dof2)]
         num_random seed thread_ratio.

Definition gamma (shape scale num_random seed thread_ratio : value)
  : M pyresult :=
  shape <- lift (arg "shape" shape (CType Tfloat) false) ;;
  scale <- lift (arg "scale" scale (CType Tfloat) false) ;;
  bad <- lift (py_any non_positive [shape; scale]) ;;
  if bad : bool then
    value_error "Parameters shape and scale should be greater than zero."
  else
    _rds [("DISTRIBUTIONNAME", VStr "GAMMA");
          ("SHAPE", shape);
          ("SCALE", scale)]
         num_random seed thread_ratio.

Definition geometric (p num_random seed thread_ratio : value) : M pyresult :=
  p <- lift (arg "p" p (CType Tfloat) false) ;;
  bad <- lift (outside_unit p) ;;
  if bad : bool then
    value_error "Parameter p should be in the range of 0 and 1"
  else
    _rds [("DISTRIBUTIONNAME", VStr "GEOMETRIC");
          ("SUCCESS_FRACTION", p)]
         num_random seed thread_ratio.

Definition lognormal (mean sigma num_random seed thread_ratio : value)
  : M pyresult :=
  mean <- lift (arg "mean" mean (CType Tfloat) false) ;;
  sigma <- lift (arg "sigma" sigma (CType Tfloat) false) ;;
  bad <- lift (non_positive sigma) ;;
  if bad : bool then
    value_error "Parameter sigma should be greater than zero."
  else
    _rds [("DISTRIBUTIONNAME", VStr "LOGNORMAL");
          ("LOCATION", mean);
          ("SCALE", sigma)]
         num_random seed thread_ratio.

Definition negative_binomial (n p num_random seed thread_ratio : value)
  : M pyresult :=
  n <- lift (arg "n" n (CTypes [Tint; Tfloat]) false) ;;
  n <- lift (if is_none n then Return n else py_int n) ;;
  p <- lift (arg "p" p (CType Tfloat) false) ;;
  bad <- lift (non_positive n) ;;
  if bad : bool then
    value_error "Parameter n should be greater than zero."
  else
    bad <- lift (outside_unit p) ;;
    if bad : bool then
      value_error "Parameter p should be in the range of 0 and 1."
    else
      _rds [("DISTRIBUTIONNAME", VStr "NEGATIVE_BINOMIAL");
            ("SUCCESSES", n);
            ("SUCCESS_FRACTION", p)]
           num_random seed thread_ratio.

Definition sigma_variance_msg : string :=
  "Parameters variance and sigma cannot be used together. " ++
  "Please choose one from them.".

Definition normal (mean sigma variance num_random seed thread_ratio : value)
  : M pyresult :=
  mean <- lift (arg "mean" mean (CType Tfloat) false) ;;
  sigma <- lift (arg "sigma" sigma (CType Tfloat) false) ;;
  variance <- lift (arg "variance" variance (CType Tfloat) false) ;;
  if negb (is_none sigma) && negb (is_none variance) then
    value_error sigma_variance_msg
  else
    bad <- lift (non_positive sigma) ;;
    if bad : bool then
      value_error "Parameter sigma should be greater than zero."
    else
      _rds [("DISTRIBUTIONNAME", VStr "NORMAL");
            ("MEAN", mean);
            ("VARIANCE", variance);
            ("SD", sigma)]
           num_random seed thread_ratio.

Definition pert_msg : string :=
  "minimum should be less than or equal to mode, " ++
  "and mode should be less than or equal to maximum.".

Definition pert (minimum mode maximum scale num_random seed thread_ratio : value)
  : M pyresult :=
  minimum <- lift (arg "minimum" minimum (CType Tfloat) false) ;;
  mode <- lift (arg "mode" mode (CType Tfloat) false) ;;
  maximum <- lift (arg "maximum" maximum (CType Tfloat) false) ;;
  scale <- lift (arg "scale" scale (CType Tfloat) false) ;;
  let bounds := objects [minimum; mode; maximum] in
  sorted <- lift (py_sorted bounds) ;;
  if negb (py_list_eq sorted bounds) then
    value_error pert_msg
  else
    _rds [("DISTRIBUTIONNAME", VStr "PERT");
          ("MIN", minimum);
          ("MODE", mode);
          ("MAX", maximum);
          ("SCALE", scale)]
         num_random seed thread_ratio.

Definition poisson (theta num_random seed thread_ratio : value) : M pyresult :=
  theta <- lift (arg "theta" theta (CType Tfloat) false) ;;
  bad <- lift (non_positive theta) ;;
  if bad : bool then
    value_error "Parameter theta should be greater than zero."
  else
    _rds [("DISTRIBUTIONNAME", VStr "POISSON");
          ("THETA", theta)]
         num_random seed thread_ratio.

Definition student_t (dof num_random seed thread_ratio : value) : M pyresult :=
  dof <- lift (arg "dof" dof (CType Tfloat) false) ;;
  bad <- lift (non_positive dof) ;;
  if bad : bool then
    value_error "Parameter dof should be greater than zero."
  else
    _rds [("DISTRIBUTIONNAME", VStr "STUDENT_T");
          ("DEGREES_OF_FREEDOM", dof)]
         num_random seed thread_ratio.

Definition uniform (low high num_random seed thread_ratio : value) : M pyresult :=
  low <- lift (arg "low" low (CType Tfloat) false) ;;
  high <- lift (arg "high" high (CType Tfloat) false) ;;
  bad <- lift (py_ge low high) ;;
  if bad : bool then
    value_error "Value of low should be lower than high."
  else
    _rds [("DISTRIBUTIONNAME", VStr "UNIFORM");
          ("MIN", low);
          ("MAX", high)]
         num_random seed thread_ratio.

Definition weibull (shape scale num_random seed thread_ratio : value)
  : M pyresult :=
  shape <- lift (arg "shape" shape (CType Tfloat) false) ;;
  scale <- lift (arg "scale" scale (CType Tfloat) false) ;;
  bad <- lift (py_or (non_positive shape) (non_positive scale)) ;;
  if bad : bool then
    value_error "Parameters shape and scale should be greater than zero."
  else
    _rds [("DISTRIBUTIONNAME", VStr "WEIBULL");
          ("SHAPE", shape);
          ("SCALE", scale)]
         num_random seed thread_ratio.

(* ----------------------------------------------------------------- *)
(** *** [multinomial] *)

Definition pvals_msg : string :=
  "Parameter pvals should be a tuple of non-negative floats " ++ "and ints.".

(** [not isinstance(pval, (float, int)) or pval < 0] *)
Definition bad_pval (pval : value) : outcome bool :=
  py_or (Return (negb (isinstance pval [Tfloat; Tint]))) (py_lt pval (VInt 0)).

Definition multinomial_tables (unique_id : string) : list string :=
  map (fun tbl_name => "#MULTINOMIAL_" ++ tbl_name ++ "_" ++ unique_id)
      table_roles.

Definition multinomial (n pvals num_random seed thread_ratio : value)
  : M pyresult :=
  require_pal_usable ;;;
  n <- lift (arg "n" n (CType Tint) true) ;;
  pvals <- lift (arg "pvals" pvals (CType Ttuple) true) ;;
  match pvals with
  | VTuple ps =>
      bad <- lift (py_any bad_pval ps) ;;
      if bad : bool then value_error pvals_msg
      else
        num_random <- lift (arg "num_random" num_random (CType Tint) false) ;;
        seed <- lift (arg "seed" seed (CType Tint) false) ;;
        thread_ratio <-
          lift (arg "thread_ratio" thread_ratio (CType Tfloat) false) ;;
        neg <- lift (py_lt num_random (VInt 0)) ;;
        if neg : bool then value_error num_random_msg
        else
          u <- uuid1_str ;;
          let unique_id := unique_id_of u in
          let tables := multinomial_tables unique_id in
          match tables with
          | [dist_param_tbl; general_param_tbl; res_tbl] =>
              let dist_param_spec :=
                ("TRIALS", NVARCHAR 100) ::
                map (fun i : nat => ("P" ++ str_of_Z (Z.of_nat (S i)), DOUBLE))
                    (seq 0 (List.length ps)) in
              let dist_param_data := [n :: ps] in
              let general_params : list param_row :=
                [("DISTRIBUTIONNAME", VNone, VNone, VStr "MULTINOMIAL");
                 ("NUM_RANDOM", num_random, VNone, VNone);
                 ("SEED", seed, VNone, VNone);
                 ("THREAD_RATIO", VNone, thread_ratio, VNone)] in
              try_except
                (create (mkTable dist_param_tbl dist_param_spec dist_param_data) ;;;
                 call_pal_auto_with_hint "PAL_DISTRIBUTION_RANDOM_MULTIVARIATE"
                   [ArgDataFrame (conn_table dist_param_tbl);
                    ArgParameterTable
                      (with_data general_param_tbl general_params);
                    ArgName res_tbl])
                (db_except tables) ;;;
              ret (ResDataFrame (conn_table res_tbl))
          | _ => raise (ValueError "not enough values to unpack")
          end
  | _ => raise (TypeError "object is not iterable")
  end.

(* ----------------------------------------------------------------- *)
(** *** [mcmc] *)

(** The arguments of [mcmc], one field per parameter of the signature. *)
Record McmcArgs : Type := mkMcmcArgs {
  m_distribution : value;
  m_location : value;
  m_scale : value;
  m_shape : value;
  m_dof : value;
  m_chain_iter : value;
  m_random_state : value;
  m_init_radius : value;
  m_adapt : value;
  m_warmup : value;
  m_thin : value;
  m_adapt_gamma : value;
  m_adapt_delta : value;
  m_adapt_kappa : value;
  m_adapt_offset : value;
  m_adapt_init_buffer : value;
  m_adapt_term_buffer : value;
  m_adapt_window : value;
  m_stepsize : value;
  m_stepsize_jitter : value;
  m_max_depth : value;
  m_mu : value;
  m_sigma : value;
  m_xi : value;
  m_alpha : value;
  m_beta : value;
  m_nu : value;
  m_omega : value;
  m_L : value;
  m_y_min : value;
  m_lambda_ : value
}.

(** [mcmc(conn, distribution)] with every other parameter at its default:
    [location=0.0, scale=1.0, shape=1.0, dof=1.0], all the rest [None]. *)
Definition mcmc_defaults (distribution : value) : McmcArgs :=
  mkMcmcArgs distribution
    (VFloat 0) (VFloat 1) (VFloat 1) (VFloat 1)
    VNone VNone VNone VNone VNone VNone VNone VNone VNone VNone
    VNone VNone VNone VNone VNone VNone
    VNone VNone VNone VNone VNone VNone VNone VNone VNone VNone.

(** [mcmc(conn, distribution, location, scale, shape, dof)], the newer
    named parameters and the sampler settings left out. *)
Definition mcmc_aliases (distribution location scale shape dof : value)
  : McmcArgs :=
  mkMcmcArgs distribution location scale shape dof
    VNone VNone VNone VNone VNone VNone VNone VNone VNone VNone
    VNone VNone VNone VNone VNone VNone
    VNone VNone VNone VNone VNone VNone VNone VNone VNone VNone.

Definition dstr_param_lst : list (string * list string) :=
  [("normal", ["mu"; "sigma"]);
   ("skew_normal", ["xi"; "omega"; "alpha"]);
   ("student_t", ["nu"; "mu"; "sigma"]);
   ("cauchy", ["mu"; "sigma"]);
   ("laplace", ["mu"; "sigma"]);
   ("logistic", ["mu"; "sigma"]);
   ("gumbel", ["mu"; "beta"]);
   ("exponential", ["beta"]);
   ("chi_square", ["nu"]);
   ("invchi_square", ["nu"]);
   ("weibull", ["alpha"; "sigma"]);
   ("frechet", ["alpha"; "sigma"]);
   ("rayleigh", ["sigma"]);
   ("multinormal", ["mu"; "sigma"]);
   ("multinormalprec", ["mu"; "omega"]);
   ("multinormalcholesky", ["mu"; "L"]);
   ("mutistudent_t", ["nu"; "mu"; "sigma"]);
   ("dirichlet", ["alpha"]);
   ("lognormal", ["mu"; "sigma"]);
   ("invgamma", ["alpha"; "beta"]);
   ("beta", ["alpha"; "beta"]);
   ("pareto", ["y_min"; "alpha"]);
   ("lomax", ["lambda"; "alpha"])].

(** [d in names] *)
Definition str_in (d : string) (names : list string) : bool :=
  existsb (String.eqb d) names.

Definition number : constraint := CTypes [Tfloat; Tint].
Definition list_or_array : constraint := CTypes [Tlist; Tndarray].

(** [if isinstance(x, np.ndarray): x = list(x.reshape([-1]))] *)
Definition array_to_list (x : value) : value :=
  match x with
  | VNdarray l => VList l
  | _ => x
  end.

Definition np_error : string :=
  "setting an array element with a sequence.".

(** [if isinstance(x, np.ndarray): x = list(x.reshape([-1]))
     elif isinstance(x, list) and isinstance(x[0], list):
         x = list(np.array(x).reshape([-1]))]: the test of [x[0]] fails on
    an empty list; what numpy makes of a list of lists is the
    environment's. *)
Definition flatten_matrix (x : value) : outcome value :=
  match x with
  | VNdarray l => Return (VList l)
  | VList [] => Raise IndexError
  | VList (VList _ :: _) =>
      match np_ravel env x with
      | Some l => Return (VList l)
      | None => Raise (ValueError np_error)
      end
  | _ => Return x
  end.

(** [x is not False] *)
Definition is_not_False (x : value) : bool :=
  match x with
  | VBool false => false
  | _ => true
  end.

Definition or_else (x fallback : value) : value :=
  if is_none x then fallback else x.

(** [[v] if not isinstance(v, list) else v] *)
Definition as_list (v : value) : list value :=
  match v with
  | VList l => l
  | _ => [v]
  end.

(** [str(distr_param)]: the dict printed in insertion order. *)
Definition str_dict (d : list (string * list value)) : string :=
  "{" ++ join ", " (map (fun kv => py_repr (VStr (fst kv)) ++ ": " ++
                                   py_repr (VList (snd kv))) d) ++ "}".

Definition single_quote : ascii := ascii_of_nat 39.
Definition double_quote : ascii := ascii_of_nat 34.

(** The text of the DISTRIBUTION_PARAM row: [str(distr_param)] with every
    single quote replaced by a double quote. *)
Definition distribution_param_blob (d : list (string * list value)) : string :=
  replace_char single_quote double_quote (str_dict d).

Definition mcmc_tables (unique_id : string) : list string :=
  map (fun name => "#PAL_MCMC_" ++ name ++ "_TBL_" ++ unique_id)
      ["PARAMETER"; "RESULT"].

(** The locals of [mcmc] that the invocation half reads. *)
Record McmcMarshalled : Type := mkMcmcMarshalled {
  distribution_name : string;
  param_value : list (string * value);
  distr_param : list (string * list value);
  dim : Z;
  param_rows : list param_row
}.

Notation "x <~ c ;; k" := (bindo c (fun x => k))
  (at level 61, c at next level, right associativity).

(** [{param.upper(): ... for param in dstr_param_lst[distribution]}] *)
Fixpoint build_distr_param (param_value : list (string * value))
  (params : list string) : outcome (list (string * list value)) :=
  match params with
  | [] => Return []
  | param :: params' =>
      v <~ dict_get param_value param ;;
      rest <~ build_distr_param param_value params' ;;
      Return ((upper param, as_list v) :: rest)
  end.

(** The validation and encoding half of [mcmc]: from the arguments to
    [param_rows].  It sends nothing through the connection. *)
Definition mcmc_marshal (a : McmcArgs) : outcome McmcMarshalled :=
  distribution <~ arg "distribution" (m_distribution a)
                    (CDict (map (fun kv => (fst kv, fst kv)) dstr_param_lst))
                    true ;;
  match distribution with
  | VStr distribution =>
  location <~ arg "location" (m_location a) number false ;;
  shape <~ arg "shape" (m_shape a) number false ;;
  scale <~ arg "scale" (m_scale a) number false ;;
  dof <~ arg "dof" (m_dof a) number false ;;
  chain_iter <~ arg "chain_iter" (m_chain_iter a) (CType Tint) false ;;
  random_state <~ arg "random_state" (m_random_state a) (CType Tint) false ;;
  init_radius <~ arg "init_radius" (m_init_radius a) (CType Tfloat) false ;;
  adapt <~ arg "adapt" (m_adapt a) (CType Tbool) false ;;
  warmup <~ arg "warmup" (m_warmup a) (CType Tint) false ;;
  thin <~ arg "thin" (m_thin a) (CType Tint) false ;;
  adapt_gamma <~ arg "adapt_gamma" (m_adapt_gamma a) (CType Tfloat) false ;;
  adapt_delta <~ arg "adapt_delta" (m_adapt_delta a) (CType Tfloat) false ;;
  adapt_kappa <~ arg "adapt_kappa" (m_adapt_kappa a) (CType Tfloat) false ;;
  adapt_offset <~ arg "adapt_offset" (m_adapt_offset a) (CType Tfloat) false ;;
  adapt_init_buffer <~ arg "adapt_init_buffer" (m_adapt_init_buffer a)
                         (CType Tint) false ;;
  adapt_term_buffer <~ arg "adapt_term_buffer" (m_adapt_term_buffer a)
                         (CType Tint) false ;;
  adapt_window <~ arg "adapt_window" (m_adapt_window a) (CType Tint) false ;;
  stepsize <~ arg "stepsize" (m_stepsize a) (CType Tfloat) false ;;
  stepsize_jitter <~ arg "stepsize_jitter" (m_stepsize_jitter a)
                       (CType Tfloat) false ;;
  max_depth <~ arg "max_depth" (m_max_depth a) (CType Tint) false ;;
  let dim := 1 in
  let multi := contains "multi" distribution in
  mu <~ arg "mu" (m_mu a) (if multi then list_or_array else number)
          (multi || String.eqb distribution "lognormal") ;;
  let mu := array_to_list mu in
  let dim :=
    match mu with
    | VList l => if multi then Z.of_nat (List.length l) else dim
    | _ => dim
    end in
  let mu := or_else mu location in
  let matrix_sigma := str_in distribution ["multinormal"; "multistudent_t"] in
  sigma <~ arg "sigma" (m_sigma a)
             (if matrix_sigma then list_or_array else number) matrix_sigma ;;
  let sigma := array_to_list sigma in
  let sigma := or_else sigma scale in
  xi <~ arg "xi" (m_xi a) (CType Tfloat) false ;;
  let xi := or_else xi location in
  alpha <~ arg "alpha" (m_alpha a)
             (if String.eqb distribution "dirichlet" then list_or_array
              else number)
             (str_in distribution ["dirichlet"; "weibull"; "frechet"; "beta";
                                   "pareto"; "lomax"; "invgamma"]) ;;
  let alpha := array_to_list alpha in
  let dim :=
    match alpha with
    | VList l =>
        if contains "diri" distribution then Z.of_nat (List.length l) else dim
    | _ => dim
    end in
  let alpha := or_else alpha shape in
  beta <~ arg "beta" (m_beta a) number
            (str_in distribution ["invgamma"; "beta"]) ;;
  beta <~ (if is_none beta then
             if String.eqb distribution "gumbel" then Return scale
             else py_truediv (VFloat 1) scale
           else Return beta) ;;
  nu <~ arg "nu" (m_nu a) number (String.eqb distribution "invchi_square") ;;
  let nu := or_else nu dof in
  omega <~ arg "omega" (m_omega a)
             (if contains "normalprec" distribution then list_or_array
              else CType Tfloat)
             (String.eqb distribution "multinormalprec") ;;
  omega <~ flatten_matrix omega ;;
  L <~ arg "L" (m_L a) list_or_array
         (String.eqb distribution "multinormalcholesky") ;;
  L <~ flatten_matrix L ;;
  y_min <~ arg "y_min" (m_y_min a) (CType Tfloat)
             (String.eqb distribution "pareto") ;;
  lambda_ <~ arg "lambda_" (m_lambda_ a) (CType Tfloat)
               (String.eqb distribution "lomax") ;;
  let param_value :=
    [("mu", mu); ("sigma", sigma); ("xi", xi);
     ("alpha", alpha); ("beta", beta);
     ("nu", nu); ("omega", omega); ("L", L);
     ("y_min", y_min); ("lambda", lambda_)] in
  params <~ dict_get dstr_param_lst distribution ;;
  distr_param <~ build_distr_param param_value params ;;
  let param_rows : list param_row :=
    [("DISTRIBUTION_NAME", VNone, VNone, VStr distribution);
     ("DISTRIBUTION_PARAM", VNone, VNone,
      VStr (distribution_param_blob distr_param));
     ("DIMENSION", VInt dim, VNone, VNone);
     ("ITER", chain_iter, VNone, VNone);
     ("RANDOM_SEED", random_state, VNone, VNone);
     ("INIT_RADIUS", VNone, init_radius, VNone);
     ("ADAPT_ENGAGED", adapt, VNone, VNone);
     ("WARMUP", warmup, VNone, VNone);
     ("THIN", thin, VNone, VNone);
     ("STEPSIZE", stepsize, VNone, VNone);
     ("STEPSIZE_JITTER", stepsize_jitter, VNone, VNone);
     ("MAX_TREEDEPTH", max_depth, VNone, VNone)] in
  let param_rows :=
    if is_not_False adapt then
      (param_rows ++
       [("ADAPT_GAMMA", VNone, adapt_gamma, VNone);
        ("ADAPT_DELTA", VNone, adapt_delta, VNone);
        ("ADAPT_KAPPA", VNone, adapt_kappa, VNone);
        ("ADAPT_T0", VNone, adapt_offset, VNone);
        ("ADAPT_INIT_BUFFER", adapt_init_buffer, VNone, VNone);
        ("ADAPT_TERM_BUFFER", adapt_term_buffer, VNone, VNone);
        ("ADAPT_WINDOW", adapt_window, VNone, VNone)])%list
    else param_rows in
  Return (mkMcmcMarshalled distribution param_value distr_param dim param_rows)
  | _ => Raise (TypeError "distribution is not a string")
  end.

(** [mcmc]: the procedure is invoked with the parameter table and the name
    of the result table, whose handle is returned. *)
Definition mcmc (a : McmcArgs) : M pyresult :=
  require_pal_usable ;;;
  m <- lift (mcmc_marshal a) ;;
  u <- uuid1_str ;;
  let unique_id := unique_id_of u in
  let tables := mcmc_tables unique_id in
  match tables with
  | [param_tbl; result_tbl] =>
      try_except
        (call_pal_auto_with_hint "PAL_MCMC"
           [ArgParameterTable (with_data param_tbl (param_rows m));
            ArgName result_tbl])
        (db_except tables) ;;;
      ret (ResDataFrame (conn_table result_tbl))
  | _ => raise (ValueError "not enough values to unpack")
  end.

(* ----------------------------------------------------------------- *)
(** *** The entry points that take [num_random, seed, thread_ratio] *)

(** A call of one of the twenty sampling functions, by its own arguments. *)
Inductive Dist : Type :=
| Bernoulli (p : value)
| Beta (a b : value)
| Binomial (n p : value)
| Cauchy (location scale : value)
| ChiSquared (dof : value)
| Exponential (lamb : value)
| Gumbel (location scale : value)
| FisherF (dof1 dof2 : value)
| Gamma (shape scale : value)
| Geometric (p : value)
| Lognormal (mean sigma : value)
| NegativeBinomial (n p : value)
| Normal (mean sigma variance : value)
| Pert (minimum mode maximum scale : value)
| Poisson (theta : value)
| StudentT (dof : value)
| Uniform (low high : value)
| Weibull (shape scale : value)
| Multinomial (n pvals : value).

Definition sample (d : Dist) (num_random seed thread_ratio : value)
  : M pyresult :=
  match d with
  | Bernoulli p => bernoulli p num_random seed thread_ratio
  | Beta a b => beta a b num_random seed thread_ratio
  | Binomial n p => binomial n p num_random seed thread_ratio
  | Cauchy location scale => cauchy location scale num_random seed thread_ratio
  | ChiSquared dof => chi_squared dof num_random seed thread_ratio
  | Exponential lamb => exponential lamb num_random seed thread_ratio
  | Gumbel location scale => gumbel location scale num_random seed thread_ratio
  | FisherF dof1 dof2 => f dof1 dof2 num_random seed thread_ratio
  | Gamma shape scale => gamma shape scale num_random seed thread_ratio
  | Geometric p => geometric p num_random seed thread_ratio
  | Lognormal mean sigma => lognormal mean sigma num_random seed thread_ratio
  | NegativeBinomial n p => negative_binomial n p num_random seed thread_ratio
  | Normal mean sigma variance =>
      normal mean sigma variance num_random seed thread_ratio
  | Pert minimum mode maximum scale =>
      pert minimum mode maximum scale num_random seed thread_ratio
  | Poisson theta => poisson theta num_random seed thread_ratio
  | StudentT dof => student_t dof num_random seed thread_ratio
  | Uniform low high => uniform low high num_random seed thread_ratio
  | Weibull shape scale => weibull shape scale num_random seed thread_ratio
  | Multinomial n pvals => multinomial n pvals num_random seed thread_ratio
  end.

End Wrappers.

(** The name under which each entry point registers its distribution: the
    DISTRIBUTIONNAME it passes on, which prefixes its temporary tables. *)
Definition dist_name (d : Dist) : string :=
  match d with
  | Bernoulli _ => "BERNOULLI"
  | Beta _ _ => "BETA"
  | Binomial _ _ => "BINOMIAL"
  | Cauchy _ _ => "CAUCHY"
  | ChiSquared _ => "CHI_SQUARED"
  | Exponential _ => "EXPONENTIAL"
  | Gumbel _ _ => "EXTREME_VALUE"
  | FisherF _ _ => "FISHER_F"
  | Gamma _ _ => "GAMMA"
  | Geometric _ => "GEOMETRIC"
  | Lognormal _ _ => "LOGNORMAL"
  | NegativeBinomial _ _ => "NEGATIVE_BINOMIAL"
  | Normal _ _ _ => "NORMAL"
  | Pert _ _ _ _ => "PERT"
  | Poisson _ => "POISSON"
  | StudentT _ => "STUDENT_T"
  | Uniform _ _ => "UNIFORM"
  | Weibull _ _ => "WEIBULL"
  | Multinomial _ _ => "MULTINOMIAL"
  end.

Definition is_multinomial (d : Dist) : bool :=
  match d with
  | Multinomial _ _ => true
  | _ => false
  end.

(** The scalars of a nesting in row-major order: the elements numpy gives
    for a rectangular nesting of floats. *)
Fixpoint row_major (x : value) : list value :=
  let fix go (l : list value) : list value :=
    match l with
    | [] => []
    | y :: l' => (row_major y ++ go l')%list
    end in
  match x with
  | VList l => go l
  | VTuple l => go l
  | VNdarray l => go l
  | _ => [x]
  end.

(** A collaborator that never fails, with [pyodbc] importable, identifiers
    numbered from a fixed stem, a stand-in float printer, and a numpy that
    accepts every nesting and lists its scalars in row-major order. *)
Definition quiet_env : Env :=
  mkEnv (fun _ _ => None) true
        (fun n => "6ba7b810-9dad-11d1-80b4-00c04fd430c" ++ str_of_Z (Z.of_nat n))
        (fun q => if Pos.eqb (Qden q) 1 then str_of_Z (Qnum q) ++ ".0"
                  else str_of_Z (Qnum q) ++ "/" ++ str_of_Z (Z.pos (Qden q)))
        (fun x => Some (row_major x)).

Unset Implicit Arguments.

(* ================================================================= *)
(** ** Vocabulary of the properties *)

(** A call of any of the twenty-one entry points. *)
Inductive Call : Type :=
| Sampling (d : Dist) (num_random seed thread_ratio : value)
| Mcmc (a : McmcArgs).

Definition entry (env : Env) (c : Call) : M pyresult :=
  match c with
  | Sampling d num_random seed thread_ratio =>
      sample env d num_random seed thread_ratio
  | Mcmc a => mcmc env a
  end.

(** The temporary table names a call generates from its identifier. *)
Definition temp_tables (c : Call) (unique_id : string) : list string :=
  match c with
  | Sampling d _ _ _ => rds_tables (dist_name d) unique_id
  | Mcmc _ => mcmc_tables unique_id
  end.

(** The identifier of the call started in world [w]. *)
Definition call_unique_id (env : Env) (w : World) : string :=
  unique_id_of (uuid1 env (uuid_calls w)).

Definition add_events (w : World) (evs : list Event) : World :=
  mkWorld (events w ++ evs)%list (log w) (uuid_calls w).

Definition add_log (w : World) (r : LogRecord) : World :=
  mkWorld (events w) (log w ++ [r])%list (uuid_calls w).

(** The database errors the failure handler catches: [dbapi.Error], and
    [pyodbc.Error], which exists only when [pyodbc] was imported. *)
Definition is_db_error (env : Env) (e : exn) : bool :=
  match e with
  | DbapiError _ => true
  | PyodbcError _ _ => pyodbc_imported env
  | _ => false
  end.

(** Scratch-table creation and procedure invocation. *)
Definition is_invocation (ev : Event) : bool :=
  match ev with
  | EvCreate _ | EvCallPal _ _ => true
  | _ => false
  end.

(** What the failure handler logs for a database error. *)
Definition logged_text (e : exn) : string :=
  match e with
  | PyodbcError _ msg => msg
  | _ => str_exn e
  end.

(** The finite Python numbers: an [int] or a finite [float], with its
    value. *)
Inductive py_number : value -> Q -> Prop :=
| PyInt (z : Z) : py_number (VInt z) (inject_Z z)
| PyFloat (q : Q) : py_number (VFloat q) q.

(** The Python numbers, finite or not: an [int] or a [float], with its
    value as an extended real, and the float of that value. *)
Inductive py_real : value -> ext -> Prop :=
| RealNumber (v : value) (q : Q) : py_number v q -> py_real v (Fin q)
| RealNonfinite (x : nonfinite) : py_real (VNonfinite x) (Special x).

Definition as_float (x : ext) : value :=
  match x with
  | Fin q => VFloat q
  | Special s => VNonfinite s
  end.

(** The table names an event mentions. *)
Definition arg_names (a : pal_arg) : list string :=
  match a with
  | ArgDataFrame (DataFrameOf n) => [n]
  | ArgParameterTable pt => [ptable_name pt]
  | ArgName n => [n]
  end.

Definition event_names (ev : Event) : list string :=
  match ev with
  | EvRequirePal => []
  | EvCreate t => [table_name t]
  | EvCallPal _ args => flat_map arg_names args
  | EvDrop n => [n]
  end.

(** Whether the kind [d] of [mcmc] takes the named parameter. *)
Definition kind_takes (d param : string) : bool :=
  match assoc d dstr_param_lst with
  | Some params => str_in param params
  | None => false
  end.

(** The list encoded under [key] in the DISTRIBUTION_PARAM dict. *)
Definition encoded (m : McmcMarshalled) (key : string) : option (list value) :=
  assoc key (distr_param m).

(** An omitted parameter is resolved to its alias. *)
Definition fallback (given alias resolved : value) : Prop :=
  given = VNone -> resolved = alias.

(** A value that is not a list is encoded as a one-element list. *)
Definition scalar (v : value) : Prop := as_list v = [v].

(** What [1.0/s] returns when it returns: the inverse of a finite number
    other than zero; for a float that is not finite, zero for an infinity
    and NaN for a NaN. *)
Definition inverse_of (s v : value) : Prop :=
  (exists q, as_num s = Some q /\ ~ (q == 0)%Q /\ v = VFloat (1 / q)) \/
  (exists x, s = VNonfinite x /\
             v = match x with NaN => VNonfinite NaN | _ => VFloat 0 end).

(** Every table name mentioned by the events belongs to [tables]. *)
Definition uses_only (new : list Event) (tables : list string) : Prop :=
  forall ev n, In ev new -> In n (event_names ev) -> In n tables.

(** The requests of a successful sampling call and its result: the three
    tables are the created distribution-parameter table, the parameter table
    and the result table behind the returned handle. *)
Definition sampling_success (new : list Event) (r : pyresult)
  (tables : list string) : Prop :=
  exists t proc pt result_tbl,
    new = [EvRequirePal; EvCreate t;
           EvCallPal proc [ArgDataFrame (DataFrameOf (table_name t));
                           ArgParameterTable pt;
                           ArgName result_tbl]] /\
    tables = [table_name t; ptable_name pt; result_tbl] /\
    r = ResDataFrame (DataFrameOf result_tbl).

(** The requests of a successful [mcmc] call and its result: two tables,
    the parameter table and the result table behind the returned handle. *)
Definition mcmc_success (new : list Event) (r : pyresult)
  (tables : list string) : Prop :=
  exists pt result_tbl,
    new = [EvRequirePal;
           EvCallPal "PAL_MCMC" [ArgParameterTable pt; ArgName result_tbl]] /\
    tables = [ptable_name pt; result_tbl] /\
    r = ResDataFrame (DataFrameOf result_tbl).

(** Among the events, a procedure call whose parameter table carries the
    SEED row with value [s]. *)
Definition sends_seed (s : value) (evs : list Event) : Prop :=
  exists proc args pt,
    In (EvCallPal proc args) evs /\
    In (ArgParameterTable pt) args /\
    In ("SEED", s, VNone, VNone) (ptable_data pt).

(** The name of the table behind the handle a run returned, if any. *)
Definition handle_of (r : outcome pyresult * World) : option string :=
  match fst r with
  | Return (ResDataFrame (DataFrameOf n)) => Some n
  | _ => None
  end.

(** The three requests of a call built on [_rds] that meets no failure:
    the PAL check, the creation of the distribution-parameter table with
    the pairs [dist_params], and the procedure call with what [arg] made of
    the three general arguments. *)
Definition rds_requests (tables : list string)
  (dist_params : list (string * value)) (num_random seed thread_ratio : value)
  : list Event :=
  [EvRequirePal;
   EvCreate (mkTable (nth 0 tables "")
               [("NAME", NVARCHAR 100); ("VALUE", NVARCHAR 100)]
               (dist_rows dist_params));
   EvCallPal "PAL_DISTRIBUTION_RANDOM"
     [ArgDataFrame (DataFrameOf (nth 0 tables ""));
      ArgParameterTable
        (with_data (nth 1 tables "")
           [("NUM_RANDOM", num_random, VNone, VNone);
            ("SEED", seed, VNone, VNone);
            ("THREAD_RATIO", VNone, thread_ratio, VNone)]);
      ArgName (nth 2 tables "")]].

(** The pairs [pert] hands to [_rds]. *)
Definition pert_rows (x0 x1 x2 : ext) (scale : value) : list (string * value) :=
  [("DISTRIBUTIONNAME", VStr "PERT");
   ("MIN", as_float x0);
   ("MODE", as_float x1);
   ("MAX", as_float x2);
   ("SCALE", scale)].

(** A collaborator that answers every request. *)
Definition answers_all (env : Env) : Prop :=
  forall h ev, remote env h ev = None.

(** A collaborator whose procedure invocations all fail with a database
    error, everything else succeeding. *)
Definition failing_env : Env :=
  mkEnv (fun _ ev =>
           match ev with
           | EvCallPal _ _ => Some (DbapiError "invalid table name")
           | _ => None
           end)
        true (uuid1 quiet_env) (float_repr quiet_env) (np_ravel quiet_env).

(* ================================================================= *)
(** ** Vocabulary of the further properties *)

Definition shapes_msg : string :=
  "Parameters shape and scale should be greater than zero.".

(** The integer [int(n)] keeps of a number: its truncation towards zero. *)
Definition truncate (q : Q) : Z := Z.quot (Qnum q) (Z.pos (Qden q)).

Definition is_drop (ev : Event) : bool :=
  match ev with
  | EvDrop _ => true
  | _ => false
  end.

(** A collaborator whose procedure invocations fail with an error that is
    not a database error, on an installation without [pyodbc]. *)
Definition broken_env : Env :=
  mkEnv (fun _ ev =>
           match ev with
           | EvCallPal _ _ => Some (OtherError "connection object is closed")
           | _ => None
           end)
        false (uuid1 quiet_env) (float_repr quiet_env) (np_ravel quiet_env).

(** A collaborator on which PAL is not usable. *)
Definition unusable_env : Env :=
  mkEnv (fun _ _ => Some (OtherError "insufficient privilege")) true
        (uuid1 quiet_env) (float_repr quiet_env) (np_ravel quiet_env).

(** The rows of the parameter table of a sampling call, from what [arg]
    made of the three general arguments: NUM_RANDOM, then SEED and
    THREAD_RATIO when they were given, after DISTRIBUTIONNAME for
    [multinomial]. *)
Definition general_rows (d : Dist) (num_random seed thread_ratio : value)
  : list param_row :=
  (if is_multinomial d
   then [("DISTRIBUTIONNAME", VNone, VNone, VStr "MULTINOMIAL")] else [])
  ++ [("NUM_RANDOM", num_random, VNone, VNone)]
  ++ (if is_none seed then [] else [("SEED", seed, VNone, VNone)])
  ++ (if is_none thread_ratio then []
      else [("THREAD_RATIO", VNone, thread_ratio, VNone)]).

(** Exactly one of the three value slots of the row is populated. *)
Definition one_slot (r : param_row) : Prop :=
  match r with
  | (_, i, d, s) =>
      (i <> VNone /\ d = VNone /\ s = VNone) \/
      (i = VNone /\ d <> VNone /\ s = VNone) \/
      (i = VNone /\ d = VNone /\ s <> VNone)
  end.

Definition procedure_of (d : Dist) : string :=
  if is_multinomial d then "PAL_DISTRIBUTION_RANDOM_MULTIVARIATE"
  else "PAL_DISTRIBUTION_RANDOM".

Definition sampling_call (d : Dist) (num_random seed thread_ratio : value)
  (ev : Event) : Prop :=
  exists df pt out,
    ev = EvCallPal (procedure_of d)
           [ArgDataFrame df; ArgParameterTable pt; ArgName out] /\
    ptable_data pt = general_rows d num_random seed thread_ratio /\
    Forall one_slot (ptable_data pt).

(** What a sampling call that returned was given, and what it sent: the
    three general arguments passed [arg], [num_random < 0] was evaluated and
    false, and the procedure call carries the rows of what [arg] returned. *)
Definition returned_with (d : Dist) (nr seed tr : value) (w' : World) : Prop :=
  exists nr' seed' tr',
    arg "num_random" nr (CType Tint) false = Return nr' /\
    arg "seed" seed (CType Tint) false = Return seed' /\
    arg "thread_ratio" tr (CType Tfloat) false = Return tr' /\
    py_lt nr' (VInt 0) = Return false /\
    exists pre ev,
      events w' = (pre ++ [ev])%list /\ sampling_call d nr' seed' tr' ev.

(** A number (an [int], a [float] or a [bool]) that is not below zero: a
    finite one is zero or above, and NaN and the positive infinity count,
    as [pval < 0] is false of them. *)
Definition non_negative (v : value) : Prop :=
  exists x, as_ext v = Some x /\ ext_lt x (Fin 0) = false /\
            forall q, x = Fin q -> (0 <= q)%Q.

(** The columns of the scratch table of [multinomial] for [k]
    probabilities: TRIALS, then P1 .. Pk. *)
Definition multinomial_spec (k : nat) : list (string * sqltype) :=
  ("TRIALS", NVARCHAR 100) ::
  map (fun i : nat => ("P" ++ str_of_Z (Z.of_nat i), DOUBLE)) (seq 1 k).

(** A scratch table of [multinomial]: the integer [n] and the tuple
    [pvals] of non-negative numbers behind it, its columns and its one
    row. *)
Definition well_formed_table (n pvals : value) (t : Table) : Prop :=
  exists z ps,
    n = VInt z /\ pvals = VTuple ps /\ Forall non_negative ps /\
    table_spec t = multinomial_spec (List.length ps) /\
    table_data t = [VInt z :: ps] /\
    Forall (fun row => List.length row = List.length (table_spec t))
           (table_data t).

(** A character of the identifier part of a table name: not a hyphen and
    not a lower-case ASCII letter. *)
Definition id_char (c : ascii) : bool :=
  negb (Ascii.eqb c "-") &&
  negb (Nat.leb 97 (nat_of_ascii c) && Nat.leb (nat_of_ascii c) 122).

(** The procedure call of [mcmc] for the marshalled arguments [m], started
    in world [w]. *)
Definition mcmc_call (env : Env) (w : World) (m : McmcMarshalled) : Event :=
  EvCallPal "PAL_MCMC"
    [ArgParameterTable
       (with_data (nth 0 (mcmc_tables (call_unique_id env w)) "")
                  (param_rows m));
     ArgName (nth 1 (mcmc_tables (call_unique_id env w)) "")].

(** [mcmc(conn, None)] *)
Definition omitted_kind_args : McmcArgs := mcmc_defaults VNone.

Definition row_name (r : param_row) : string := fst (fst (fst r)).

Definition sampler_row_names : list string :=
  ["DISTRIBUTION_NAME"; "DISTRIBUTION_PARAM"; "DIMENSION"; "ITER";
   "RANDOM_SEED"; "INIT_RADIUS"; "ADAPT_ENGAGED"; "WARMUP"; "THIN";
   "STEPSIZE"; "STEPSIZE_JITTER"; "MAX_TREEDEPTH"].

Definition adapt_row_names : list string :=
  ["ADAPT_GAMMA"; "ADAPT_DELTA"; "ADAPT_KAPPA"; "ADAPT_T0";
   "ADAPT_INIT_BUFFER"; "ADAPT_TERM_BUFFER"; "ADAPT_WINDOW"].

(** The seven settings of the adaptation as the caller gave them, under
    the names of their rows. *)
Definition adapt_settings (a : McmcArgs) : list (string * value) :=
  [("ADAPT_GAMMA", m_adapt_gamma a);
   ("ADAPT_DELTA", m_adapt_delta a);
   ("ADAPT_KAPPA", m_adapt_kappa a);
   ("ADAPT_T0", m_adapt_offset a);
   ("ADAPT_INIT_BUFFER", m_adapt_init_buffer a);
   ("ADAPT_TERM_BUFFER", m_adapt_term_buffer a);
   ("ADAPT_WINDOW", m_adapt_window a)].

(** The rows of the parameter table [mcmc] sends: of the rows it builds,
    those that carry a value. *)
Definition table_rows (m : McmcMarshalled) : list param_row :=
  ptable_data (with_data "" (param_rows m)).

(** [mcmc(conn, 'lomax', alpha=2.0, nu=7.0, lambda_=3.0)] *)
Definition lomax_args : McmcArgs :=
  mkMcmcArgs (VStr "lomax") (VFloat 0) (VFloat 1) (VFloat 1) (VFloat 1)
    VNone VNone VNone VNone VNone VNone VNone VNone VNone VNone
    VNone VNone VNone VNone VNone VNone
    VNone VNone VNone (VFloat 2) VNone (VFloat 7) VNone VNone VNone (VFloat 3).

(** The kinds for which [alpha] is required and a number. *)
Definition takes_required_alpha : list string :=
  ["weibull"; "frechet"; "beta"; "pareto"; "lomax"; "invgamma"].

(** The kinds whose name contains "multi": DIMENSION is the length of
    [mu]. *)
Definition counted_by_mu : list string :=
  ["multinormal"; "multinormalprec"; "multinormalcholesky"].

(** [mcmc(conn, 'multinormal', mu=[0.0, 0.0, 0.0], sigma=[1.0])] *)
Definition multinormal_args : McmcArgs :=
  mkMcmcArgs (VStr "multinormal") (VFloat 0) (VFloat 1) (VFloat 1) (VFloat 1)
    VNone VNone VNone VNone VNone VNone VNone VNone VNone VNone
    VNone VNone VNone VNone VNone VNone
    (VList [VFloat 0; VFloat 0; VFloat 0]) (VList [VFloat 1])
    VNone VNone VNone VNone VNone VNone VNone VNone.

(** What is encoded for a matrix argument: the elements of an array, what
    numpy makes of a list whose first element is a list, any other
    non-empty list as it is. *)
Definition sent_matrix (env : Env) (given : value)
  (sent : option (list value)) : Prop :=
  match given with
  | VNdarray l => sent = Some l
  | VList (VList r :: rest) =>
      exists l, np_ravel env given = Some l /\ sent = Some l
  | VList (x :: rest) => sent = Some (x :: rest)
  | _ => False
  end.

(** [mcmc(conn, 'multinormalprec', mu=[0.0, 0.0],
          omega=[[2.0, 0.0], [0.0, 2.0]])] *)
Definition multinormalprec_args : McmcArgs :=
  mkMcmcArgs (VStr "multinormalprec")
    (VFloat 0) (VFloat 1) (VFloat 1) (VFloat 1)
    VNone VNone VNone VNone VNone VNone VNone VNone VNone VNone
    VNone VNone VNone VNone VNone VNone
    (VList [VFloat 0; VFloat 0]) VNone VNone VNone VNone VNone
    (VList [VList [VFloat 2; VFloat 0]; VList [VFloat 0; VFloat 2]])
    VNone VNone VNone.

(** [mcmc(conn, 'normal', adapt_delta=2.0)] *)
Definition tuned_args : McmcArgs :=
  mkMcmcArgs (VStr "normal") (VFloat 0) (VFloat 1) (VFloat 1) (VFloat 1)
    VNone VNone VNone VNone VNone VNone VNone (VFloat 2) VNone VNone
    VNone VNone VNone VNone VNone VNone
    VNone VNone VNone VNone VNone VNone VNone VNone VNone VNone.

(** The parameter table [mcmc] sends has a row of that name. *)
Definition sent (m : McmcMarshalled) (name : string) : Prop :=
  exists r, In r (table_rows m) /\ row_name r = name.

(** The requests of a call that returns, in order, and its result: the PAL
    check, the creation of the scratch table (not for [mcmc]) and the call
    of the procedure, on the generated names [tables]; the result is the
    handle of the last of them. *)
Definition success_trace (c : Call) (tables : list string)
  (new : list Event) (r : pyresult) : Prop :=
  match c with
  | Sampling d _ _ _ =>
      exists t pt,
        new = [EvRequirePal; EvCreate t;
               EvCallPal (procedure_of d)
                 [ArgDataFrame (DataFrameOf (nth 0 tables ""));
                  ArgParameterTable pt;
                  ArgName (nth 2 tables "")]] /\
        table_name t = nth 0 tables "" /\
        ptable_name pt = nth 1 tables ""
  | Mcmc _ =>
      exists pt,
        new = [EvRequirePal;
               EvCallPal "PAL_MCMC"
                 [ArgParameterTable pt; ArgName (nth 1 tables "")]] /\
        ptable_name pt = nth 0 tables ""
  end /\
  r = ResDataFrame (DataFrameOf (last tables "")).

(* ================================================================= *)
(** ** Running a wrapper, step by step *)

Lemma pair_eq_inv (X Y : Type) (a c : X) (b d : Y) :
  (a, b) = (c, d) -> a = c /\ b = d.
Proof. intros H. injection H as -> ->. split; reflexivity. Qed.

Lemma Return_inj (X : Type) (a b : X) : Return a = Return b -> a = b.
Proof. intros H. injection H as ->. reflexivity. Qed.

Lemma cons_eq_inv (X : Type) (x y : X) (l m : list X) :
  x :: l = y :: m -> x = y /\ l = m.
Proof. intros H. injection H as -> ->. split; reflexivity. Qed.

Section Runs.

Variable env : Env.
Variables A B : Type.

Lemma try_drop_run names w :
  try_drop env names w = (Return tt, add_events w (map EvDrop names)).
Proof.
  revert w. induction names as [|n names IH]; intros w.
  - unfold add_events. cbn. rewrite app_nil_r. destruct w; reflexivity.
  - cbn [try_drop]. unfold bind, try_except, request, ret.
    destruct (remote env (events w) (EvDrop n)); rewrite IH;
      unfold add_events; cbn; rewrite <- app_assoc; reflexivity.
Qed.

Lemma bind_lift (x : outcome A) (k : A -> M B) w :
  bind (lift x) k w =
  match x with
  | Return a => k a w
  | Raise e => (Raise e, w)
  end.
Proof. unfold bind, lift. destruct x; reflexivity. Qed.

Lemma bind_request ev (k : unit -> M B) w :
  bind (request env ev) k w =
  match remote env (events w) ev with
  | Some e => (Raise e, add_events w [ev])
  | None => k tt (add_events w [ev])
  end.
Proof.
  unfold bind, request, add_events.
  destruct (remote env (events w) ev); reflexivity.
Qed.

Lemma bind_uuid1_str (k : string -> M B) w :
  bind (uuid1_str env) k w =
  k (uuid1 env (uuid_calls w)) (mkWorld (events w) (log w) (S (uuid_calls w))).
Proof. reflexivity. Qed.

Lemma value_error_run msg w :
  @value_error B msg w = (Raise (ValueError msg), add_log w (LogError msg)).
Proof. reflexivity. Qed.

Lemma db_except_run (C : Type) tables e w :
  @db_except env C tables e w =
  if is_db_error env e then
    (Raise e,
     add_events (add_log w (LogException (logged_text e))) (map EvDrop tables))
  else (Raise (if pyodbc_imported env then e else NameError "pyodbc"), w).
Proof.
  unfold db_except.
  destruct e; cbn [is_db_error]; try (destruct (pyodbc_imported env); reflexivity).
  - unfold bind, logger_exception, raise. rewrite try_drop_run. reflexivity.
  - destruct (pyodbc_imported env); [|reflexivity].
    unfold bind, logger_exception, raise. rewrite try_drop_run. reflexivity.
Qed.

Lemma guarded_create_call tables t proc args (k : unit -> M B) w :
  bind (try_except (bind (create env t)
                      (fun _ => call_pal_auto_with_hint env proc args))
                   (db_except env tables)) k w =
  match remote env (events w) (EvCreate t) with
  | Some e => db_except env tables e (add_events w [EvCreate t])
  | None =>
      match remote env (events w ++ [EvCreate t]) (EvCallPal proc args) with
      | Some e =>
          db_except env tables e (add_events w [EvCreate t; EvCallPal proc args])
      | None => k tt (add_events w [EvCreate t; EvCallPal proc args])
      end
  end.
Proof.
  unfold try_except, create, call_pal_auto_with_hint, bind, request, add_events.
  destruct (remote env (events w) (EvCreate t)).
  { rewrite !db_except_run. destruct (is_db_error env e); reflexivity. }
  cbn [events log uuid_calls].
  destruct (remote env (events w ++ [EvCreate t]) (EvCallPal proc args));
    rewrite <- app_assoc; [|reflexivity].
  rewrite !db_except_run. destruct (is_db_error env e); reflexivity.
Qed.

Lemma guarded_call tables proc args (k : unit -> M B) w :
  bind (try_except (call_pal_auto_with_hint env proc args)
                   (db_except env tables)) k w =
  match remote env (events w) (EvCallPal proc args) with
  | Some e => db_except env tables e (add_events w [EvCallPal proc args])
  | None => k tt (add_events w [EvCallPal proc args])
  end.
Proof.
  unfold bind, try_except, call_pal_auto_with_hint, request, add_events.
  destruct (remote env (events w) (EvCallPal proc args)); [|reflexivity].
  rewrite !db_except_run. destruct (is_db_error env e); reflexivity.
Qed.

End Runs.

(** Symbolic execution of a run recorded in a hypothesis
    [H : wrapper ... w = (o, w')]: one head step at a time, splitting on
    every outcome the code distinguishes. *)
Ltac simp_run H :=
  cbv beta in H;
  cbn [events log uuid_calls add_events add_log rds_tables multinomial_tables
       mcmc_tables List.map table_roles fst snd] in H.

Ltac head_step H :=
  lazymatch type of H with
  | bind (lift ?x) _ _ = _ =>
      rewrite bind_lift in H;
      first [ match goal with Hx : x = _ |- _ => rewrite Hx in H end
            | destruct x eqn:? ]
  | bind (require_pal_usable _) _ _ = _ => unfold require_pal_usable in H
  | bind (request ?env ?ev) _ ?w = _ =>
      rewrite bind_request in H;
      first [ match goal with
              | Hx : remote env (events w) ev = _ |- _ => rewrite Hx in H
              end
            | let r := fresh "Hremote" in
              destruct (remote env (events w) ev) eqn:r ]
  | bind (uuid1_str _) _ _ = _ => rewrite bind_uuid1_str in H
  | bind (try_except (bind (create _ _) _) _) _ _ = _ =>
      rewrite guarded_create_call in H
  | bind (try_except (call_pal_auto_with_hint _ _ _) _) _ _ = _ =>
      rewrite guarded_call in H
  | match remote ?env ?h ?ev with _ => _ end = _ =>
      let r := fresh "Hremote" in destruct (remote env h ev) eqn:r
  | db_except _ _ ?e _ = _ =>
      rewrite db_except_run in H;
      let d := fresh "Hdb" in destruct (is_db_error _ e) eqn:d
  | value_error _ _ = _ => rewrite value_error_run in H
  | (if ?b then _ else _) _ = _ => destruct b eqn:?
  | match ?v with VTuple _ => _ | _ => _ end _ = _ => destruct v
  | ret _ _ = _ => unfold ret in H
  | raise _ _ = _ => unfold raise in H
  end; simp_run H.

Ltac run_in H := simp_run H; repeat head_step H.

Ltac finish_run H :=
  apply pair_eq_inv in H; destruct H as [? ?]; subst.

(** Decomposing a concrete list of new events as [pre ++ ev :: post]. *)
Ltac split_trace Hev :=
  lazymatch type of Hev with
  | [] = (?pre ++ _ :: _)%list =>
      exfalso; destruct pre; discriminate Hev
  | (_ :: _) = (?pre ++ _ :: _)%list =>
      let x := fresh "x" in
      let pre' := fresh "pre" in
      let Hx := fresh "Hx" in
      destruct pre as [|x pre']; cbn [List.app] in Hev;
      apply cons_eq_inv in Hev; destruct Hev as [Hx Hev];
      [ subst | subst; split_trace Hev ]
  end.

Ltac pick_member := repeat (first [left; reflexivity | right]).

Ltac strip_prefix Hev :=
  lazymatch type of Hev with
  | events ?w = (events ?w ++ _)%list =>
      rewrite <- (app_nil_r (events w)) in Hev at 1; apply app_inv_head in Hev
  | _ => apply app_inv_head in Hev
  end.

Ltac normalize_histories :=
  cbn [events add_events add_log] in *;
  repeat rewrite <- app_assoc in *;
  cbn [List.app List.map] in *.

(* ================================================================= *)
(** ** Failure of the remote call: cleanup, then the same error *)

Ltac failure_cases H :=
  run_in H;
  finish_run H;
  let pre := fresh "pre" in
  let ev := fresh "ev" in
  let post := fresh "post" in
  let e := fresh "e" in
  let Hev := fresh "Hev" in
  let Hinv := fresh "Hinv" in
  let Hrem := fresh "Hrem" in
  let Hdb := fresh "Hdb" in
  intros pre ev post e Hev Hinv Hrem Hdb;
  normalize_histories;
  strip_prefix Hev;
  split_trace Hev;
  cbn [is_invocation] in Hinv; try discriminate Hinv;
  normalize_histories;
  try congruence.

Lemma rds_failure env dps nr seed tr w o w' :
  _rds env dps nr seed tr w = (o, w') ->
  forall pre ev post e,
    events w' = (events w ++ pre ++ ev :: post)%list ->
    is_invocation ev = true ->
    remote env (events w ++ pre) ev = Some e ->
    is_db_error env e = true ->
    exists name,
      dict_get dps "DISTRIBUTIONNAME" = Return name /\
      o = Raise e /\
      post = map EvDrop (rds_tables (py_str env name) (call_unique_id env w)).
Proof.
  unfold _rds. intros H. failure_cases H.
  all: eexists; repeat split; try reflexivity; congruence.
Qed.

Lemma multinomial_failure env n pvals nr seed tr w o w' :
  multinomial env n pvals nr seed tr w = (o, w') ->
  forall pre ev post e,
    events w' = (events w ++ pre ++ ev :: post)%list ->
    is_invocation ev = true ->
    remote env (events w ++ pre) ev = Some e ->
    is_db_error env e = true ->
    o = Raise e /\
    post = map EvDrop (rds_tables "MULTINOMIAL" (call_unique_id env w)).
Proof.
  unfold multinomial. intros H. failure_cases H.
  all: repeat split; try reflexivity; congruence.
Qed.

Lemma mcmc_failure env a w o w' :
  mcmc env a w = (o, w') ->
  forall pre ev post e,
    events w' = (events w ++ pre ++ ev :: post)%list ->
    is_invocation ev = true ->
    remote env (events w ++ pre) ev = Some e ->
    is_db_error env e = true ->
    o = Raise e /\
    post = map EvDrop (mcmc_tables (call_unique_id env w)).
Proof.
  unfold mcmc. intros H. failure_cases H.
  all: repeat split; try reflexivity; congruence.
Qed.

(* ================================================================= *)
(** ** The univariate entry points validate, then call [_rds] *)

Ltac simp_goal :=
  cbv beta;
  cbn [events log uuid_calls add_events add_log rds_tables multinomial_tables
       mcmc_tables List.map table_roles fst snd].

(** Replaying a run in the goal along outcomes already known. *)
Ltac goal_step :=
  lazymatch goal with
  | |- bind (lift ?x) _ _ = _ =>
      rewrite bind_lift;
      first [ match goal with Hx : x = _ |- _ => rewrite Hx end
            | progress cbn [arg has_type type_of pytype_eqb] ]
  | |- bind (require_pal_usable _) _ _ = _ => unfold require_pal_usable
  | |- bind (request ?env ?ev) _ ?w = _ =>
      rewrite bind_request;
      match goal with Hx : remote env (events w) ev = _ |- _ => rewrite Hx end
  | |- value_error _ _ = _ => rewrite value_error_run
  | |- (if ?b then _ else _) _ = _ =>
      match goal with Hb : b = _ |- _ => rewrite Hb end
  end; simp_goal.

Ltac unfold_entry :=
  unfold bernoulli, beta, binomial, cauchy, chi_squared, exponential, gumbel, f,
    gamma, geometric, lognormal, negative_binomial, normal, pert, poisson,
    student_t, uniform, weibull.

Ltac unfold_entry_in H :=
  unfold bernoulli, beta, binomial, cauchy, chi_squared, exponential, gumbel, f,
    gamma, geometric, lognormal, negative_binomial, normal, pert, poisson,
    student_t, uniform, weibull in H.

(** Each function other than [multinomial] either rejects its own
    parameters without touching the connection, or hands over to [_rds]
    with its distribution name; which of the two does not depend on
    [num_random], [seed] or [thread_ratio]. *)
Lemma sampling_reaches_rds env d w :
  is_multinomial d = false ->
  (exists e w',
      events w' = events w /\ uuid_calls w' = uuid_calls w /\
      forall nr seed tr, sample env d nr seed tr w = (Raise e, w')) \/
  (exists dps,
      dict_get dps "DISTRIBUTIONNAME" = Return (VStr (dist_name d)) /\
      forall nr seed tr, sample env d nr seed tr w = _rds env dps nr seed tr w).
Proof.
  intros Hd.
  destruct (sample env d VNone VNone VNone w) as [o w'] eqn:H.
  destruct d; try discriminate Hd; cbn [sample dist_name] in *;
    unfold_entry_in H; run_in H.
  all: lazymatch type of H with
       | _rds _ _ _ _ _ _ = _ =>
           right; eexists; split;
           [ | intros nr seed tr; unfold_entry; simp_goal;
               repeat goal_step; reflexivity ];
           reflexivity
       | (Raise ?e, ?w1) = _ =>
           left; exists e, w1; split; [reflexivity|]; split; [reflexivity|];
           intros nr seed tr; unfold_entry; simp_goal;
           repeat goal_step; reflexivity
       end.
Qed.

Lemma no_new_event (X : Type) (l pre post : list X) (x : X) :
  l = (l ++ pre ++ x :: post)%list -> False.
Proof.
  intros H. apply (f_equal (@List.length X)) in H.
  rewrite !length_app in H. cbn in H. lia.
Qed.

(** C1. For every entry point: when the scratch-table creation or the
    procedure invocation sent by a call is answered with a database error,
    the call raises that same error (so returns no handle), and the requests
    it sends afterwards are exactly one drop for each temporary table name
    generated for the call, in order. *)
Theorem C1_cleanup_then_reraise env c w o w' pre ev post e :
  entry env c w = (o, w') ->
  events w' = (events w ++ pre ++ ev :: post)%list ->
  is_invocation ev = true ->
  remote env (events w ++ pre) ev = Some e ->
  is_db_error env e = true ->
  o = Raise e /\
  post = map EvDrop (temp_tables c (call_unique_id env w)).
Proof.
  destruct c as [d nr seed tr | a]; cbn [entry temp_tables].
  - destruct (is_multinomial d) eqn:Hm.
    + destruct d; try discriminate Hm. cbn [sample dist_name].
      intros H Hev Hinv Hrem Hdb. eapply multinomial_failure; eassumption.
    + destruct (sampling_reaches_rds env d w Hm)
        as [(e0 & w0 & Hev0 & _ & Hrun) | (dps & Hname & Hrun)];
        rewrite Hrun; intros H Hev Hinv Hrem Hdb.
      * apply pair_eq_inv in H. destruct H as [_ <-].
        rewrite Hev0 in Hev. exfalso. eapply no_new_event. exact Hev.
      * destruct (@rds_failure env dps nr seed tr w o w' H pre ev post e
                    Hev Hinv Hrem Hdb)
          as (name & Hname' & Ho & Hpost).
        rewrite Hname in Hname'. injection Hname' as <-.
        split; assumption.
  - intros H Hev Hinv Hrem Hdb. eapply mcmc_failure; eassumption.
Qed.

Lemma C1_cleanup_then_reraise_witness :
  let c := Sampling (Bernoulli (VFloat (1 # 2))) default_num_random VNone VNone in
  let r := entry failing_env c empty_world in
  fst r = Raise (DbapiError "invalid table name") /\
  skipn 3 (events (snd r)) =
  map EvDrop (temp_tables c (call_unique_id failing_env empty_world)).
Proof.
  intros c r.
  apply (@C1_cleanup_then_reraise failing_env c empty_world (fst r) (snd r)
           (firstn 2 (events (snd r)))
           (nth 2 (events (snd r)) EvRequirePal)
           (skipn 3 (events (snd r)))
           (DbapiError "invalid table name"));
    vm_compute; reflexivity.
Defined.

(* ================================================================= *)
(** ** Argument validation of the univariate entry points *)

Lemma arg_float_number attr v q :
  py_number v q -> arg attr v (CType Tfloat) false = Return (VFloat q).
Proof. intros []; reflexivity. Qed.

Lemma Qle_bool_false x y : Qle_bool x y = false -> (y < x)%Q.
Proof.
  intros H. apply Qnot_le_lt. intros Hle.
  apply Qle_bool_iff in Hle. congruence.
Qed.

Lemma Qle_bool_true x y : Qle_bool x y = true -> (x <= y)%Q.
Proof. apply Qle_bool_iff. Qed.

Ltac bool_to_Q :=
  repeat match goal with
  | H : Qle_bool _ _ = true |- _ => apply Qle_bool_true in H
  | H : Qle_bool _ _ = false |- _ => apply Qle_bool_false in H
  | H : Qeq_bool _ _ = true |- _ => apply Qeq_bool_iff in H
  | H : Qeq_bool _ _ = false |- _ => apply Qeq_bool_neq in H
  end.

Lemma outside_unit_true q :
  (q < 0 \/ 1 < q)%Q -> outside_unit (VFloat q) = Return true.
Proof.
  intros H. unfold outside_unit, py_or, py_lt, py_gt, py_cmp, Qlt_bool.
  cbn [as_num bindo].
  destruct (Qle_bool (inject_Z 0) q) eqn:H0; cbn [negb]; [|reflexivity].
  destruct (Qle_bool q (inject_Z 1)) eqn:H1; cbn [negb]; [|reflexivity].
  bool_to_Q. exfalso. change (inject_Z 0) with 0%Q in H0. change (inject_Z 1) with 1%Q in H1. lra.
Qed.

Lemma Qle_bool_total p q : Qle_bool q p = false -> Qle_bool p q = true.
Proof.
  intros H. apply Qle_bool_false in H. apply Qle_bool_iff. lra.
Qed.

Lemma ext_lt_finite p q : ext_lt (Fin p) (Fin q) = Qlt_bool p q.
Proof.
  unfold ext_lt, Qlt_bool. cbn [ext_le].
  destruct (Qle_bool q p) eqn:E; cbn [negb].
  - apply andb_false_r.
  - rewrite (Qle_bool_total _ _ E). reflexivity.
Qed.

Lemma py_lt_ext x y : py_lt (as_float x) (as_float y) = Return (ext_lt x y).
Proof.
  destruct x as [p|[]], y as [q|[]]; try reflexivity.
  unfold py_lt, py_cmp. cbn [as_float as_num]. rewrite ext_lt_finite.
  reflexivity.
Qed.

Lemma py_eq_ext x y : py_eq (as_float x) (as_float y) = ext_eq x y.
Proof. destruct x as [p|[]], y as [q|[]]; reflexivity. Qed.

Lemma ext_lt_not_eq x y : ext_lt x y = true -> ext_eq x y = false.
Proof.
  unfold ext_lt, ext_eq. intros H. apply andb_true_iff in H.
  destruct H as [_ H]. apply negb_true_iff in H. rewrite H.
  apply andb_false_r.
Qed.

Lemma ext_lt_nan_l y : ext_lt (Special NaN) y = false.
Proof. destruct y as [q|[]]; reflexivity. Qed.

Lemma ext_lt_nan_r x : ext_lt x (Special NaN) = false.
Proof. destruct x as [p|[]]; reflexivity. Qed.

Lemma not_ordered_finite q0 q1 q2 :
  ext_lt (Fin q1) (Fin q0) || ext_lt (Fin q2) (Fin q1) = true <->
  ~ (q0 <= q1 /\ q1 <= q2)%Q.
Proof.
  rewrite !ext_lt_finite. unfold Qlt_bool.
  destruct (Qle_bool q0 q1) eqn:E01; destruct (Qle_bool q1 q2) eqn:E12;
    cbn [negb orb]; bool_to_Q; split; intros H;
    try reflexivity; try discriminate H; try lra.
Qed.

(** [sorted(l) != l] on three floats: the list is left as it is exactly
    when neither the second element is less than the first nor the third
    less than the second. *)
Lemma sorted3 (x0 x1 x2 : ext) :
  let l := objects [as_float x0; as_float x1; as_float x2] in
  exists l',
    py_sorted l = Return l' /\
    py_list_eq l' l = negb (ext_lt x1 x0 || ext_lt x2 x1).
Proof.
  cbn [objects List.length seq combine].
  unfold py_sorted. cbn [sort_onto insert_sorted bindo snd].
  rewrite (py_lt_ext x1 x0).
  destruct (ext_lt x1 x0) eqn:E10; cbn [bindo insert_sorted snd orb negb].
  - pose proof (ext_lt_not_eq _ _ E10) as N10.
    rewrite (py_lt_ext x2 x0).
    destruct (ext_lt x2 x0) eqn:E20; cbn [bindo insert_sorted snd].
    + rewrite (py_lt_ext x2 x1).
      destruct (ext_lt x2 x1) eqn:E21; cbn [bindo sort_onto rev List.app];
        eexists; (split; [reflexivity|]);
        cbn [py_list_eq same_or_equal fst snd Nat.eqb orb];
        rewrite !py_eq_ext, ?N10, ?(ext_lt_not_eq _ _ E20); reflexivity.
    + cbn [bindo sort_onto rev List.app].
      eexists. split; [reflexivity|].
      cbn [py_list_eq same_or_equal fst snd Nat.eqb orb].
      rewrite !py_eq_ext, N10. reflexivity.
  - rewrite (py_lt_ext x2 x1).
    destruct (ext_lt x2 x1) eqn:E21; cbn [bindo insert_sorted snd negb].
    + pose proof (ext_lt_not_eq _ _ E21) as N21.
      rewrite (py_lt_ext x2 x0).
      destruct (ext_lt x2 x0) eqn:E20; cbn [bindo sort_onto rev List.app];
        eexists; (split; [reflexivity|]);
        cbn [py_list_eq same_or_equal fst snd Nat.eqb orb andb];
        rewrite !py_eq_ext, ?N21, ?(ext_lt_not_eq _ _ E20); reflexivity.
    + cbn [bindo sort_onto rev List.app].
      eexists. split; [reflexivity|]. reflexivity.
Qed.

Lemma arg_float_real attr v x :
  py_real v x -> arg attr v (CType Tfloat) false = Return (as_float x).
Proof.
  intros [v' q Hq | s]; [|reflexivity].
  apply arg_float_number. exact Hq.
Qed.

Lemma arg_optional_real attr v :
  (v = VNone \/ exists x, py_real v x) ->
  exists v', arg attr v (CType Tfloat) false = Return v'.
Proof.
  intros [-> | [x Hx]]; [exists VNone; reflexivity|].
  exists (as_float x). apply arg_float_real. exact Hx.
Qed.

Lemma arg_optional_float attr v :
  (v = VNone \/ exists q, py_number v q) ->
  exists v', arg attr v (CType Tfloat) false = Return v'.
Proof.
  intros [-> | [q Hq]]; [exists VNone; reflexivity|].
  exists (VFloat q). apply arg_float_number; assumption.
Qed.

(** C7. [normal] called with both [sigma] and [variance] supplied (numbers;
    [mean] a number or left out), as in [normal(sigma=1, variance=1)], raises
    the ValueError of the mutually exclusive pair, and no request has been
    sent through the connection. *)
Theorem C7_normal_rejects_sigma_with_variance
  env mean sigma variance qs qv nr seed tr w :
  (mean = VNone \/ exists qm, py_number mean qm) ->
  py_number sigma qs ->
  py_number variance qv ->
  exists w',
    normal env mean sigma variance nr seed tr w =
      (Raise (ValueError sigma_variance_msg), w') /\
    events w' = events w.
Proof.
  intros Hmean Hs Hv.
  destruct (arg_optional_float "mean" mean Hmean) as [mean' Hm].
  pose proof (arg_float_number "sigma" _ _ Hs) as Hs'.
  pose proof (arg_float_number "variance" _ _ Hv) as Hv'.
  exists (add_log w (LogError sigma_variance_msg)). split; [|reflexivity].
  unfold normal. simp_goal. repeat goal_step. cbn [is_none negb andb]. 
  rewrite value_error_run. reflexivity.
Qed.

Lemma C7_normal_rejects_sigma_with_variance_witness :
  exists w',
    normal quiet_env (VInt 0) (VInt 1) (VInt 1) default_num_random VNone VNone
      empty_world =
      (Raise (ValueError sigma_variance_msg), w') /\
    events w' = events empty_world.
Proof.
  apply (@C7_normal_rejects_sigma_with_variance quiet_env (VInt 0) (VInt 1) (VInt 1)
           (inject_Z 1) (inject_Z 1)).
  - right. exists (inject_Z 0). constructor.
  - constructor.
  - constructor.
Defined.

(** C9. [normal] called with [sigma] left out never reaches the remote
    engine: it ends in an exception with no request sent, whatever [mean] and
    [variance] are; when [mean] and [variance] pass their own type check
    (so for the variance-only call) the exception is the TypeError of
    comparing [None] with [0], and so it is for the all-defaults call. *)
Theorem C9_normal_without_sigma env mean variance nr seed tr w :
  (exists e w',
      normal env mean VNone variance nr seed tr w = (Raise e, w') /\
      events w' = events w) /\
  (forall mean' variance',
      arg "mean" mean (CType Tfloat) false = Return mean' ->
      arg "variance" variance (CType Tfloat) false = Return variance' ->
      exists msg,
        normal env mean VNone variance nr seed tr w = (Raise (TypeError msg), w)) /\
  (exists msg,
      normal env (VInt 0) VNone VNone default_num_random VNone VNone w =
        (Raise (TypeError msg), w)).
Proof.
  assert (Hgen : forall mean' variance',
      arg "mean" mean (CType Tfloat) false = Return mean' ->
      arg "variance" variance (CType Tfloat) false = Return variance' ->
      exists msg,
        normal env mean VNone variance nr seed tr w = (Raise (TypeError msg), w)).
  { intros mean' variance' Hm Hv. eexists.
    unfold normal. simp_goal. rewrite bind_lift, Hm. simp_goal.
    rewrite bind_lift. cbn [arg]. simp_goal. rewrite bind_lift, Hv. simp_goal.
    cbn [is_none negb andb]. rewrite bind_lift. reflexivity. }
  split; [|split].
  - destruct (arg "mean" mean (CType Tfloat) false) as [mean'|e] eqn:Hm.
    + destruct (arg "variance" variance (CType Tfloat) false) as [var'|e] eqn:Hv.
      * destruct (Hgen _ _ eq_refl eq_refl) as [msg Hrun].
        exists (TypeError msg), w. split; [exact Hrun | reflexivity].
      * exists e, w. split; [|reflexivity].
        unfold normal. simp_goal. rewrite bind_lift, Hm. simp_goal.
        rewrite bind_lift. cbn [arg]. simp_goal. rewrite bind_lift, Hv. reflexivity.
    + exists e, w. split; [|reflexivity].
      unfold normal. simp_goal. rewrite bind_lift, Hm. reflexivity.
  - exact Hgen.
  - eexists. reflexivity.
Qed.

Lemma rds_contacts env dps nr seed tr w :
  exists post,
    events (snd (_rds env dps nr seed tr w)) =
    (events w ++ EvRequirePal :: post)%list.
Proof.
  destruct (_rds env dps nr seed tr w) as [o w'] eqn:H. cbn [snd].
  unfold _rds in H. run_in H; finish_run H; normalize_histories;
    eexists; reflexivity.
Qed.

Lemma rds_returns env dps name nr seed tr nr' seed' tr' w :
  answers_all env ->
  dict_get dps "DISTRIBUTIONNAME" = Return name ->
  arg "num_random" nr (CType Tint) false = Return nr' ->
  arg "seed" seed (CType Tint) false = Return seed' ->
  arg "thread_ratio" tr (CType Tfloat) false = Return tr' ->
  py_lt nr' (VInt 0) = Return false ->
  exists w',
    _rds env dps nr seed tr w =
      (Return (ResDataFrame
                 (DataFrameOf
                    (nth 2 (rds_tables (py_str env name)
                              (call_unique_id env w)) ""))), w') /\
    events w' =
      (events w ++
       rds_requests (rds_tables (py_str env name) (call_unique_id env w))
         dps nr' seed' tr')%list.
Proof.
  intros Hq Hname Hnr Hseed Htr Hlt.
  destruct (_rds env dps nr seed tr w) as [o w'] eqn:H. exists w'.
  unfold _rds in H. run_in H.
  all: try match goal with
           | Hr : remote _ _ _ = Some _ |- _ =>
               rewrite Hq in Hr; discriminate Hr
           end.
  finish_run H. split; [reflexivity|].
  normalize_histories. reflexivity.
Qed.

(** C8 (amended). [pert] on numbers for the three bounds, finite or not
    ([scale] a number or left out): it raises the ordering ValueError, with
    no request sent, exactly when [mode < minimum] or [maximum < mode] as
    Python evaluates [<]; for finite bounds that is exactly when
    minimum <= mode <= maximum is violated.  Otherwise validation passes
    and the call goes on as [_rds] with the PERT parameters: the PAL check
    is sent whatever the collaborator answers, and when the collaborator
    answers every request and the general arguments are accepted the call
    creates the PERT parameter table, invokes the procedure and returns the
    handle of the result table.  A NaN makes both comparisons with it
    false: a call whose [mode] is NaN is never rejected. *)
Theorem C8_pert_ordering
  env minimum mode maximum scale x0 x1 x2 nr seed tr w :
  py_real minimum x0 ->
  py_real mode x1 ->
  py_real maximum x2 ->
  (scale = VNone \/ exists x, py_real scale x) ->
  (forall q0 q1 q2,
      x0 = Fin q0 -> x1 = Fin q1 -> x2 = Fin q2 ->
      (ext_lt x1 x0 || ext_lt x2 x1 = true <->
       ~ (q0 <= q1 /\ q1 <= q2)%Q)) /\
  (x1 = Special NaN -> ext_lt x1 x0 || ext_lt x2 x1 = false) /\
  (ext_lt x1 x0 || ext_lt x2 x1 = true ->
   exists w',
     pert env minimum mode maximum scale nr seed tr w =
       (Raise (ValueError pert_msg), w') /\
     events w' = events w) /\
  (ext_lt x1 x0 || ext_lt x2 x1 = false ->
   exists scale',
     arg "scale" scale (CType Tfloat) false = Return scale' /\
     pert env minimum mode maximum scale nr seed tr w =
       _rds env (pert_rows x0 x1 x2 scale') nr seed tr w /\
     (exists post,
         events (snd (pert env minimum mode maximum scale nr seed tr w)) =
         (events w ++ EvRequirePal :: post)%list) /\
     (answers_all env ->
      forall nr' seed' tr',
        arg "num_random" nr (CType Tint) false = Return nr' ->
        arg "seed" seed (CType Tint) false = Return seed' ->
        arg "thread_ratio" tr (CType Tfloat) false = Return tr' ->
        py_lt nr' (VInt 0) = Return false ->
        exists w',
          pert env minimum mode maximum scale nr seed tr w =
            (Return (ResDataFrame
                       (DataFrameOf
                          (nth 2 (rds_tables "PERT" (call_unique_id env w))
                               ""))), w') /\
          events w' =
            (events w ++
             rds_requests (rds_tables "PERT" (call_unique_id env w))
               (pert_rows x0 x1 x2 scale') nr' seed' tr')%list)).
Proof.
  intros H0 H1 H2 Hscale.
  pose proof (arg_float_real "minimum" _ _ H0) as A0.
  pose proof (arg_float_real "mode" _ _ H1) as A1.
  pose proof (arg_float_real "maximum" _ _ H2) as A2.
  destruct (arg_optional_real "scale" scale Hscale) as [scale' Hscale'].
  pose proof (sorted3 x0 x1 x2) as Hs. cbv zeta in Hs.
  destruct Hs as (l & Hsorted & Heq).
  split; [|split; [|split]].
  - intros q0 q1 q2 -> -> ->. apply not_ordered_finite.
  - intros ->. rewrite ext_lt_nan_l, ext_lt_nan_r. reflexivity.
  - intros Hrej. rewrite Hrej in Heq.
    assert (Hne : negb (py_list_eq l
                          (objects [as_float x0; as_float x1; as_float x2]))
                  = true) by (rewrite Heq; reflexivity).
    exists (add_log w (LogError pert_msg)). split; [|reflexivity].
    unfold pert. simp_goal. do 4 goal_step. cbv zeta.
    repeat goal_step. reflexivity.
  - intros Hok. rewrite Hok in Heq.
    assert (Hne : negb (py_list_eq l
                          (objects [as_float x0; as_float x1; as_float x2]))
                  = false) by (rewrite Heq; reflexivity).
    assert (Hrun : pert env minimum mode maximum scale nr seed tr w =
                   _rds env (pert_rows x0 x1 x2 scale') nr seed tr w).
    { unfold pert. simp_goal. do 4 goal_step. cbv zeta.
      repeat goal_step. reflexivity. }
    exists scale'. split; [exact Hscale'|]. split; [exact Hrun|].
    rewrite Hrun. split; [apply rds_contacts|].
    intros Hq nr' seed' tr' Hnr Hseed Htr Hlt.
    apply (rds_returns env (pert_rows x0 x1 x2 scale') (VStr "PERT")
             nr seed tr nr' seed' tr' w Hq eq_refl Hnr Hseed Htr Hlt).
Qed.

Lemma C8_pert_ordering_witness :
  (exists w',
     pert quiet_env (VInt 1) (VInt 0) (VInt 2) (VInt 4) default_num_random
       VNone VNone empty_world =
       (Raise (ValueError pert_msg), w') /\
     events w' = events empty_world) /\
  (exists w',
     pert quiet_env (VInt (-1)) (VInt 0) (VInt 1) (VInt 4) default_num_random
       VNone VNone empty_world =
       (Return (ResDataFrame
                  (DataFrameOf
                     (nth 2 (rds_tables "PERT"
                               (call_unique_id quiet_env empty_world)) ""))),
        w') /\
     events w' =
       (events empty_world ++
        rds_requests (rds_tables "PERT" (call_unique_id quiet_env empty_world))
          (pert_rows (Fin (inject_Z (-1))) (Fin (inject_Z 0))
             (Fin (inject_Z 1)) (VFloat (inject_Z 4)))
          default_num_random VNone VNone)%list).
Proof.
  split.
  - apply (C8_pert_ordering quiet_env (VInt 1) (VInt 0) (VInt 2) (VInt 4)
             (Fin (inject_Z 1)) (Fin (inject_Z 0)) (Fin (inject_Z 2))
             default_num_random VNone VNone empty_world
             (RealNumber _ _ (PyInt 1)) (RealNumber _ _ (PyInt 0))
             (RealNumber _ _ (PyInt 2))
             (or_intror (ex_intro _ _ (RealNumber _ _ (PyInt 4))))).
    reflexivity.
  - destruct (C8_pert_ordering quiet_env (VInt (-1)) (VInt 0) (VInt 1) (VInt 4)
                (Fin (inject_Z (-1))) (Fin (inject_Z 0)) (Fin (inject_Z 1))
                default_num_random VNone VNone empty_world
                (RealNumber _ _ (PyInt (-1))) (RealNumber _ _ (PyInt 0))
                (RealNumber _ _ (PyInt 1))
                (or_intror (ex_intro _ _ (RealNumber _ _ (PyInt 4)))))
      as (_ & _ & _ & Hpass).
    destruct (Hpass eq_refl) as (scale' & Hscale & _ & _ & Hret).
    apply Return_inj in Hscale. subst scale'.
    apply (Hret (fun _ _ => eq_refl) default_num_random VNone VNone
             eq_refl eq_refl eq_refl eq_refl).
Defined.

(** C8, as stated, fails: in [pert(minimum=1, mode=nan, maximum=0)]
    neither 1 <= nan nor nan <= 0 holds (nor 1 <= 0), yet [sorted] leaves
    the list as it is, validation passes, and on a collaborator that never
    fails the procedure is invoked and the handle returned. *)
Lemma C8_nan_counterexample :
  let r := pert quiet_env (VFloat 1) (VNonfinite NaN) (VFloat 0) (VInt 4)
             default_num_random VNone VNone empty_world in
  py_le (VFloat 1) (VNonfinite NaN) = Return false /\
  py_le (VNonfinite NaN) (VFloat 0) = Return false /\
  handle_of r = Some "#PERT_RESULT_6BA7B810_9DAD_11D1_80B4_00C04FD430C0" /\
  existsb is_invocation (events (snd r)) = true.
Proof. vm_compute. repeat split; reflexivity. Qed.

(* ================================================================= *)
(** ** Sample count, seed and probabilities *)

Lemma py_lt_negative z : z < 0 -> py_lt (VInt z) (VInt 0) = Return true.
Proof.
  intros Hz. unfold py_lt, py_cmp, Qlt_bool. cbn [as_num].
  destruct (Qle_bool (inject_Z 0) (inject_Z z)) eqn:E; [|reflexivity].
  apply Qle_bool_iff in E. rewrite <- Zle_Qle in E. lia.
Qed.

Ltac negative_cases H env :=
  run_in H; finish_run H;
  (split; [eexists; reflexivity|]);
  (split; [reflexivity|]);
  first [ left; reflexivity
        | right; intros z'; unfold _rds, multinomial; simp_goal;
          repeat goal_step; reflexivity ].

Lemma rds_negative env dps z seed tr w o w' :
  z < 0 ->
  _rds env dps (VInt z) seed tr w = (o, w') ->
  (exists e, o = Raise e) /\
  events w' = (events w ++ [EvRequirePal])%list /\
  (o = Raise (ValueError num_random_msg) \/
   forall z', _rds env dps (VInt z') seed tr w = (o, w')).
Proof.
  intros Hz H. pose proof (py_lt_negative z Hz) as Hlt.
  assert (Harg : arg "num_random" (VInt z) (CType Tint) false = Return (VInt z))
    by reflexivity.
  unfold _rds in H. negative_cases H env.
Qed.

Lemma multinomial_negative env n pvals z seed tr w o w' :
  z < 0 ->
  multinomial env n pvals (VInt z) seed tr w = (o, w') ->
  (exists e, o = Raise e) /\
  events w' = (events w ++ [EvRequirePal])%list /\
  (o = Raise (ValueError num_random_msg) \/
   forall z', multinomial env n pvals (VInt z') seed tr w = (o, w')).
Proof.
  intros Hz H. pose proof (py_lt_negative z Hz) as Hlt.
  assert (Harg : arg "num_random" (VInt z) (CType Tint) false = Return (VInt z))
    by reflexivity.
  unfold multinomial in H. negative_cases H env.
Qed.

Ltac seed_cases H :=
  run_in H; apply pair_eq_inv in H; destruct H as [H ?]; subst;
  try discriminate H;
  do 3 eexists; cbn [events add_events];
  (split; [apply in_or_app; right; pick_member|]);
  split;
    [ pick_member
    | cbn [with_data ptable_data]; apply filter_In;
      split; [pick_member | reflexivity] ].

Lemma rds_seed_row env dps nr s tr w r w' :
  _rds env dps nr (VInt s) tr w = (Return r, w') ->
  sends_seed (VInt s) (events w').
Proof.
  intros H.
  assert (Hseed : arg "seed" (VInt s) (CType Tint) false = Return (VInt s))
    by reflexivity.
  unfold _rds in H. seed_cases H.
Qed.

Lemma multinomial_seed_row env n pvals nr s tr w r w' :
  multinomial env n pvals nr (VInt s) tr w = (Return r, w') ->
  sends_seed (VInt s) (events w').
Proof.
  intros H.
  assert (Hseed : arg "seed" (VInt s) (CType Tint) false = Return (VInt s))
    by reflexivity.
  unfold multinomial in H. seed_cases H.
Qed.

Lemma sample_seed_row env d nr s tr w r w' :
  sample env d nr (VInt s) tr w = (Return r, w') ->
  sends_seed (VInt s) (events w').
Proof.
  intros H.
  destruct (is_multinomial d) eqn:Hm.
  - destruct d; try discriminate Hm. cbn [sample] in H.
    eapply multinomial_seed_row. exact H.
  - destruct (sampling_reaches_rds env d w Hm)
      as [(e0 & w0 & _ & _ & Hrun) | (dps & _ & Hrun)];
      rewrite Hrun in H.
    + apply pair_eq_inv in H. destruct H as [H _]. discriminate H.
    + eapply rds_seed_row. exact H.
Qed.

(** C3 (amended). For each of the twenty entry points that take
    [num_random]: a call with a negative integer [num_random] ends in an
    exception and sends at most the PAL usability check, so no temporary
    table is created and no procedure invoked; the exception is the
    ValueError on [num_random], unless an earlier step already failed, in
    which case the call fails in the same way for every integer
    [num_random].  The seed is not range-checked: whenever a call given an
    integer seed, negative or not, returns, it has sent that seed in the
    SEED row of its procedure call. *)
Theorem C3_negative_num_random env d tr w :
  (forall z seed o w',
      z < 0 ->
      sample env d (VInt z) seed tr w = (o, w') ->
      (exists e, o = Raise e) /\
      (events w' = events w \/ events w' = (events w ++ [EvRequirePal])%list) /\
      (o = Raise (ValueError num_random_msg) \/
       forall z', sample env d (VInt z') seed tr w = (o, w'))) /\
  (forall nr s r w',
      sample env d nr (VInt s) tr w = (Return r, w') ->
      sends_seed (VInt s) (events w')).
Proof.
  split; [|intros nr s r w'; apply sample_seed_row].
  intros z seed o w' Hz H.
  destruct (is_multinomial d) eqn:Hm.
  - destruct d; try discriminate Hm. cbn [sample] in *.
    destruct (multinomial_negative _ _ _ _ _ _ _ _ _ Hz H) as (He & Hev & Hor).
    repeat split; [exact He | right; exact Hev | exact Hor].
  - destruct (sampling_reaches_rds env d w Hm)
      as [(e0 & w0 & Hev0 & _ & Hrun) | (dps & _ & Hrun)].
    + rewrite Hrun in H. apply pair_eq_inv in H. destruct H as [<- <-].
      repeat split; [eexists; reflexivity | left; exact Hev0 | right].
      intros z'. apply Hrun.
    + rewrite Hrun in H.
      destruct (rds_negative _ _ _ _ _ _ _ _ Hz H) as (He & Hev & Hor).
      repeat split; [exact He | right; exact Hev |].
      destruct Hor as [Hv | Hsame]; [left; exact Hv | right].
      intros z'. rewrite Hrun. apply Hsame.
Qed.

Lemma C3_negative_num_random_witness :
  let r := sample quiet_env (Bernoulli (VFloat (1 # 2))) (VInt (-5)) VNone VNone
             empty_world in
  (exists e, fst r = Raise e) /\
  (events (snd r) = events empty_world \/
   events (snd r) = (events empty_world ++ [EvRequirePal])%list) /\
  (fst r = Raise (ValueError num_random_msg) \/
   forall z', sample quiet_env (Bernoulli (VFloat (1 # 2))) (VInt z') VNone VNone
                empty_world = (fst r, snd r)).
Proof.
  intros r.
  apply (proj1 (C3_negative_num_random quiet_env (Bernoulli (VFloat (1 # 2)))
                  VNone empty_world)
           (-5) VNone (fst r) (snd r)).
  - lia.
  - vm_compute. reflexivity.
Defined.

(** C3, as stated, fails: [bernoulli(conn, p=0.5, seed=-1)] on a collaborator
    that never fails returns the result handle, after creating the scratch
    table and invoking the procedure. *)
Lemma C3_negative_seed_counterexample :
  let r := bernoulli quiet_env (VFloat (1 # 2)) default_num_random (VInt (-1)) VNone
             empty_world in
  handle_of r = Some "#BERNOULLI_RESULT_6BA7B810_9DAD_11D1_80B4_00C04FD430C0" /\
  existsb is_invocation (events (snd r)) = true.
Proof. vm_compute. split; reflexivity. Qed.

(** C2, as stated, fails: [multinomial(conn, n=10, pvals=(2.0, 0.5))], with
    an entry greater than 1, returns the result handle on a collaborator
    that never fails. *)
Lemma C2_pvals_above_one_counterexample :
  let r := multinomial quiet_env (VInt 10) (VTuple [VFloat 2; VFloat (1 # 2)])
             default_num_random VNone VNone empty_world in
  (1 < 2)%Q /\
  handle_of r = Some "#MULTINOMIAL_RESULT_6BA7B810_9DAD_11D1_80B4_00C04FD430C0" /\
  existsb is_invocation (events (snd r)) = true.
Proof. vm_compute. repeat split; reflexivity. Qed.

Lemma bad_pval_total v : exists b, bad_pval v = Return b.
Proof.
  unfold bad_pval, py_or. cbn [bindo].
  destruct v; cbn; eauto.
Qed.

Lemma bad_pval_negative v q :
  py_number v q -> (q < 0)%Q -> bad_pval v = Return true.
Proof.
  intros Hv Hq. unfold bad_pval, py_or, py_lt, py_cmp, Qlt_bool.
  destruct Hv; cbn [isinstance type_of existsb subclass pytype_eqb orb andb negb
                    bindo as_num].
  - destruct (Qle_bool (inject_Z 0) (inject_Z z)) eqn:E; [|reflexivity].
    apply Qle_bool_iff in E. change (inject_Z 0) with 0%Q in E. lra.
  - destruct (Qle_bool (inject_Z 0) q) eqn:E; [|reflexivity].
    apply Qle_bool_iff in E. change (inject_Z 0) with 0%Q in E. lra.
Qed.

Lemma any_bad_pval ps v q :
  In v ps -> py_number v q -> (q < 0)%Q -> py_any bad_pval ps = Return true.
Proof.
  intros Hin Hv Hq. induction ps as [|x ps IH]; [contradiction|].
  cbn [py_any]. destruct Hin as [-> | Hin].
  - rewrite (bad_pval_negative v q Hv Hq). reflexivity.
  - destruct (bad_pval_total x) as [b Hb]. rewrite Hb. cbn [bindo].
    destruct b; [reflexivity | apply IH; assumption].
Qed.

Lemma non_positive_int_total k : exists b, non_positive (VInt k) = Return b.
Proof. unfold non_positive, py_le, py_cmp. cbn [as_num]. eauto. Qed.

Lemma bad_pval_non_negative v q :
  py_number v q -> (0 <= q)%Q -> bad_pval v = Return false.
Proof.
  intros Hv Hq. unfold bad_pval, py_or, py_lt, py_cmp, Qlt_bool.
  destruct Hv; cbn [isinstance type_of existsb subclass pytype_eqb orb andb negb
                    bindo as_num].
  - destruct (Qle_bool (inject_Z 0) (inject_Z z)) eqn:E; [reflexivity|].
    apply Qle_bool_false in E. change (inject_Z 0) with 0%Q in E. lra.
  - destruct (Qle_bool (inject_Z 0) q) eqn:E; [reflexivity|].
    apply Qle_bool_false in E. change (inject_Z 0) with 0%Q in E. lra.
Qed.

Lemma all_non_negative_pass ps :
  (forall v, In v ps -> exists q, py_number v q /\ (0 <= q)%Q) ->
  py_any bad_pval ps = Return false.
Proof.
  induction ps as [|x ps IH]; intros H; [reflexivity|].
  cbn [py_any].
  destruct (H x (or_introl eq_refl)) as (q & Hx & Hq).
  rewrite (bad_pval_non_negative x q Hx Hq). cbn [bindo].
  apply IH. intros v Hv. apply H. right. exact Hv.
Qed.

(** C2 (amended). For a number [p] less than 0 or greater than 1 given as
    the success fraction, [bernoulli], [geometric], [binomial] ([n] an integer
    or left out) and [negative_binomial] ([n] a number) raise a ValueError and
    send nothing through the connection.  [multinomial] ([n] an integer)
    called with a [pvals] tuple holding a number less than 0 raises: it sends
    the PAL usability check and nothing else, and when that check passes the
    exception is the ValueError on [pvals]; entries greater than 1 are not
    rejected: the test on [pvals] passes every tuple of non-negative
    numbers. *)
Theorem C2_probability_range env p q nr seed tr w :
  py_number p q ->
  ((q < 0 \/ 1 < q)%Q ->
   (exists msg w',
       bernoulli env p nr seed tr w = (Raise (ValueError msg), w') /\
       events w' = events w) /\
   (exists msg w',
       geometric env p nr seed tr w = (Raise (ValueError msg), w') /\
       events w' = events w) /\
   (forall n, n = VNone \/ (exists z, n = VInt z) ->
       exists msg w',
         binomial env n p nr seed tr w = (Raise (ValueError msg), w') /\
         events w' = events w) /\
   (forall n qn, py_number n qn ->
       exists msg w',
         negative_binomial env n p nr seed tr w = (Raise (ValueError msg), w') /\
         events w' = events w)) /\
  ((q < 0)%Q ->
   forall z ps, In p ps ->
     exists o w',
       multinomial env (VInt z) (VTuple ps) nr seed tr w = (o, w') /\
       events w' = (events w ++ [EvRequirePal])%list /\
       (exists e, o = Raise e) /\
       (remote env (events w) EvRequirePal = None ->
        o = Raise (ValueError pvals_msg))) /\
  (forall ps,
      (forall v, In v ps -> exists q', py_number v q' /\ (0 <= q')%Q) ->
      py_any bad_pval ps = Return false).
Proof.
  intros Hp.
  pose proof (arg_float_number "p" p q Hp) as Harg.
  split; [|split; [|exact all_non_negative_pass]].
  - intros Hout. pose proof (outside_unit_true q Hout) as Hbad.
    split; [|split; [|split]].
    + do 2 eexists. split.
      * unfold bernoulli. simp_goal. repeat goal_step. reflexivity.
      * reflexivity.
    + do 2 eexists. split.
      * unfold geometric. simp_goal. repeat goal_step. reflexivity.
      * reflexivity.
    + intros n Hn.
      assert (Hn' : arg "n" n (CType Tint) false = Return n)
        by (destruct Hn as [-> | [z ->]]; reflexivity).
      do 2 eexists. split.
      * unfold binomial. simp_goal. repeat goal_step. reflexivity.
      * reflexivity.
    + intros n qn Hn.
      assert (Hn' : arg "n" n (CTypes [Tint; Tfloat]) false = Return n)
        by (destruct Hn; reflexivity).
      assert (Hint : exists k, (if is_none n then Return n else py_int n)
                               = Return (VInt k))
        by (destruct Hn; cbn; eauto).
      destruct Hint as [k Hk].
      destruct (non_positive_int_total k) as [b Hb].
      destruct b; do 2 eexists;
        (split;
         [ unfold negative_binomial; simp_goal; repeat goal_step; reflexivity
         | reflexivity ]).
  - intros Hneg z ps Hin.
    pose proof (any_bad_pval ps p q Hin Hp Hneg) as Hany.
    assert (Hn : arg "n" (VInt z) (CType Tint) true = Return (VInt z))
      by reflexivity.
    assert (Hpv : arg "pvals" (VTuple ps) (CType Ttuple) true = Return (VTuple ps))
      by reflexivity.
    destruct (remote env (events w) EvRequirePal) as [e|] eqn:Hrem.
    + do 2 eexists. split; [|split; [|split]].
      * unfold multinomial. simp_goal. repeat goal_step. reflexivity.
      * reflexivity.
      * eexists; reflexivity.
      * discriminate.
    + do 2 eexists. split; [|split; [|split]].
      * unfold multinomial. simp_goal. repeat goal_step. reflexivity.
      * reflexivity.
      * eexists; reflexivity.
      * reflexivity.
Qed.

Lemma C2_probability_range_witness :
  (exists msg w',
      bernoulli quiet_env (VInt 2) default_num_random VNone VNone empty_world =
        (Raise (ValueError msg), w') /\
      events w' = events empty_world) /\
  (exists o w',
      multinomial quiet_env (VInt 10)
        (VTuple [VFloat (1 # 2); VFloat (-1 # 2)])
        default_num_random VNone VNone empty_world = (o, w') /\
      events w' = (events empty_world ++ [EvRequirePal])%list /\
      (exists e, o = Raise e) /\
      (remote quiet_env (events empty_world) EvRequirePal = None ->
       o = Raise (ValueError pvals_msg))).
Proof.
  split.
  - apply (C2_probability_range quiet_env (VInt 2) (inject_Z 2)
             default_num_random VNone VNone empty_world (PyInt 2)).
    right. reflexivity.
  - apply (C2_probability_range quiet_env (VFloat (-1 # 2)) (-1 # 2)
             default_num_random VNone VNone empty_world (PyFloat (-1 # 2))).
    + reflexivity.
    + right. left. reflexivity.
Defined.

(* ================================================================= *)
(** ** Names of the temporary tables *)

Ltac solve_uses_only :=
  let ev := fresh "ev" in
  let n := fresh "n" in
  let Hin := fresh "Hin" in
  let Hn := fresh "Hn" in
  intros ev n Hin Hn;
  repeat (destruct Hin as [Hin | Hin];
          [ subst ev; cbn [event_names arg_names flat_map List.app table_name
                           ptable_name] in Hn;
            repeat (destruct Hn as [Hn | Hn]; [subst n; pick_member |]);
            contradiction
          | ]);
  contradiction.

Ltac new_events :=
  normalize_histories;
  lazymatch goal with
  | |- exists new, events ?w = (events ?w ++ new)%list /\ _ =>
      exists []; split; [symmetry; apply app_nil_r|]
  | |- exists new, (events ?w ++ ?l)%list = (events ?w ++ new)%list /\ _ =>
      exists l; split; [reflexivity|]
  end.

Ltac names_cases H success :=
  run_in H; finish_run H; new_events;
  (split; [ unfold call_unique_id, rds_tables, mcmc_tables;
            cbn [List.map table_roles]; solve_uses_only |]);
  let r := fresh "r" in
  let Hr := fresh "Hr" in
  intros r Hr; try discriminate Hr;
  apply Return_inj in Hr; subst r;
  lazymatch goal with
  | |- sampling_success
         [_; EvCreate ?t;
          EvCallPal ?proc [_; ArgParameterTable ?pt; ArgName ?n]] _ _ =>
      exists t, proc, pt, n; split; [|split]; reflexivity
  | |- mcmc_success
         [_; EvCallPal _ [ArgParameterTable ?pt; ArgName ?n]] _ _ =>
      exists pt, n; split; [|split]; reflexivity
  end.

Lemma rds_names env dps nr seed tr w o w' name :
  dict_get dps "DISTRIBUTIONNAME" = Return name ->
  _rds env dps nr seed tr w = (o, w') ->
  exists new,
    events w' = (events w ++ new)%list /\
    uses_only new (rds_tables (py_str env name) (call_unique_id env w)) /\
    forall r, o = Return r ->
      sampling_success new r
        (rds_tables (py_str env name) (call_unique_id env w)).
Proof.
  intros Hname H. unfold _rds in H. names_cases H sampling_success.
Qed.

Lemma multinomial_names env n pvals nr seed tr w o w' :
  multinomial env n pvals nr seed tr w = (o, w') ->
  exists new,
    events w' = (events w ++ new)%list /\
    uses_only new (rds_tables "MULTINOMIAL" (call_unique_id env w)) /\
    forall r, o = Return r ->
      sampling_success new r (rds_tables "MULTINOMIAL" (call_unique_id env w)).
Proof.
  intros H. unfold multinomial in H. names_cases H sampling_success.
Qed.

Lemma mcmc_names env a w o w' :
  mcmc env a w = (o, w') ->
  exists new,
    events w' = (events w ++ new)%list /\
    uses_only new (mcmc_tables (call_unique_id env w)) /\
    forall r, o = Return r ->
      mcmc_success new r (mcmc_tables (call_unique_id env w)).
Proof.
  intros H. unfold mcmc in H. names_cases H mcmc_success.
Qed.

(** C6 (amended). The table names a call mentions in its requests all
    belong to the names generated from the call's one identifier.  For the
    twenty entry points built on [_rds] and [multinomial] these are the three
    names #<DISTRIBUTION>_<ROLE>_<UNIQUE_ID> with the roles
    DISTRIBUTION_PARAMETER, PARAMETER and RESULT, used on success as the
    created table, the parameter table and the table of the returned handle.
    For [mcmc] they are the two names #PAL_MCMC_<ROLE>_TBL_<UNIQUE_ID> with
    the roles PARAMETER and RESULT. *)
Theorem C6_temp_table_names env c w o w' :
  entry env c w = (o, w') ->
  let uid := call_unique_id env w in
  (exists new,
      events w' = (events w ++ new)%list /\
      uses_only new (temp_tables c uid) /\
      forall r, o = Return r ->
        match c with
        | Sampling _ _ _ _ => sampling_success new r (temp_tables c uid)
        | Mcmc _ => mcmc_success new r (temp_tables c uid)
        end) /\
  temp_tables c uid =
  match c with
  | Sampling d _ _ _ =>
      map (fun role => "#" ++ dist_name d ++ "_" ++ role ++ "_" ++ uid)
          ["DISTRIBUTION_PARAMETER"; "PARAMETER"; "RESULT"]
  | Mcmc _ =>
      map (fun role => "#PAL_MCMC_" ++ role ++ "_TBL_" ++ uid)
          ["PARAMETER"; "RESULT"]
  end.
Proof.
  intros H uid. subst uid.
  split; [|destruct c; reflexivity].
  destruct c as [d nr seed tr | a]; cbn [entry temp_tables] in *.
  - destruct (is_multinomial d) eqn:Hm.
    + destruct d; try discriminate Hm. cbn [sample dist_name] in *.
      eapply multinomial_names. exact H.
    + destruct (sampling_reaches_rds env d w Hm)
        as [(e0 & w0 & Hev0 & _ & Hrun) | (dps & Hname & Hrun)];
        rewrite Hrun in H.
      * apply pair_eq_inv in H. destruct H as [<- <-].
        exists []. split; [rewrite app_nil_r; exact Hev0|].
        split; [intros ev n []|].
        intros r Hr. discriminate Hr.
      * apply (rds_names env dps nr seed tr w o w' _ Hname H).
  - eapply mcmc_names. exact H.
Qed.

Lemma C6_temp_table_names_witness :
  let c := Sampling (Gumbel (VInt 0) (VInt 1)) default_num_random VNone VNone in
  let r := entry quiet_env c empty_world in
  let uid := call_unique_id quiet_env empty_world in
  (exists new,
      events (snd r) = (events empty_world ++ new)%list /\
      uses_only new (temp_tables c uid) /\
      forall res, fst r = Return res ->
        sampling_success new res (temp_tables c uid)) /\
  temp_tables c uid =
  map (fun role => "#" ++ "EXTREME_VALUE" ++ "_" ++ role ++ "_" ++ uid)
      ["DISTRIBUTION_PARAMETER"; "PARAMETER"; "RESULT"].
Proof.
  intros c r.
  apply (C6_temp_table_names quiet_env c empty_world (fst r) (snd r)).
  vm_compute. reflexivity.
Defined.

(** C6, as stated, fails for [mcmc]: it generates two names, of the form
    #PAL_MCMC_<ROLE>_TBL_<UNIQUE_ID>, and no DISTRIBUTION_PARAMETER table. *)
Lemma C6_mcmc_counterexample :
  let c := Mcmc (mcmc_defaults (VStr "normal")) in
  let uid := call_unique_id quiet_env empty_world in
  flat_map event_names (events (snd (entry quiet_env c empty_world))) =
    ["#PAL_MCMC_PARAMETER_TBL_6BA7B810_9DAD_11D1_80B4_00C04FD430C0";
     "#PAL_MCMC_RESULT_TBL_6BA7B810_9DAD_11D1_80B4_00C04FD430C0"] /\
  ~ (exists prefix,
        temp_tables c uid =
        map (fun role => "#" ++ prefix ++ "_" ++ role ++ "_" ++ uid) table_roles).
Proof.
  split.
  - vm_compute. reflexivity.
  - intros [prefix H]. discriminate H.
Qed.

(* ================================================================= *)
(** ** The marshalling of [mcmc] *)

Lemma arg_number_inv attr v v' :
  arg attr v number false = Return v' -> v' = v /\ as_list v = [v].
Proof.
  destruct v; cbn; intros H; try discriminate H;
    apply Return_inj in H; subst; split; reflexivity.
Qed.

Lemma arg_none_inv attr c required v :
  arg attr VNone c required = Return v -> v = VNone.
Proof.
  cbn. destruct required; intros H; [discriminate H|].
  apply Return_inj in H. symmetry. exact H.
Qed.

Lemma arg_distribution_inv v d :
  arg "distribution" v
    (CDict (map (fun kv => (fst kv, fst kv)) dstr_param_lst)) true
  = Return (VStr d) ->
  v = VStr d /\ In d (map fst dstr_param_lst).
Proof.
  destruct v; cbn [arg]; intros H; try discriminate H.
  destruct (assoc s (map (fun kv => (fst kv, fst kv)) dstr_param_lst)) as [r|] eqn:E;
    [|discriminate H].
  apply Return_inj in H. injection H as ->.
  revert E. generalize dstr_param_lst. intros l.
  induction l as [|[k ps] l IH]; cbn [map assoc fst]; [discriminate|].
  destruct (String.eqb s k) eqn:Ek.
  - intros E. injection E as <-. apply String.eqb_eq in Ek. subst k.
    split; [reflexivity | left; reflexivity].
  - intros E. destruct (IH E) as [Hs Hin]. split; [exact Hs | right; exact Hin].
Qed.

Lemma bindo_inv (X Y : Type) (x : outcome X) (k : X -> outcome Y) (b : Y) :
  bindo x k = Return b -> exists a, x = Return a /\ k a = Return b.
Proof.
  destruct x as [a|e]; cbn [bindo]; intros H; [|discriminate H].
  exists a. split; [reflexivity | exact H].
Qed.

Ltac marshal_step H :=
  lazymatch type of H with
  | bindo ?x _ = Return _ =>
      let E := fresh "E" in
      let a := fresh "a" in
      apply bindo_inv in H; destruct H as (a & E & H); cbv beta zeta in H
  | match ?v with VStr _ => _ | _ => _ end = Return _ =>
      destruct v; try discriminate H
  end.

Ltac solve_fallback E :=
  let Hn := fresh "Hn" in
  intros Hn; rewrite Hn in E;
  lazymatch type of E with
  | _ = Return ?x => apply arg_none_inv in E; subst x
  end;
  cbn [array_to_list or_else is_none]; reflexivity.

Lemma marshal_inv env a m :
  mcmc_marshal env a = Return m ->
  exists mu sigma xi alpha beta nu omega L y_min lambda_ params,
    m_distribution a = VStr (distribution_name m) /\
    In (distribution_name m) (map fst dstr_param_lst) /\
    dict_get dstr_param_lst (distribution_name m) = Return params /\
    param_value m =
      [("mu", mu); ("sigma", sigma); ("xi", xi); ("alpha", alpha);
       ("beta", beta); ("nu", nu); ("omega", omega); ("L", L);
       ("y_min", y_min); ("lambda", lambda_)] /\
    build_distr_param (param_value m) params = Return (distr_param m) /\
    scalar (m_location a) /\ scalar (m_scale a) /\
    scalar (m_shape a) /\ scalar (m_dof a) /\
    fallback (m_mu a) (m_location a) mu /\
    fallback (m_sigma a) (m_scale a) sigma /\
    fallback (m_xi a) (m_location a) xi /\
    fallback (m_alpha a) (m_shape a) alpha /\
    fallback (m_nu a) (m_dof a) nu /\
    (m_beta a = VNone ->
     (if String.eqb (distribution_name m) "gumbel" then Return (m_scale a)
      else py_truediv (VFloat 1) (m_scale a)) = Return beta) /\
    (exists v,
        arg "sigma" (m_sigma a)
          (if str_in (distribution_name m) ["multinormal"; "multistudent_t"]
           then list_or_array else number)
          (str_in (distribution_name m) ["multinormal"; "multistudent_t"])
        = Return v) /\
    (exists v,
        arg "beta" (m_beta a) number
          (str_in (distribution_name m) ["invgamma"; "beta"]) = Return v) /\
    (exists v,
        arg "nu" (m_nu a) number
          (String.eqb (distribution_name m) "invchi_square") = Return v) /\
    In ("DISTRIBUTION_PARAM", VNone, VNone,
        VStr (distribution_param_blob env (distr_param m))) (param_rows m).
Proof.
  intros H. unfold mcmc_marshal in H.
  cbv beta zeta in H. repeat marshal_step H.
  apply Return_inj in H. subst m.
  cbn [distribution_name param_value distr_param param_rows].
  apply arg_distribution_inv in E. destruct E as [Hd Hin].
  do 11 eexists.
  split; [exact Hd|]. split; [exact Hin|]. split; [eassumption|].
  split; [reflexivity|]. split; [eassumption|].
  apply arg_number_inv in E0, E1, E2, E3.
  destruct E0 as [-> Hloc], E1 as [-> Hshape], E2 as [-> Hscale], E3 as [-> Hdof].
  split; [exact Hloc|]. split; [exact Hscale|].
  split; [exact Hshape|]. split; [exact Hdof|].
  split; [solve_fallback E20|].
  split; [solve_fallback E21|].
  split; [solve_fallback E22|].
  split; [solve_fallback E23|].
  split; [solve_fallback E26|].
  split.
  { intros Hn. rewrite Hn in E24. apply arg_none_inv in E24. subst a24.
    exact E25. }
  split; [eexists; exact E21|].
  split; [eexists; exact E24|].
  split; [eexists; exact E26|].
  destruct (is_not_False a7); right; left; reflexivity.
Qed.

(** What [build_distr_param] stores under the upper-cased name of a
    parameter the kind takes. *)
Lemma encoded_of_kind env a m param v :
  mcmc_marshal env a = Return m ->
  kind_takes (distribution_name m) param = true ->
  assoc param (param_value m) = Some v ->
  encoded m (upper param) = Some (as_list v).
Proof.
  intros H Hk Hv.
  destruct (marshal_inv env a m H)
    as (mu & sigma & xi & alpha & beta & nu & omega & L & y_min & lambda_ &
        params & _ & Hin & Hparams & Hpv & Hbuild & _).
  unfold encoded. rewrite Hpv in Hbuild, Hv. clear Hpv H.
  remember (distribution_name m) as d eqn:Hd. clear Hd.
  remember (distr_param m) as dp eqn:Hdp. clear Hdp.
  unfold kind_takes in Hk.
  cbn [map fst dstr_param_lst] in Hin.
  repeat (destruct Hin as [Hin | Hin];
    [ subst d;
      vm_compute in Hparams; apply Return_inj in Hparams; subst params;
      match type of Hk with
      | context [assoc ?k ?l] =>
          let r := eval vm_compute in (assoc k l) in
          change (assoc k l) with r in Hk
      end;
      cbv beta iota in Hk; unfold str_in in Hk; cbn [existsb] in Hk;
      repeat (apply orb_true_iff in Hk; destruct Hk as [Hk | Hk]);
      try discriminate Hk;
      apply String.eqb_eq in Hk; subst param;
      vm_compute in Hv; injection Hv as <-;
      vm_compute in Hbuild; apply Return_inj in Hbuild; subst dp;
      vm_compute; reflexivity
    | ]).
  contradiction.
Qed.

Lemma arg_none_required attr c required v :
  arg attr VNone c required = Return v -> required = false.
Proof. cbn. destruct required; [discriminate | reflexivity]. Qed.

Lemma truediv_one_inv s v :
  py_truediv (VFloat 1) s = Return v -> inverse_of s v.
Proof.
  unfold py_truediv, inverse_of.
  destruct s as [| b | z | q | | | | | x];
    cbn [as_ext as_num option_map]; try discriminate.
  1-3: unfold ext_div;
    match goal with
    | |- context [Qeq_bool ?q 0] => destruct (Qeq_bool q 0) eqn:E
    end; [discriminate|];
    intros H; apply Return_inj in H; subst v; left;
    eexists; split; [reflexivity|];
    split; [apply Qeq_bool_neq; exact E | reflexivity].
  destruct x; cbn [ext_div]; intros H; apply Return_inj in H; subst v;
    right; eexists; split; reflexivity.
Qed.

(** C5 (amended). In [mcmc], when marshalling succeeds, a newer named
    parameter the caller left out and the kind takes is encoded in the
    DISTRIBUTION_PARAM dict as the one-element list of its alias: [mu] and
    [xi] as [location], [sigma] as [scale], [alpha] as [shape], [nu] as
    [dof].  An omitted [beta] is encoded as [scale] for the kind gumbel and
    as [1.0/scale] for the kind exponential (no other kind accepts a call
    without [beta]).  The dict is what the DISTRIBUTION_PARAM row carries. *)
Theorem C5_alias_fallback env a m :
  mcmc_marshal env a = Return m ->
  (m_mu a = VNone -> kind_takes (distribution_name m) "mu" = true ->
   encoded m "MU" = Some [m_location a]) /\
  (m_sigma a = VNone -> kind_takes (distribution_name m) "sigma" = true ->
   encoded m "SIGMA" = Some [m_scale a]) /\
  (m_xi a = VNone -> kind_takes (distribution_name m) "xi" = true ->
   encoded m "XI" = Some [m_location a]) /\
  (m_alpha a = VNone -> kind_takes (distribution_name m) "alpha" = true ->
   encoded m "ALPHA" = Some [m_shape a]) /\
  (m_nu a = VNone -> kind_takes (distribution_name m) "nu" = true ->
   encoded m "NU" = Some [m_dof a]) /\
  (m_beta a = VNone -> kind_takes (distribution_name m) "beta" = true ->
   (distribution_name m = "gumbel" /\ encoded m "BETA" = Some [m_scale a]) \/
   (distribution_name m = "exponential" /\
    exists v, inverse_of (m_scale a) v /\ encoded m "BETA" = Some [v])) /\
  In ("DISTRIBUTION_PARAM", VNone, VNone,
      VStr (distribution_param_blob env (distr_param m))) (param_rows m).
Proof.
  intros H.
  destruct (marshal_inv env a m H)
    as (mu & sigma & xi & alpha & beta & nu & omega & L & y_min & lambda_ &
        params & _ & Hin & _ & Hpv & _ & Hloc & Hscale & Hshape & Hdof &
        Hmu & Hsigma & Hxi & Halpha & Hnu &
        Hbeta & _ & (vb & Hargb) & _ & Hrow).
  assert (Henc : forall param v,
             kind_takes (distribution_name m) param = true ->
             assoc param (param_value m) = Some v ->
             encoded m (upper param) = Some (as_list v))
    by (intros param v; apply (encoded_of_kind env a m param v H)).
  rewrite Hpv in Henc. unfold scalar in *.
  split; [|split; [|split; [|split; [|split; [|split]]]]].
  - intros Hn Hk. rewrite (Hmu Hn) in Henc.
    rewrite <- Hloc. apply (Henc "mu" _ Hk). reflexivity.
  - intros Hn Hk. rewrite (Hsigma Hn) in Henc.
    rewrite <- Hscale. apply (Henc "sigma" _ Hk). reflexivity.
  - intros Hn Hk. rewrite (Hxi Hn) in Henc.
    rewrite <- Hloc. apply (Henc "xi" _ Hk). reflexivity.
  - intros Hn Hk. rewrite (Halpha Hn) in Henc.
    rewrite <- Hshape. apply (Henc "alpha" _ Hk). reflexivity.
  - intros Hn Hk. rewrite (Hnu Hn) in Henc.
    rewrite <- Hdof. apply (Henc "nu" _ Hk). reflexivity.
  - intros Hn Hk. specialize (Hbeta Hn).
    rewrite Hn in Hargb. apply arg_none_required in Hargb.
    pose proof (Henc "beta" beta Hk eq_refl) as Hb.
    change (upper "beta") with "BETA" in Hb.
    remember (distribution_name m) as d eqn:Hd. clear Hd.
    cbn [map fst dstr_param_lst] in Hin.
    repeat (destruct Hin as [Hin | Hin];
            [ subst d; try discriminate Hk; try discriminate Hargb | ]);
      try contradiction.
    + left. split; [reflexivity|].
      cbn in Hbeta. apply Return_inj in Hbeta. subst beta.
      rewrite <- Hscale. exact Hb.
    + right. split; [reflexivity|].
      cbn [String.eqb Ascii.eqb Bool.eqb] in Hbeta.
      apply truediv_one_inv in Hbeta.
      exists beta. split; [exact Hbeta|].
      destruct Hbeta as [(q & _ & _ & ->) | (x & _ & ->)];
        [|destruct x]; exact Hb.
  - exact Hrow.
Qed.

Lemma bindo_raise_inv (X Y : Type) (x : outcome X) (k : X -> outcome Y) e :
  bindo x k = Raise e ->
  x = Raise e \/ exists a, x = Return a /\ k a = Raise e.
Proof.
  destruct x as [a|e']; cbn [bindo]; intros H.
  - right. exists a. split; [reflexivity | exact H].
  - left. injection H as ->. reflexivity.
Qed.

Lemma arg_raise_inv attr v c required e :
  arg attr v c required = Raise e -> e = InvalidArgument attr.
Proof.
  unfold arg. intros H.
  destruct v; try (destruct required; [|discriminate H]);
    repeat match type of H with
    | match ?x with _ => _ end = _ => destruct x
    | (if ?b then _ else _) = _ => destruct b
    end;
    try discriminate H; injection H as <-; reflexivity.
Qed.

Lemma flatten_matrix_raise env x e :
  flatten_matrix env x = Raise e -> e = IndexError \/ e = ValueError np_error.
Proof.
  unfold flatten_matrix. intros H.
  repeat match type of H with
         | match ?x with _ => _ end = _ => destruct x
         end; try discriminate H; injection H as <-; auto.
Qed.

Lemma truediv_raise x y e :
  py_truediv x y = Raise e -> e = ZeroDivisionError \/ exists msg, e = TypeError msg.
Proof.
  unfold py_truediv. intros H.
  destruct (as_ext x) as [[p|s]|]; [| |injection H as <-; eauto];
    (destruct (as_ext y) as [[q|t]|]; [| |injection H as <-; eauto]);
    cbn [ext_div] in H;
    repeat match type of H with
           | (if ?b then _ else _) = _ => destruct b
           | match ?v with _ => _ end = _ => destruct v
           end;
    try discriminate H; injection H as <-; eauto.
Qed.

Lemma dict_get_raise (X : Type) (pairs : list (string * X)) k e :
  dict_get pairs k = Raise e -> e = KeyError k.
Proof.
  unfold dict_get. destruct (assoc k (rev pairs)); intros H;
    [discriminate H | injection H as <-; reflexivity].
Qed.

Lemma build_distr_param_raise pv params e :
  build_distr_param pv params = Raise e -> exists k, e = KeyError k.
Proof.
  revert e. induction params as [|p params IH]; intros e H; cbn in H.
  - discriminate H.
  - apply bindo_raise_inv in H. destruct H as [H | (v & _ & H)].
    + apply dict_get_raise in H. eauto.
    + apply bindo_raise_inv in H. destruct H as [H | (r & _ & H)].
      * apply IH. exact H.
      * discriminate H.
Qed.

Ltac close_raise H :=
  first
    [ apply arg_raise_inv in H; discriminate H
    | apply flatten_matrix_raise in H; destruct H as [H | H]; discriminate H
    | apply dict_get_raise in H; discriminate H
    | apply build_distr_param_raise in H; destruct H as [? H]; discriminate H
    | repeat match type of H with
             | (if ?b then _ else _) = _ => destruct b
             end;
      first [ discriminate H
            | apply truediv_raise in H;
              destruct H as [H | [? H]]; discriminate H ]
    | eexists; split; [eassumption | exact H] ].

Ltac raise_step H :=
  lazymatch type of H with
  | bindo ?x _ = Raise _ =>
      let a := fresh "a" in
      let E := fresh "E" in
      apply bindo_raise_inv in H; destruct H as [H | (a & E & H)];
      [ solve [close_raise H] | cbv beta zeta in H ]
  | match ?v with VStr _ => _ | _ => _ end = Raise _ =>
      destruct v; try discriminate H;
      match goal with
      | E : arg "distribution" _ _ _ = Return _ |- _ =>
          apply arg_distribution_inv in E; destruct E as [E _]
      end
  end.

(** An InvalidArgument naming [nu] can only come from the check of [nu]. *)
Lemma marshal_raise_nu env a :
  mcmc_marshal env a = Raise (InvalidArgument "nu") ->
  exists d,
    m_distribution a = VStr d /\
    arg "nu" (m_nu a) number (String.eqb d "invchi_square")
    = Raise (InvalidArgument "nu").
Proof.
  intros H. unfold mcmc_marshal in H. cbv beta zeta in H.
  repeat raise_step H.
  discriminate H.
Qed.

Lemma mcmc_marshal_raise env a e w :
  mcmc_marshal env a = Raise e ->
  exists e' w',
    mcmc env a w = (Raise e', w') /\
    events w' = (events w ++ [EvRequirePal])%list /\
    (remote env (events w) EvRequirePal = None -> e' = e).
Proof.
  intros Hm.
  destruct (remote env (events w) EvRequirePal) as [e0|] eqn:Hrem.
  - exists e0, (add_events w [EvRequirePal]).
    split; [|split; [reflexivity | discriminate]].
    unfold mcmc. simp_goal. repeat goal_step. reflexivity.
  - exists e, (add_events w [EvRequirePal]).
    split; [|split; reflexivity].
    unfold mcmc. simp_goal. repeat goal_step. reflexivity.
Qed.

(** C4 (amended). [mcmc] with distribution student_t and [nu] left out
    never raises an InvalidArgument naming [nu]: whenever marshalling
    succeeds the value of [dof] (1.0 by default) is encoded under NU.  An
    omitted [nu] is
    rejected for the kind invchi_square only: marshalling then raises (the
    InvalidArgument naming [nu] when the other arguments are the defaults)
    and the call sends the PAL usability check and no procedure call. *)
Theorem C4_nu_required_only_for_invchi_square env :
  (forall a,
      m_distribution a = VStr "student_t" -> m_nu a = VNone ->
      mcmc_marshal env a <> Raise (InvalidArgument "nu") /\
      forall m, mcmc_marshal env a = Return m ->
                encoded m "NU" = Some [m_dof a]) /\
  (exists m,
      mcmc_marshal env (mcmc_defaults (VStr "student_t")) = Return m /\
      encoded m "NU" = Some [VFloat 1]) /\
  (forall a,
      m_distribution a = VStr "invchi_square" -> m_nu a = VNone ->
      (exists e, mcmc_marshal env a = Raise e) /\
      forall w, exists e w',
        mcmc env a w = (Raise e, w') /\
        events w' = (events w ++ [EvRequirePal])%list) /\
  mcmc_marshal env (mcmc_defaults (VStr "invchi_square"))
  = Raise (InvalidArgument "nu").
Proof.
  split; [|split; [|split]].
  - intros a Hd Hnu. split.
    + intros H. apply marshal_raise_nu in H. destruct H as (d & Hd' & H).
      rewrite Hd in Hd'. injection Hd' as <-. rewrite Hnu in H.
      discriminate H.
    + intros m H.
      destruct (marshal_inv env a m H)
        as (mu & sigma & xi & alpha & beta & nu & omega & L & y_min & lambda_ &
            params & Hd' & _ & _ & Hpv & _ & _ & _ & _ & Hdof &
            _ & _ & _ & _ & Hfb & _).
      rewrite Hd in Hd'. injection Hd' as Hd'.
      unfold scalar in Hdof. rewrite <- Hdof.
      apply (encoded_of_kind env a m "nu" (m_dof a) H).
      * rewrite <- Hd'. reflexivity.
      * rewrite Hpv, (Hfb Hnu). reflexivity.
  - eexists. split; vm_compute; reflexivity.
  - intros a Hd Hnu.
    assert (Hr : exists e, mcmc_marshal env a = Raise e).
    { destruct (mcmc_marshal env a) as [m|e] eqn:H; [|eexists; reflexivity].
      exfalso.
      destruct (marshal_inv env a m H)
        as (mu & sigma & xi & alpha & beta & nu & omega & L & y_min & lambda_ &
            params & Hd' & _ & _ & _ & _ & _ & _ & _ & _ &
            _ & _ & _ & _ & _ & _ & _ & _ & (v & Hv) & _).
      rewrite Hd in Hd'. injection Hd' as Hd'. rewrite <- Hd', Hnu in Hv.
      discriminate Hv. }
    split; [exact Hr|].
    intros w. destruct Hr as [e He].
    destruct (mcmc_marshal_raise env a e w He) as (e' & w' & Hrun & Hev & _).
    exists e', w'. split; assumption.
  - vm_compute. reflexivity.
Qed.

(** C4, as stated, fails: [mcmc(conn, 'student_t', dof=None)] with [nu]
    left out raises nothing on a collaborator that never fails; the
    procedure is invoked and the call ends normally. *)
Lemma C4_student_t_counterexample :
  let a := mcmc_aliases (VStr "student_t") (VFloat 0) (VFloat 1) (VFloat 1) VNone in
  let r := mcmc quiet_env a empty_world in
  m_nu a = VNone /\ m_dof a = VNone /\
  handle_of r = Some "#PAL_MCMC_RESULT_TBL_6BA7B810_9DAD_11D1_80B4_00C04FD430C0" /\
  existsb is_invocation (events (snd r)) = true.
Proof. vm_compute. repeat split; reflexivity. Qed.

(** C10. [mcmc] rejects the kind multistudent_t: marshalling raises the
    InvalidArgument on [distribution] and no procedure is called; the kind
    table holds the key mutistudent_t instead, while the test that makes
    [sigma] mandatory and list-valued names multinormal and multistudent_t.
    So for the accepted kind mutistudent_t the defaults marshal to the
    scalars of the aliases, an omitted [sigma] is encoded as [scale], an
    omitted [nu] as [dof], and a list-valued [sigma] is never accepted. *)
Theorem C10_multistudent_t_spelling env :
  (forall a w,
      m_distribution a = VStr "multistudent_t" ->
      mcmc_marshal env a = Raise (InvalidArgument "distribution") /\
      exists e w',
        mcmc env a w = (Raise e, w') /\
        events w' = (events w ++ [EvRequirePal])%list /\
        (remote env (events w) EvRequirePal = None ->
         e = InvalidArgument "distribution")) /\
  assoc "multistudent_t" dstr_param_lst = None /\
  assoc "mutistudent_t" dstr_param_lst = Some ["nu"; "mu"; "sigma"] /\
  str_in "mutistudent_t" ["multinormal"; "multistudent_t"] = false /\
  (exists m,
      mcmc_marshal env (mcmc_defaults (VStr "mutistudent_t")) = Return m /\
      distr_param m = [("NU", [VFloat 1]); ("MU", [VFloat 0]);
                       ("SIGMA", [VFloat 1])] /\
      dim m = 1) /\
  (forall a m,
      m_distribution a = VStr "mutistudent_t" ->
      mcmc_marshal env a = Return m ->
      (m_sigma a = VNone -> encoded m "SIGMA" = Some [m_scale a]) /\
      (m_nu a = VNone -> encoded m "NU" = Some [m_dof a]) /\
      ~ (exists l, m_sigma a = VList l)).
Proof.
  split; [|split; [|split; [|split; [|split]]]]; try reflexivity.
  - intros a w Hd.
    assert (Hm : mcmc_marshal env a = Raise (InvalidArgument "distribution")).
    { unfold mcmc_marshal. rewrite Hd.
      assert (Harg : arg "distribution" (VStr "multistudent_t")
                       (CDict (map (fun kv => (fst kv, fst kv)) dstr_param_lst))
                       true
                     = Raise (InvalidArgument "distribution"))
        by (vm_compute; reflexivity).
      rewrite Harg. reflexivity. }
    split; [exact Hm|].
    apply mcmc_marshal_raise. exact Hm.
  - eexists. split; [|split]; vm_compute; reflexivity.
  - intros a m Hd H.
    destruct (marshal_inv env a m H)
      as (mu & sigma & xi & alpha & beta & nu & omega & L & y_min & lambda_ &
          params & Hd' & _ & _ & Hpv & _ & _ & Hscale & _ & Hdof &
          _ & Hfs & _ & _ & Hfn & _ & (v & Hv) & _).
    rewrite Hd in Hd'. injection Hd' as Hd'.
    unfold scalar in *.
    split; [|split].
    + intros Hn. rewrite <- Hscale.
      apply (encoded_of_kind env a m "sigma" (m_scale a) H).
      * rewrite <- Hd'. reflexivity.
      * rewrite Hpv, (Hfs Hn). reflexivity.
    + intros Hn. rewrite <- Hdof.
      apply (encoded_of_kind env a m "nu" (m_dof a) H).
      * rewrite <- Hd'. reflexivity.
      * rewrite Hpv, (Hfn Hn). reflexivity.
    + intros [l Hl]. rewrite <- Hd', Hl in Hv. discriminate Hv.
Qed.

Lemma C5_alias_fallback_witness :
  exists m,
    mcmc_marshal quiet_env (mcmc_defaults (VStr "student_t")) = Return m /\
    encoded m "MU" = Some [VFloat 0] /\
    encoded m "SIGMA" = Some [VFloat 1] /\
    encoded m "NU" = Some [VFloat 1].
Proof.
  destruct (mcmc_marshal quiet_env (mcmc_defaults (VStr "student_t")))
    as [m|e] eqn:E; [|vm_compute in E; discriminate E].
  exists m. split; [reflexivity|].
  pose proof (C5_alias_fallback quiet_env _ m E)
    as (Hmu & Hsigma & _ & _ & Hnu & _).
  vm_compute in E. apply Return_inj in E. subst m.
  split; [|split].
  - apply Hmu; reflexivity.
  - apply Hsigma; reflexivity.
  - apply Hnu; reflexivity.
Defined.

(** C5, as stated, fails for [beta]: [mcmc(conn, 'exponential', scale=2.0)]
    encodes BETA as 1.0/2.0, not as the value 2.0 of the alias. *)
Lemma C5_exponential_counterexample :
  exists m,
    mcmc_marshal quiet_env
      (mcmc_aliases (VStr "exponential") (VFloat 0) (VFloat 2) (VFloat 1)
         (VFloat 1)) = Return m /\
    encoded m "BETA" = Some [VFloat (1 # 2)] /\
    encoded m "BETA" <> Some [VFloat 2].
Proof.
  eexists. split; [vm_compute; reflexivity|].
  split; [vm_compute; reflexivity|].
  vm_compute. discriminate.
Qed.

Lemma C4_nu_required_only_for_invchi_square_witness :
  let a := mcmc_aliases (VStr "student_t") (VFloat 0) (VFloat 1) (VFloat 1)
             (VFloat 3) in
  mcmc_marshal quiet_env a <> Raise (InvalidArgument "nu") /\
  forall m, mcmc_marshal quiet_env a = Return m ->
            encoded m "NU" = Some [VFloat 3].
Proof.
  intros a.
  apply (C4_nu_required_only_for_invchi_square quiet_env); reflexivity.
Defined.

Lemma C10_multistudent_t_spelling_witness :
  let a := mcmc_defaults (VStr "multistudent_t") in
  mcmc_marshal quiet_env a = Raise (InvalidArgument "distribution") /\
  exists e w',
    mcmc quiet_env a empty_world = (Raise e, w') /\
    events w' = (events empty_world ++ [EvRequirePal])%list /\
    (remote quiet_env (events empty_world) EvRequirePal = None ->
     e = InvalidArgument "distribution").
Proof.
  intros a.
  apply (C10_multistudent_t_spelling quiet_env). reflexivity.
Defined.

Lemma C9_normal_without_sigma_witness :
  exists msg,
    normal quiet_env (VInt 0) VNone (VFloat 4) default_num_random VNone VNone
      empty_world = (Raise (TypeError msg), empty_world).
Proof.
  apply (C9_normal_without_sigma quiet_env (VInt 0) (VFloat 4)
           default_num_random VNone VNone empty_world) with
    (mean' := VFloat (inject_Z 0)) (variance' := VFloat 4);
    reflexivity.
Defined.

(* ================================================================= *)
(** ** Validation of the univariate parameters *)

Lemma non_positive_float q : non_positive (VFloat q) = Return (Qle_bool q 0).
Proof. reflexivity. Qed.

Lemma Qle_bool_neg x y : (y < x)%Q -> Qle_bool x y = false.
Proof.
  intros H. destruct (Qle_bool x y) eqn:E; [|reflexivity].
  apply Qle_bool_iff in E. lra.
Qed.

Lemma Qle_bool_pos x y : (x <= y)%Q -> Qle_bool x y = true.
Proof. apply Qle_bool_iff. Qed.

Lemma non_positive_true q : (q <= 0)%Q -> non_positive (VFloat q) = Return true.
Proof. intros H. rewrite non_positive_float, (Qle_bool_pos _ _ H). reflexivity. Qed.

Lemma non_positive_false q : (0 < q)%Q -> non_positive (VFloat q) = Return false.
Proof. intros H. rewrite non_positive_float, (Qle_bool_neg _ _ H). reflexivity. Qed.

Lemma outside_unit_false q :
  (0 <= q /\ q <= 1)%Q -> outside_unit (VFloat q) = Return false.
Proof.
  intros [H0 H1]. unfold outside_unit, py_or, py_lt, py_gt, py_cmp, Qlt_bool.
  cbn [as_num bindo].
  change (inject_Z 0) with 0%Q. change (inject_Z 1) with 1%Q.
  rewrite (Qle_bool_pos _ _ H0). cbn [negb].
  rewrite (Qle_bool_pos _ _ H1). reflexivity.
Qed.

Lemma non_positive_int z : non_positive (VInt z) = Return (Z.leb z 0).
Proof.
  unfold non_positive, py_le, py_cmp. cbn [as_num].
  f_equal. destruct (Z.leb z 0) eqn:E.
  - apply Qle_bool_iff. change (inject_Z z <= inject_Z 0)%Q.
    rewrite <- Zle_Qle. apply Z.leb_le. exact E.
  - apply Qle_bool_neg. change (inject_Z 0 < inject_Z z)%Q.
    rewrite <- Zlt_Qlt. apply Z.leb_gt. exact E.
Qed.

Lemma any_non_positive qa qb :
  py_any non_positive [VFloat qa; VFloat qb] =
  Return (Qle_bool qa 0 || Qle_bool qb 0).
Proof.
  cbn [py_any]. rewrite !non_positive_float. cbn [bindo].
  destruct (Qle_bool qa 0); [reflexivity|]. cbn [orb].
  destruct (Qle_bool qb 0); reflexivity.
Qed.

Lemma or_non_positive qa qb :
  py_or (non_positive (VFloat qa)) (non_positive (VFloat qb)) =
  Return (Qle_bool qa 0 || Qle_bool qb 0).
Proof.
  unfold py_or. rewrite !non_positive_float. cbn [bindo].
  destruct (Qle_bool qa 0); [reflexivity|]. cbn [orb].
  destruct (Qle_bool qb 0); reflexivity.
Qed.

Lemma py_int_number n qn : py_number n qn -> py_int n = Return (VInt (truncate qn)).
Proof.
  intros []; cbn [py_int]; [|reflexivity].
  unfold truncate. cbn. rewrite Z.quot_1_r. reflexivity.
Qed.

Ltac replay f := unfold f; simp_goal; repeat goal_step; try reflexivity.

Ltac Q_order := unfold Qle, Qlt; cbn; lia.

(** X1. [uniform] with numbers for [low] and [high]: when [high <= low]
    (equal bounds included) it raises the ValueError on the bounds and has
    sent nothing through the connection; when [low < high] it continues as
    the [_rds] call for UNIFORM with MIN and MAX as floats. *)
Theorem X1_uniform_bounds env low high ql qh nr seed tr w :
  py_number low ql ->
  py_number high qh ->
  ((qh <= ql)%Q ->
   exists w',
     uniform env low high nr seed tr w =
       (Raise (ValueError "Value of low should be lower than high."), w') /\
     events w' = events w) /\
  ((ql < qh)%Q ->
   uniform env low high nr seed tr w =
     _rds env [("DISTRIBUTIONNAME", VStr "UNIFORM");
               ("MIN", VFloat ql);
               ("MAX", VFloat qh)]
          nr seed tr w).
Proof.
  intros Hl Hh.
  pose proof (arg_float_number "low" _ _ Hl) as Hl'.
  pose proof (arg_float_number "high" _ _ Hh) as Hh'.
  split; intros Hord.
  - assert (Hge : py_ge (VFloat ql) (VFloat qh) = Return true)
      by (unfold py_ge, py_cmp; cbn [as_num];
          rewrite (Qle_bool_pos _ _ Hord); reflexivity).
    eexists. split; [replay uniform | reflexivity].
  - assert (Hge : py_ge (VFloat ql) (VFloat qh) = Return false)
      by (unfold py_ge, py_cmp; cbn [as_num];
          rewrite (Qle_bool_neg _ _ Hord); reflexivity).
    replay uniform.
Qed.

Lemma X1_uniform_bounds_witness :
  (exists w',
     uniform quiet_env (VInt 2) (VInt 2) default_num_random VNone VNone
       empty_world =
       (Raise (ValueError "Value of low should be lower than high."), w') /\
     events w' = events empty_world) /\
  uniform quiet_env (VInt 0) (VFloat 1) default_num_random VNone VNone
    empty_world =
  _rds quiet_env [("DISTRIBUTIONNAME", VStr "UNIFORM");
                  ("MIN", VFloat (inject_Z 0)); ("MAX", VFloat 1)]
       default_num_random VNone VNone empty_world.
Proof.
  split.
  - apply (proj1 (X1_uniform_bounds quiet_env (VInt 2) (VInt 2) _ _
                    default_num_random VNone VNone empty_world
                    (PyInt 2) (PyInt 2))).
    Q_order.
  - apply (proj2 (X1_uniform_bounds quiet_env (VInt 0) (VFloat 1) _ _
                    default_num_random VNone VNone empty_world
                    (PyInt 0) (PyFloat 1))).
    Q_order.
Defined.

(** X2. The single positive parameter of [exponential], [poisson],
    [student_t] (a number) and [chi_squared] (an integer): a value of zero
    or below raises the function's ValueError, logged once, with nothing
    sent; a value above zero continues as the [_rds] call under RATE,
    THETA or DEGREES_OF_FREEDOM. *)
Theorem X2_rate_must_be_positive env x q z nr seed tr w :
  py_number x q ->
  ((q <= 0)%Q ->
   exponential env x nr seed tr w =
     (Raise (ValueError "Parameter lamb should be greater than zero."),
      add_log w (LogError "Parameter lamb should be greater than zero.")) /\
   poisson env x nr seed tr w =
     (Raise (ValueError "Parameter theta should be greater than zero."),
      add_log w (LogError "Parameter theta should be greater than zero.")) /\
   student_t env x nr seed tr w =
     (Raise (ValueError "Parameter dof should be greater than zero."),
      add_log w (LogError "Parameter dof should be greater than zero."))) /\
  ((0 < q)%Q ->
   exponential env x nr seed tr w =
     _rds env [("DISTRIBUTIONNAME", VStr "EXPONENTIAL"); ("RATE", VFloat q)]
          nr seed tr w /\
   poisson env x nr seed tr w =
     _rds env [("DISTRIBUTIONNAME", VStr "POISSON"); ("THETA", VFloat q)]
          nr seed tr w /\
   student_t env x nr seed tr w =
     _rds env [("DISTRIBUTIONNAME", VStr "STUDENT_T");
               ("DEGREES_OF_FREEDOM", VFloat q)]
          nr seed tr w) /\
  (z <= 0 ->
   chi_squared env (VInt z) nr seed tr w =
     (Raise (ValueError "Parameter dof should be greater than zero."),
      add_log w (LogError "Parameter dof should be greater than zero."))) /\
  (0 < z ->
   chi_squared env (VInt z) nr seed tr w =
     _rds env [("DISTRIBUTIONNAME", VStr "CHI_SQUARED");
               ("DEGREES_OF_FREEDOM", VInt z)]
          nr seed tr w).
Proof.
  intros Hx.
  pose proof (arg_float_number "lamb" _ _ Hx) as H1.
  pose proof (arg_float_number "theta" _ _ Hx) as H2.
  pose proof (arg_float_number "dof" _ _ Hx) as H3.
  split; [|split; [|split]].
  - intros Hq. pose proof (non_positive_true q Hq) as Hnp.
    split; [replay exponential|]. split; [replay poisson | replay student_t].
  - intros Hq. pose proof (non_positive_false q Hq) as Hnp.
    split; [replay exponential|]. split; [replay poisson | replay student_t].
  - intros Hz.
    assert (Hnp : non_positive (VInt z) = Return true)
      by (rewrite non_positive_int; f_equal; apply Z.leb_le; exact Hz).
    replay chi_squared.
  - intros Hz.
    assert (Hnp : non_positive (VInt z) = Return false)
      by (rewrite non_positive_int; f_equal; apply Z.leb_gt; exact Hz).
    replay chi_squared.
Qed.

Lemma X2_rate_must_be_positive_witness :
  poisson quiet_env (VInt 0) default_num_random VNone VNone empty_world =
    (Raise (ValueError "Parameter theta should be greater than zero."),
     add_log empty_world
       (LogError "Parameter theta should be greater than zero.")) /\
  chi_squared quiet_env (VInt 3) default_num_random VNone VNone empty_world =
    _rds quiet_env [("DISTRIBUTIONNAME", VStr "CHI_SQUARED");
                    ("DEGREES_OF_FREEDOM", VInt 3)]
         default_num_random VNone VNone empty_world.
Proof.
  pose proof (X2_rate_must_be_positive quiet_env (VInt 0) _ 3
                default_num_random VNone VNone empty_world (PyInt 0))
    as (Hneg & _ & _ & Hpos).
  split.
  - apply Hneg. Q_order.
  - apply Hpos. lia.
Defined.

(** X3. The two parameters of [beta], [f], [gamma] and [weibull], given
    as numbers: as soon as one of them is zero or below the function raises
    its ValueError, logged once, with nothing sent; with both above zero it
    continues as the [_rds] call with the pair as floats. *)
Theorem X3_shape_pairs_must_be_positive env a b qa qb nr seed tr w :
  py_number a qa ->
  py_number b qb ->
  ((qa <= 0 \/ qb <= 0)%Q ->
   beta env a b nr seed tr w =
     (Raise (ValueError "Parameters a and b should be greater than zero."),
      add_log w (LogError "Parameters a and b should be greater than zero.")) /\
   f env a b nr seed tr w =
     (Raise (ValueError "Parameters dof1 and dof2 should be positive."),
      add_log w (LogError "Parameters dof1 and dof2 should be positive.")) /\
   gamma env a b nr seed tr w =
     (Raise (ValueError shapes_msg), add_log w (LogError shapes_msg)) /\
   weibull env a b nr seed tr w =
     (Raise (ValueError shapes_msg), add_log w (LogError shapes_msg))) /\
  ((0 < qa /\ 0 < qb)%Q ->
   beta env a b nr seed tr w =
     _rds env [("DISTRIBUTIONNAME", VStr "BETA");
               ("SHAPE1", VFloat qa); ("SHAPE2", VFloat qb)] nr seed tr w /\
   f env a b nr seed tr w =
     _rds env [("DISTRIBUTIONNAME", VStr "FISHER_F");
               ("DEGREES_OF_FREEDOM1", VFloat qa);
               ("DEGREES_OF_FREEDOM2", VFloat qb)] nr seed tr w /\
   gamma env a b nr seed tr w =
     _rds env [("DISTRIBUTIONNAME", VStr "GAMMA");
               ("SHAPE", VFloat qa); ("SCALE", VFloat qb)] nr seed tr w /\
   weibull env a b nr seed tr w =
     _rds env [("DISTRIBUTIONNAME", VStr "WEIBULL");
               ("SHAPE", VFloat qa); ("SCALE", VFloat qb)] nr seed tr w).
Proof.
  intros Ha Hb.
  pose proof (arg_float_number "a" _ _ Ha) as Ha1.
  pose proof (arg_float_number "b" _ _ Hb) as Hb1.
  pose proof (arg_float_number "dof1" _ _ Ha) as Ha2.
  pose proof (arg_float_number "dof2" _ _ Hb) as Hb2.
  pose proof (arg_float_number "shape" _ _ Ha) as Ha3.
  pose proof (arg_float_number "scale" _ _ Hb) as Hb3.
  pose proof (any_non_positive qa qb) as Hany.
  pose proof (or_non_positive qa qb) as Hor.
  split; intros Hq.
  - assert (Hb' : (Qle_bool qa 0 || Qle_bool qb 0)%bool = true).
    { apply orb_true_iff. destruct Hq as [Hq | Hq]; [left | right];
        apply Qle_bool_iff; exact Hq. }
    rewrite Hb' in Hany, Hor.
    split; [replay beta|]. split; [replay f|].
    split; [replay gamma | replay weibull].
  - assert (Hb' : (Qle_bool qa 0 || Qle_bool qb 0)%bool = false).
    { destruct Hq as [Hqa Hqb].
      rewrite (Qle_bool_neg _ _ Hqa), (Qle_bool_neg _ _ Hqb). reflexivity. }
    rewrite Hb' in Hany, Hor.
    split; [replay beta|]. split; [replay f|].
    split; [replay gamma | replay weibull].
Qed.

Lemma X3_shape_pairs_must_be_positive_witness :
  gamma quiet_env (VFloat 2) (VInt 0) default_num_random VNone VNone
    empty_world =
    (Raise (ValueError shapes_msg), add_log empty_world (LogError shapes_msg)) /\
  weibull quiet_env (VFloat 2) (VInt 1) default_num_random VNone VNone
    empty_world =
    _rds quiet_env [("DISTRIBUTIONNAME", VStr "WEIBULL");
                    ("SHAPE", VFloat 2); ("SCALE", VFloat (inject_Z 1))]
         default_num_random VNone VNone empty_world.
Proof.
  split.
  - apply (proj1 (X3_shape_pairs_must_be_positive quiet_env (VFloat 2) (VInt 0)
                    _ _ default_num_random VNone VNone empty_world
                    (PyFloat 2) (PyInt 0))).
    right. Q_order.
  - apply (proj2 (X3_shape_pairs_must_be_positive quiet_env (VFloat 2) (VInt 1)
                    _ _ default_num_random VNone VNone empty_world
                    (PyFloat 2) (PyInt 1))).
    split; Q_order.
Defined.

(** X4. [cauchy] and [gumbel] with [location] a number or left out and
    [scale] a number: a scale of zero or below raises the ValueError on
    scale, logged once, with nothing sent; a scale above zero continues as
    the [_rds] call for CAUCHY, respectively EXTREME_VALUE.  The location
    is never range-checked. *)
Theorem X4_scale_must_be_positive env loc loc' s qs nr seed tr w :
  arg "location" loc (CType Tfloat) false = Return loc' ->
  py_number s qs ->
  ((qs <= 0)%Q ->
   cauchy env loc s nr seed tr w =
     (Raise (ValueError "Parameter scale should be greater than zero."),
      add_log w (LogError "Parameter scale should be greater than zero.")) /\
   gumbel env loc s nr seed tr w =
     (Raise (ValueError "Parameter scale should be greater than zero."),
      add_log w (LogError "Parameter scale should be greater than zero."))) /\
  ((0 < qs)%Q ->
   cauchy env loc s nr seed tr w =
     _rds env [("DISTRIBUTIONNAME", VStr "CAUCHY");
               ("LOCATION", loc'); ("SCALE", VFloat qs)] nr seed tr w /\
   gumbel env loc s nr seed tr w =
     _rds env [("DISTRIBUTIONNAME", VStr "EXTREME_VALUE");
               ("LOCATION", loc'); ("SCALE", VFloat qs)] nr seed tr w).
Proof.
  intros Hloc Hs.
  pose proof (arg_float_number "scale" _ _ Hs) as Hs'.
  split; intros Hq.
  - pose proof (non_positive_true qs Hq) as Hnp.
    split; [replay cauchy | replay gumbel].
  - pose proof (non_positive_false qs Hq) as Hnp.
    split; [replay cauchy | replay gumbel].
Qed.

Lemma X4_scale_must_be_positive_witness :
  cauchy quiet_env VNone (VInt 0) default_num_random VNone VNone empty_world =
    (Raise (ValueError "Parameter scale should be greater than zero."),
     add_log empty_world
       (LogError "Parameter scale should be greater than zero.")) /\
  gumbel quiet_env (VInt 1) (VFloat 2) default_num_random VNone VNone
    empty_world =
    _rds quiet_env [("DISTRIBUTIONNAME", VStr "EXTREME_VALUE");
                    ("LOCATION", VFloat (inject_Z 1)); ("SCALE", VFloat 2)]
         default_num_random VNone VNone empty_world.
Proof.
  split.
  - apply (proj1 (X4_scale_must_be_positive quiet_env VNone VNone (VInt 0) _
                    default_num_random VNone VNone empty_world
                    eq_refl (PyInt 0))).
    Q_order.
  - apply (proj2 (X4_scale_must_be_positive quiet_env (VInt 1) _ (VFloat 2) _
                    default_num_random VNone VNone empty_world
                    eq_refl (PyFloat 2))).
    Q_order.
Defined.

(** X5. [lognormal], and [normal] called without [variance]: with
    [sigma] a number, zero or below raises the ValueError on sigma, logged
    once, with nothing sent; above zero the call continues as [_rds], for
    [normal] with the rows VARIANCE (None) and SD. *)
Theorem X5_sigma_must_be_positive env mean mean' sigma qs nr seed tr w :
  arg "mean" mean (CType Tfloat) false = Return mean' ->
  py_number sigma qs ->
  ((qs <= 0)%Q ->
   lognormal env mean sigma nr seed tr w =
     (Raise (ValueError "Parameter sigma should be greater than zero."),
      add_log w (LogError "Parameter sigma should be greater than zero.")) /\
   normal env mean sigma VNone nr seed tr w =
     (Raise (ValueError "Parameter sigma should be greater than zero."),
      add_log w (LogError "Parameter sigma should be greater than zero."))) /\
  ((0 < qs)%Q ->
   lognormal env mean sigma nr seed tr w =
     _rds env [("DISTRIBUTIONNAME", VStr "LOGNORMAL");
               ("LOCATION", mean'); ("SCALE", VFloat qs)] nr seed tr w /\
   normal env mean sigma VNone nr seed tr w =
     _rds env [("DISTRIBUTIONNAME", VStr "NORMAL");
               ("MEAN", mean'); ("VARIANCE", VNone); ("SD", VFloat qs)]
          nr seed tr w).
Proof.
  intros Hmean Hs.
  pose proof (arg_float_number "sigma" _ _ Hs) as Hs'.
  assert (Hv : arg "variance" VNone (CType Tfloat) false = Return VNone)
    by reflexivity.
  split; intros Hq.
  - pose proof (non_positive_true qs Hq) as Hnp.
    split; [replay lognormal|].
    unfold normal. simp_goal. do 3 goal_step.
    cbn [is_none negb andb]. repeat goal_step. reflexivity.
  - pose proof (non_positive_false qs Hq) as Hnp.
    split; [replay lognormal|].
    unfold normal. simp_goal. do 3 goal_step.
    cbn [is_none negb andb]. repeat goal_step. reflexivity.
Qed.

Lemma X5_sigma_must_be_positive_witness :
  normal quiet_env (VInt 0) (VInt 0) VNone default_num_random VNone VNone
    empty_world =
    (Raise (ValueError "Parameter sigma should be greater than zero."),
     add_log empty_world
       (LogError "Parameter sigma should be greater than zero.")) /\
  lognormal quiet_env (VInt 0) (VInt 1) default_num_random VNone VNone
    empty_world =
    _rds quiet_env [("DISTRIBUTIONNAME", VStr "LOGNORMAL");
                    ("LOCATION", VFloat (inject_Z 0));
                    ("SCALE", VFloat (inject_Z 1))]
         default_num_random VNone VNone empty_world.
Proof.
  split.
  - apply (proj1 (X5_sigma_must_be_positive quiet_env (VInt 0) _ (VInt 0) _
                    default_num_random VNone VNone empty_world
                    eq_refl (PyInt 0))).
    Q_order.
  - apply (proj2 (X5_sigma_must_be_positive quiet_env (VInt 0) _ (VInt 1) _
                    default_num_random VNone VNone empty_world
                    eq_refl (PyInt 1))).
    Q_order.
Defined.

(** X6. A success fraction [p] with [0 <= p <= 1] (both ends included)
    is accepted: [bernoulli] and [geometric] continue as the [_rds] call;
    [binomial] then rejects a negative integer [n] with its own ValueError
    and accepts [n = 0] and above. *)
Theorem X6_probability_accepted env p q z nr seed tr w :
  py_number p q ->
  (0 <= q /\ q <= 1)%Q ->
  bernoulli env p nr seed tr w =
    _rds env [("DISTRIBUTIONNAME", VStr "BERNOULLI");
              ("SUCCESS_FRACTION", VFloat q)] nr seed tr w /\
  geometric env p nr seed tr w =
    _rds env [("DISTRIBUTIONNAME", VStr "GEOMETRIC");
              ("SUCCESS_FRACTION", VFloat q)] nr seed tr w /\
  (z < 0 ->
   binomial env (VInt z) p nr seed tr w =
     (Raise (ValueError "Parameter n should be at least zero."),
      add_log w (LogError "Parameter n should be at least zero."))) /\
  (0 <= z ->
   binomial env (VInt z) p nr seed tr w =
     _rds env [("DISTRIBUTIONNAME", VStr "BINOMIAL");
               ("SUCCESS_FRACTION", VFloat q);
               ("TRIALS", VInt z)] nr seed tr w).
Proof.
  intros Hp Hq.
  pose proof (arg_float_number "p" _ _ Hp) as Hp'.
  pose proof (outside_unit_false q Hq) as Hin.
  assert (Hn : arg "n" (VInt z) (CType Tint) false = Return (VInt z))
    by reflexivity.
  split; [replay bernoulli|]. split; [replay geometric|].
  split; intros Hz.
  - pose proof (py_lt_negative z Hz) as Hlt. replay binomial.
  - assert (Hlt : py_lt (VInt z) (VInt 0) = Return false).
    { unfold py_lt, py_cmp, Qlt_bool. cbn [as_num].
      rewrite Qle_bool_pos; [reflexivity|].
      rewrite <- Zle_Qle. exact Hz. }
    replay binomial.
Qed.

Lemma X6_probability_accepted_witness :
  bernoulli quiet_env (VInt 1) default_num_random VNone VNone empty_world =
    _rds quiet_env [("DISTRIBUTIONNAME", VStr "BERNOULLI");
                    ("SUCCESS_FRACTION", VFloat (inject_Z 1))]
         default_num_random VNone VNone empty_world /\
  binomial quiet_env (VInt 0) (VInt 1) default_num_random VNone VNone
    empty_world =
    _rds quiet_env [("DISTRIBUTIONNAME", VStr "BINOMIAL");
                    ("SUCCESS_FRACTION", VFloat (inject_Z 1));
                    ("TRIALS", VInt 0)]
         default_num_random VNone VNone empty_world.
Proof.
  assert (Hq : (0 <= inject_Z 1 /\ inject_Z 1 <= 1)%Q) by (split; Q_order).
  pose proof (X6_probability_accepted quiet_env (VInt 1) _ 0
                default_num_random VNone VNone empty_world (PyInt 1) Hq)
    as (Hb & _ & _ & Hn).
  split; [exact Hb | apply Hn; lia].
Defined.

(** X7. [negative_binomial] truncates [n] towards zero before testing
    it: a number whose integer part is zero or below (as 0.5) raises the
    ValueError on n; otherwise, with [p] in range, the integer part is what
    the SUCCESSES row carries. *)
Theorem X7_negative_binomial_truncates env n qn p q nr seed tr w :
  py_number n qn ->
  py_number p q ->
  (truncate qn <= 0 ->
   negative_binomial env n p nr seed tr w =
     (Raise (ValueError "Parameter n should be greater than zero."),
      add_log w (LogError "Parameter n should be greater than zero."))) /\
  (0 < truncate qn -> (0 <= q /\ q <= 1)%Q ->
   negative_binomial env n p nr seed tr w =
     _rds env [("DISTRIBUTIONNAME", VStr "NEGATIVE_BINOMIAL");
               ("SUCCESSES", VInt (truncate qn));
               ("SUCCESS_FRACTION", VFloat q)] nr seed tr w).
Proof.
  intros Hn Hp.
  pose proof (arg_float_number "p" _ _ Hp) as Hp'.
  assert (Hn' : arg "n" n (CTypes [Tint; Tfloat]) false = Return n)
    by (destruct Hn; reflexivity).
  assert (Hint : (if is_none n then Return n else py_int n)
                 = Return (VInt (truncate qn)))
    by (rewrite <- (py_int_number n qn Hn); destruct Hn; reflexivity).
  split.
  - intros Hz.
    assert (Hnp : non_positive (VInt (truncate qn)) = Return true)
      by (rewrite non_positive_int; f_equal; apply Z.leb_le; exact Hz).
    replay negative_binomial.
  - intros Hz Hq.
    assert (Hnp : non_positive (VInt (truncate qn)) = Return false)
      by (rewrite non_positive_int; f_equal; apply Z.leb_gt; exact Hz).
    pose proof (outside_unit_false q Hq) as Hin.
    replay negative_binomial.
Qed.

Lemma X7_negative_binomial_truncates_witness :
  negative_binomial quiet_env (VFloat (1 # 2)) (VFloat (1 # 2))
    default_num_random VNone VNone empty_world =
    (Raise (ValueError "Parameter n should be greater than zero."),
     add_log empty_world
       (LogError "Parameter n should be greater than zero.")) /\
  negative_binomial quiet_env (VFloat (5 # 2)) (VFloat (1 # 2))
    default_num_random VNone VNone empty_world =
    _rds quiet_env [("DISTRIBUTIONNAME", VStr "NEGATIVE_BINOMIAL");
                    ("SUCCESSES", VInt 2);
                    ("SUCCESS_FRACTION", VFloat (1 # 2))]
         default_num_random VNone VNone empty_world.
Proof.
  split.
  - apply (proj1 (X7_negative_binomial_truncates quiet_env (VFloat (1 # 2)) _
                    (VFloat (1 # 2)) _ default_num_random VNone VNone
                    empty_world (PyFloat (1 # 2)) (PyFloat (1 # 2)))).
    vm_compute. discriminate.
  - apply (proj2 (X7_negative_binomial_truncates quiet_env (VFloat (5 # 2)) _
                    (VFloat (1 # 2)) _ default_num_random VNone VNone
                    empty_world (PyFloat (5 # 2)) (PyFloat (1 # 2)))).
    + vm_compute. reflexivity.
    + split; Q_order.
Defined.

(* ================================================================= *)
(** ** The PAL check comes first *)

Ltac gate_cases H :=
  run_in H; finish_run H; split; [reflexivity | reflexivity].

Lemma rds_gate env dps nr seed tr w o w' e :
  remote env (events w) EvRequirePal = Some e ->
  _rds env dps nr seed tr w = (o, w') ->
  events w' = (events w ++ [EvRequirePal])%list /\ o = Raise e.
Proof. intros He H. unfold _rds in H. gate_cases H. Qed.

Lemma multinomial_gate env n pvals nr seed tr w o w' e :
  remote env (events w) EvRequirePal = Some e ->
  multinomial env n pvals nr seed tr w = (o, w') ->
  events w' = (events w ++ [EvRequirePal])%list /\ o = Raise e.
Proof. intros He H. unfold multinomial in H. gate_cases H. Qed.

Lemma mcmc_gate env a w o w' e :
  remote env (events w) EvRequirePal = Some e ->
  mcmc env a w = (o, w') ->
  events w' = (events w ++ [EvRequirePal])%list /\ o = Raise e.
Proof. intros He H. unfold mcmc in H. gate_cases H. Qed.

(** X8. When the PAL usability check fails, every entry point raises
    and sends at most that check: [multinomial] and [mcmc], which check
    first, raise the check's own error; the functions built on [_rds]
    either reject their parameters before the check, with nothing sent, or
    raise the check's error. *)
Theorem X8_pal_check_gates_every_call env c w o w' e :
  remote env (events w) EvRequirePal = Some e ->
  entry env c w = (o, w') ->
  (exists e', o = Raise e') /\
  (events w' = events w \/
   (events w' = (events w ++ [EvRequirePal])%list /\ o = Raise e)) /\
  (match c with
   | Sampling (Multinomial _ _) _ _ _ | Mcmc _ =>
       events w' = (events w ++ [EvRequirePal])%list /\ o = Raise e
   | _ => True
   end).
Proof.
  intros He H.
  destruct c as [d nr seed tr | a]; cbn [entry] in H.
  - destruct (is_multinomial d) eqn:Hm.
    + destruct d; try discriminate Hm. cbn [sample] in H.
      destruct (multinomial_gate _ _ _ _ _ _ _ _ _ _ He H) as [Hev ->].
      split; [eexists; reflexivity|]. split; [right|]; split; auto.
    + assert (Hg : (exists e', o = Raise e') /\
                   (events w' = events w \/
                    (events w' = (events w ++ [EvRequirePal])%list /\ o = Raise e))).
      { destruct (sampling_reaches_rds env d w Hm)
          as [(e0 & w0 & Hev0 & _ & Hrun) | (dps & _ & Hrun)];
          rewrite Hrun in H.
        - apply pair_eq_inv in H. destruct H as [<- <-].
          split; [eexists; reflexivity | left; exact Hev0].
        - destruct (rds_gate _ _ _ _ _ _ _ _ _ He H) as [Hev ->].
          split; [eexists; reflexivity | right; split; auto]. }
      destruct Hg as [H1 H2]. split; [exact H1|]. split; [exact H2|].
      destruct d; try exact I. discriminate Hm.
  - destruct (mcmc_gate _ _ _ _ _ _ He H) as [Hev ->].
    split; [eexists; reflexivity|]. split; [right|]; split; auto.
Qed.

Lemma X8_pal_check_gates_every_call_witness :
  let c := Mcmc (mcmc_defaults (VStr "normal")) in
  let r := entry unusable_env c empty_world in
  (exists e', fst r = Raise e') /\
  (events (snd r) = events empty_world \/
   (events (snd r) = (events empty_world ++ [EvRequirePal])%list /\
    fst r = Raise (OtherError "insufficient privilege"))) /\
  (events (snd r) = (events empty_world ++ [EvRequirePal])%list /\
   fst r = Raise (OtherError "insufficient privilege")).
Proof.
  intros c r.
  apply (X8_pal_check_gates_every_call unusable_env c empty_world
           (fst r) (snd r) (OtherError "insufficient privilege")).
  - reflexivity.
  - vm_compute. reflexivity.
Defined.

(* ================================================================= *)
(** ** Failures that are not database errors *)

Ltac same_answer :=
  match goal with
  | H1 : ?r = Some ?x, H2 : ?r = Some ?y |- _ =>
      assert (x = y) by congruence; subst y
  end.

Ltac other_error_cases H :=
  failure_cases H; same_answer; split; reflexivity.

Lemma rds_other_error env dps nr seed tr w o w' :
  _rds env dps nr seed tr w = (o, w') ->
  forall pre ev post e,
    events w' = (events w ++ pre ++ ev :: post)%list ->
    is_invocation ev = true ->
    remote env (events w ++ pre) ev = Some e ->
    is_db_error env e = false ->
    post = [] /\
    o = Raise (if pyodbc_imported env then e else NameError "pyodbc").
Proof. unfold _rds. intros H. other_error_cases H. Qed.

Lemma multinomial_other_error env n pvals nr seed tr w o w' :
  multinomial env n pvals nr seed tr w = (o, w') ->
  forall pre ev post e,
    events w' = (events w ++ pre ++ ev :: post)%list ->
    is_invocation ev = true ->
    remote env (events w ++ pre) ev = Some e ->
    is_db_error env e = false ->
    post = [] /\
    o = Raise (if pyodbc_imported env then e else NameError "pyodbc").
Proof. unfold multinomial. intros H. other_error_cases H. Qed.

Lemma mcmc_other_error env a w o w' :
  mcmc env a w = (o, w') ->
  forall pre ev post e,
    events w' = (events w ++ pre ++ ev :: post)%list ->
    is_invocation ev = true ->
    remote env (events w ++ pre) ev = Some e ->
    is_db_error env e = false ->
    post = [] /\
    o = Raise (if pyodbc_imported env then e else NameError "pyodbc").
Proof. unfold mcmc. intros H. other_error_cases H. Qed.

(** X10. A failure of the table creation or of the procedure call that
    is not a database error is not cleaned up: no drop is sent after the
    failed request.  The error is re-raised as it is when [pyodbc] was
    imported; without [pyodbc] the second except clause fails on the
    unbound name, and the call raises NameError instead. *)
Theorem X10_other_errors_skip_cleanup env c w o w' pre ev post e :
  entry env c w = (o, w') ->
  events w' = (events w ++ pre ++ ev :: post)%list ->
  is_invocation ev = true ->
  remote env (events w ++ pre) ev = Some e ->
  is_db_error env e = false ->
  post = [] /\
  o = Raise (if pyodbc_imported env then e else NameError "pyodbc").
Proof.
  destruct c as [d nr seed tr | a]; cbn [entry].
  - destruct (is_multinomial d) eqn:Hm.
    + destruct d; try discriminate Hm. cbn [sample].
      intros H Hev Hinv Hrem Hdb. eapply multinomial_other_error; eassumption.
    + destruct (sampling_reaches_rds env d w Hm)
        as [(e0 & w0 & Hev0 & _ & Hrun) | (dps & _ & Hrun)];
        rewrite Hrun; intros H Hev Hinv Hrem Hdb.
      * apply pair_eq_inv in H. destruct H as [_ <-].
        rewrite Hev0 in Hev. exfalso. eapply no_new_event. exact Hev.
      * eapply rds_other_error; eassumption.
  - intros H Hev Hinv Hrem Hdb. eapply mcmc_other_error; eassumption.
Qed.

Lemma X10_other_errors_skip_cleanup_witness :
  let c := Sampling (Poisson (VFloat 1)) default_num_random VNone VNone in
  let r := entry broken_env c empty_world in
  skipn 3 (events (snd r)) = [] /\
  fst r = Raise (NameError "pyodbc").
Proof.
  intros c r.
  apply (X10_other_errors_skip_cleanup broken_env c empty_world (fst r) (snd r)
           (firstn 2 (events (snd r)))
           (nth 2 (events (snd r)) EvRequirePal)
           (skipn 3 (events (snd r)))
           (OtherError "connection object is closed"));
    vm_compute; reflexivity.
Defined.

(* ================================================================= *)
(** ** What a returning sampling call has sent *)

Lemma not_none_lt v : py_lt v (VInt 0) = Return false -> is_none v = false.
Proof. destruct v; intros H; try reflexivity. discriminate H. Qed.

Lemma is_none_false v : is_none v = false -> v <> VNone.
Proof. intros H ->. discriminate H. Qed.

Lemma general_rows_filter d nr seed tr :
  is_none nr = false ->
  filter populated
    ((if is_multinomial d
      then [("DISTRIBUTIONNAME", VNone, VNone, VStr "MULTINOMIAL")] else [])
     ++ [("NUM_RANDOM", nr, VNone, VNone);
         ("SEED", seed, VNone, VNone);
         ("THREAD_RATIO", VNone, tr, VNone)])
  = general_rows d nr seed tr.
Proof.
  intros H. unfold general_rows.
  destruct (is_multinomial d); cbn [List.app filter populated];
    rewrite H; destruct (is_none seed); destruct (is_none tr); reflexivity.
Qed.

Lemma one_slot_first name v : is_none v = false -> one_slot (name, v, VNone, VNone).
Proof. intros H. left. split; [exact (is_none_false v H) | split; reflexivity]. Qed.

Lemma one_slot_second name v : is_none v = false -> one_slot (name, VNone, v, VNone).
Proof.
  intros H. right. left.
  split; [reflexivity | split; [exact (is_none_false v H) | reflexivity]].
Qed.

Lemma one_slot_third name s : one_slot (name, VNone, VNone, VStr s).
Proof.
  right. right. split; [reflexivity | split; [reflexivity | discriminate]].
Qed.

Lemma general_rows_one_slot d nr seed tr :
  is_none nr = false -> Forall one_slot (general_rows d nr seed tr).
Proof.
  intros H. unfold general_rows.
  apply Forall_app. split.
  { destruct (is_multinomial d); [|apply Forall_nil].
    apply Forall_cons; [apply one_slot_third | apply Forall_nil]. }
  apply Forall_app. split.
  { apply Forall_cons; [apply one_slot_first; exact H | apply Forall_nil]. }
  apply Forall_app. split.
  - destruct (is_none seed) eqn:Hs; [apply Forall_nil|].
    apply Forall_cons; [apply one_slot_first; exact Hs | apply Forall_nil].
  - destruct (is_none tr) eqn:Ht; [apply Forall_nil|].
    apply Forall_cons; [apply one_slot_second; exact Ht | apply Forall_nil].
Qed.
Ltac rows_cases H Hm :=
  run_in H; apply pair_eq_inv in H; destruct H as [H ?]; subst;
  try discriminate H;
  match goal with
  | E : arg "num_random" _ (CType Tint) false = Return ?a,
    L : py_lt ?a (VInt 0) = Return false,
    S : arg "seed" _ (CType Tint) false = Return ?s,
    T : arg "thread_ratio" _ (CType Tfloat) false = Return ?t |- _ =>
      exists a, s, t;
      (split; [first [exact E | reflexivity]|]);
      (split; [first [exact S | reflexivity]|]);
      (split; [first [exact T | reflexivity]|]);
      (split; [exact L|]);
      pose proof (not_none_lt _ L)
  end;
  normalize_histories;
  lazymatch goal with
  | |- exists pre ev, (?h ++ [?A; ?B; ?C])%list = _ /\ _ =>
      exists (h ++ [A; B])%list, C;
      split; [rewrite <- app_assoc; reflexivity|]
  end;
  do 3 eexists; (split; [reflexivity|]);
  cbn [with_data ptable_data];
  match goal with
  | Hn : is_none ?a = false |- _ = general_rows ?d ?a ?s ?t /\ _ =>
      let HF := fresh in
      pose proof (general_rows_filter d a s t Hn) as HF;
      try rewrite Hm in HF;
      split; [exact HF|];
      cbn [List.app] in HF; rewrite HF;
      exact (general_rows_one_slot d a s t Hn)
  end.

Lemma rds_rows env d dps nr seed tr w r w' :
  is_multinomial d = false ->
  _rds env dps nr seed tr w = (Return r, w') ->
  returned_with d nr seed tr w'.
Proof.
  intros Hm H. unfold returned_with, sampling_call, procedure_of.
  rewrite Hm. unfold _rds in H. rows_cases H Hm.
Qed.

Lemma multinomial_rows env n pvals nr seed tr w r w' :
  multinomial env n pvals nr seed tr w = (Return r, w') ->
  returned_with (Multinomial n pvals) nr seed tr w'.
Proof.
  intros H. unfold returned_with, sampling_call, procedure_of.
  cbn [is_multinomial].
  assert (Hm : is_multinomial (Multinomial n pvals) = true) by reflexivity.
  unfold multinomial in H. rows_cases H Hm.
Qed.

(** X11. What a sampling call that returns has sent last: its three
    general arguments passed [arg], the test [num_random < 0] was evaluated
    and false (so [num_random] was not left out), and the last request is
    the call of PAL_DISTRIBUTION_RANDOM (PAL_DISTRIBUTION_RANDOM_MULTIVARIATE
    for [multinomial]) whose parameter table holds NUM_RANDOM, then SEED and
    THREAD_RATIO when they were given, after DISTRIBUTIONNAME for
    [multinomial]: each row of the table has exactly one populated slot. *)
Theorem X11_returning_call_parameters env d nr seed tr w r w' :
  sample env d nr seed tr w = (Return r, w') ->
  returned_with d nr seed tr w'.
Proof.
  intros H.
  destruct (is_multinomial d) eqn:Hm.
  - destruct d; try discriminate Hm. cbn [sample] in H.
    eapply multinomial_rows. exact H.
  - destruct (sampling_reaches_rds env d w Hm)
      as [(e0 & w0 & _ & _ & Hrun) | (dps & _ & Hrun)];
      rewrite Hrun in H.
    + apply pair_eq_inv in H. destruct H as [H _]. discriminate H.
    + eapply rds_rows; [exact Hm | exact H].
Qed.

Lemma X11_returning_call_parameters_witness :
  returned_with (Gamma (VInt 2) (VFloat 3)) (VInt 5) VNone (VInt 1)
    (snd (sample quiet_env (Gamma (VInt 2) (VFloat 3)) (VInt 5) VNone (VInt 1)
            empty_world)).
Proof.
  eapply (X11_returning_call_parameters quiet_env (Gamma (VInt 2) (VFloat 3))
            (VInt 5) VNone (VInt 1) empty_world).
  vm_compute. reflexivity.
Defined.

(* ================================================================= *)
(** ** A call that returns: the whole exchange *)

Lemma sample_rows env d nr seed tr w r w' :
  sample env d nr seed tr w = (Return r, w') ->
  returned_with d nr seed tr w'.
Proof.
  intros H.
  destruct (is_multinomial d) eqn:Hm.
  - destruct d; try discriminate Hm. cbn [sample] in H.
    eapply multinomial_rows. exact H.
  - destruct (sampling_reaches_rds env d w Hm)
      as [(e0 & w0 & _ & _ & Hrun) | (dps & _ & Hrun)];
      rewrite Hrun in H.
    + apply pair_eq_inv in H. destruct H as [H _]. discriminate H.
    + eapply rds_rows; [exact Hm | exact H].
Qed.

Lemma EvCallPal_proc p args q args' :
  EvCallPal p args = EvCallPal q args' -> p = q.
Proof.
  intros H.
  apply (f_equal (fun ev => match ev with EvCallPal x _ => x | _ => p end)) in H.
  exact H.
Qed.

(** X9. A call that returns has sent the PAL check, the creation of its
    scratch table (not for [mcmc]) and the call of its procedure, in that
    order and nothing else: three requests (two for [mcmc]), none of them a
    drop.  The scratch table, the parameter table and the result of the
    procedure call carry the names generated for the call, and what is
    returned is the handle of the last of them, the one with the role
    RESULT. *)
Theorem X9_success_keeps_scratch_tables env c w r w' :
  entry env c w = (Return r, w') ->
  exists new,
    events w' = (events w ++ new)%list /\
    success_trace c (temp_tables c (call_unique_id env w)) new r /\
    existsb is_drop new = false /\
    List.length new =
      (match c with Sampling _ _ _ _ => 3 | Mcmc _ => 2 end)%nat /\
    r = ResDataFrame
          (DataFrameOf (last (temp_tables c (call_unique_id env w)) "")).
Proof.
  intros H.
  destruct c as [d nr seed tr | a]; cbn [entry temp_tables] in *.
  - pose proof (sample_rows _ _ _ _ _ _ _ _ H)
      as (nr' & seed' & tr' & _ & _ & _ & _ & pre & ev & Hlast & Hcall).
    destruct Hcall as (df & pt' & out & -> & _).
    assert (Hs : exists new,
               events w' = (events w ++ new)%list /\
               sampling_success new r
                 (rds_tables (dist_name d) (call_unique_id env w))).
    { destruct (is_multinomial d) eqn:Hm.
      - destruct d; try discriminate Hm. cbn [sample dist_name] in *.
        destruct (multinomial_names _ _ _ _ _ _ _ _ _ H) as (new & Hev & _ & Hok).
        exists new. split; [exact Hev | apply Hok; reflexivity].
      - destruct (sampling_reaches_rds env d w Hm)
          as [(e0 & w0 & _ & _ & Hrun) | (dps & Hname & Hrun)];
          rewrite Hrun in H.
        + apply pair_eq_inv in H. destruct H as [H _]. discriminate H.
        + destruct (rds_names _ _ _ _ _ _ _ _ _ Hname H) as (new & Hev & _ & Hok).
          exists new. split; [exact Hev | apply Hok; reflexivity]. }
    destruct Hs as (new & Hev & t & proc & pt & n & -> & Htab & ->).
    assert (Hproc : proc = procedure_of d).
    { rewrite Hev in Hlast.
      change (events w ++ [EvRequirePal; EvCreate t;
                EvCallPal proc [ArgDataFrame (DataFrameOf (table_name t));
                                ArgParameterTable pt; ArgName n]])%list
        with (events w ++ [EvRequirePal; EvCreate t] ++
                [EvCallPal proc [ArgDataFrame (DataFrameOf (table_name t));
                                 ArgParameterTable pt; ArgName n]])%list
        in Hlast.
      rewrite app_assoc in Hlast. apply app_inj_tail in Hlast.
      destruct Hlast as [_ Hlast]. exact (EvCallPal_proc _ _ _ _ Hlast). }
    subst proc.
    eexists. split; [exact Hev|]. rewrite Htab. cbn [nth last].
    split; [|split; [reflexivity | split; reflexivity]].
    split; [|reflexivity].
    exists t, pt. split; [reflexivity | split; reflexivity].
  - destruct (mcmc_names _ _ _ _ _ H) as (new & Hev & _ & Hok).
    destruct (Hok r eq_refl) as (pt & n & -> & Htab & ->).
    eexists. split; [exact Hev|]. rewrite Htab. cbn [nth last].
    split; [|split; [reflexivity | split; reflexivity]].
    split; [|reflexivity].
    exists pt. split; reflexivity.
Qed.

Lemma X9_success_keeps_scratch_tables_witness :
  let c := Sampling (Bernoulli (VFloat (1 # 2))) default_num_random VNone VNone in
  match entry quiet_env c empty_world with
  | (Return r, w') =>
      exists new,
        events w' = (events empty_world ++ new)%list /\
        success_trace c (temp_tables c (call_unique_id quiet_env empty_world))
          new r /\
        existsb is_drop new = false /\
        List.length new = 3%nat /\
        r = ResDataFrame
              (DataFrameOf
                 (last (temp_tables c (call_unique_id quiet_env empty_world))
                       ""))
  | _ => False
  end.
Proof.
  intros c.
  destruct (entry quiet_env c empty_world) as [[r|e] w'] eqn:E;
    [|discriminate E].
  exact (X9_success_keeps_scratch_tables quiet_env c empty_world r w' E).
Defined.

(* ================================================================= *)
(** ** The scratch table of [multinomial] *)

Lemma bad_pval_false_inv v : bad_pval v = Return false -> non_negative v.
Proof.
  unfold bad_pval, py_or, py_lt, py_cmp, non_negative.
  destruct v as [| b | z | q | | | | | x];
    cbn [isinstance type_of existsb subclass pytype_eqb orb andb negb bindo
         as_num as_ext option_map]; intros H; try discriminate H.
  1-3: apply Return_inj in H; eexists; split; [reflexivity|]; split;
    [ rewrite ext_lt_finite; exact H
    | intros q' E; injection E as <-; unfold Qlt_bool in H;
      apply negb_false_iff in H; apply Qle_bool_iff in H; exact H ].
  apply Return_inj in H. exists (Special x).
  split; [reflexivity|]. split; [exact H | intros q' E; discriminate E].
Qed.

Lemma any_bad_pval_false_inv ps :
  py_any bad_pval ps = Return false -> Forall non_negative ps.
Proof.
  induction ps as [|x ps IH]; intros H; [constructor|].
  cbn [py_any] in H. apply bindo_inv in H. destruct H as (b & Hb & H).
  destruct b; [discriminate H|].
  constructor; [apply bad_pval_false_inv; exact Hb | apply IH; exact H].
Qed.

Lemma multinomial_spec_shift k :
  ("TRIALS", NVARCHAR 100) ::
  map (fun i : nat => ("P" ++ str_of_Z (Z.of_nat (S i)), DOUBLE)) (seq 0 k)
  = multinomial_spec k.
Proof.
  unfold multinomial_spec. f_equal.
  rewrite <- seq_shift, map_map. reflexivity.
Qed.

Lemma EvCreate_inv t t' : EvCreate t = EvCreate t' -> t = t'.
Proof.
  intros H.
  apply (f_equal (fun ev => match ev with EvCreate x => x | _ => t end)) in H.
  exact H.
Qed.

Lemma arg_required_int_inv attr v v' :
  arg attr v (CType Tint) true = Return v' -> exists z, v = VInt z /\ v' = VInt z.
Proof.
  destruct v; cbn; intros H; try discriminate H; apply Return_inj in H;
    subst v'; eexists; split; reflexivity.
Qed.

Lemma arg_required_tuple_inv attr v ps :
  arg attr v (CType Ttuple) true = Return (VTuple ps) -> v = VTuple ps.
Proof.
  destruct v; cbn; intros H; try discriminate H; apply Return_inj in H.
  exact H.
Qed.

(** X12. Every scratch table [multinomial] creates is well formed: [n]
    is an integer, [pvals] a tuple of numbers none of which is below zero,
    the columns are TRIALS, P1 .. Pk for the k entries of [pvals], and the
    one row, [n] followed by [pvals], is as wide as the column list (also
    for the empty tuple). *)
Theorem X12_multinomial_scratch_table env n pvals nr seed tr w o w' new t :
  multinomial env n pvals nr seed tr w = (o, w') ->
  events w' = (events w ++ new)%list ->
  In (EvCreate t) new ->
  well_formed_table n pvals t.
Proof.
  intros H Hev Hin. unfold multinomial in H.
  run_in H; finish_run H; normalize_histories; strip_prefix Hev; subst new.
  all: cbn [In] in Hin.
  all: repeat (destruct Hin as [Hin | Hin]; [try discriminate Hin|]);
       try contradiction.
  all: apply EvCreate_inv in Hin; subst t.
  all: match goal with
       | N : arg "n" _ (CType Tint) true = Return _,
         P : arg "pvals" _ (CType Ttuple) true = Return (VTuple ?ps),
         B : py_any bad_pval ?ps = Return false |- _ =>
           let z := fresh "z" in
           destruct (arg_required_int_inv _ _ _ N) as (z & -> & ->);
           apply arg_required_tuple_inv in P; subst pvals;
           exists z, ps; cbn [table_spec table_data];
           rewrite multinomial_spec_shift;
           (split; [reflexivity|]); (split; [reflexivity|]);
           (split; [exact (any_bad_pval_false_inv _ B)|]);
           (split; [reflexivity|]); (split; [reflexivity|]);
           constructor; [|constructor];
           unfold multinomial_spec; cbn [List.length];
           rewrite length_map, length_seq; reflexivity
       end.
Qed.

Lemma X12_multinomial_scratch_table_witness :
  let r := multinomial quiet_env (VInt 10) (VTuple [VFloat 2; VInt 0])
             (VInt 1) VNone VNone empty_world in
  match nth_error (events (snd r)) 1 with
  | Some (EvCreate t) =>
      well_formed_table (VInt 10) (VTuple [VFloat 2; VInt 0]) t
  | _ => False
  end.
Proof.
  intros r.
  destruct (nth_error (events (snd r)) 1) as [[| t | |]|] eqn:E;
    try discriminate E.
  apply (X12_multinomial_scratch_table quiet_env (VInt 10)
           (VTuple [VFloat 2; VInt 0]) (VInt 1) VNone VNone empty_world
           (fst r) (snd r) (events (snd r)) t).
  - reflexivity.
  - reflexivity.
  - exact (nth_error_In _ _ E).
Defined.

(* ================================================================= *)
(** ** The identifier of a call *)

Lemma id_char_upper c :
  id_char (upper_ascii (if Ascii.eqb c "-" then "_"%char else c)) = true.
Proof. destruct c as [[] [] [] [] [] [] [] []]; vm_compute; reflexivity. Qed.

(** X13. The identifier spliced into the table names is as long as the
    UUID text it is made from, and holds no hyphen and no lower-case ASCII
    letter. *)
Theorem X13_unique_id_characters u :
  String.length (unique_id_of u) = String.length u /\
  forallb id_char (list_ascii_of_string (unique_id_of u)) = true.
Proof.
  unfold unique_id_of.
  induction u as [|c u [IHl IHc]];
    cbn [replace_char upper String.length list_ascii_of_string forallb].
  - split; reflexivity.
  - split; [f_equal; exact IHl|].
    rewrite id_char_upper. exact IHc.
Qed.

(* ================================================================= *)
(** ** [mcmc]: marshalling, then one procedure call *)

(** X14. Once the PAL check has passed, [mcmc] validates and encodes all
    its arguments before anything else is sent: when that raises, the call
    raises the same error, has sent only the PAL check and has logged
    nothing; otherwise the next request is PAL_MCMC with the encoded rows
    and the two generated names, and a call that returns has sent nothing
    more, logged nothing and returns the handle of the result table. *)
Theorem X14_mcmc_marshals_then_calls env a w o w' :
  remote env (events w) EvRequirePal = None ->
  mcmc env a w = (o, w') ->
  match mcmc_marshal env a with
  | Raise e =>
      o = Raise e /\ events w' = (events w ++ [EvRequirePal])%list /\
      log w' = log w
  | Return m =>
      exists post,
        events w' = (events w ++ [EvRequirePal; mcmc_call env w m] ++ post)%list /\
        (forall r, o = Return r ->
           r = ResDataFrame
                 (DataFrameOf (nth 1 (mcmc_tables (call_unique_id env w)) "")) /\
           post = [] /\ log w' = log w)
  end.
Proof.
  intros Hpal H. unfold mcmc in H. run_in H; finish_run H.
  all: unfold mcmc_call, call_unique_id; cbn [mcmc_tables List.map nth].
  all: normalize_histories.
  all: first
    [ split; [reflexivity | split; reflexivity]
    | eexists; split; [reflexivity|];
      intros r Hr; try discriminate Hr;
      apply Return_inj in Hr; subst r; repeat split; reflexivity ].
Qed.

Lemma X14_mcmc_marshals_then_calls_witness :
  (let r := mcmc quiet_env omitted_kind_args empty_world in
   fst r = Raise (InvalidArgument "distribution") /\
   events (snd r) = [EvRequirePal] /\ log (snd r) = []) /\
  (let r := mcmc quiet_env (mcmc_defaults (VStr "normal")) empty_world in
   exists m post,
     mcmc_marshal quiet_env (mcmc_defaults (VStr "normal")) = Return m /\
     events (snd r) = ([EvRequirePal; mcmc_call quiet_env empty_world m] ++ post)%list /\
     (forall x, fst r = Return x ->
        x = ResDataFrame
              (DataFrameOf
                 (nth 1 (mcmc_tables (call_unique_id quiet_env empty_world))
                      "")) /\
        post = [] /\ log (snd r) = [])).
Proof.
  split.
  - exact (X14_mcmc_marshals_then_calls quiet_env omitted_kind_args empty_world
             _ _ eq_refl eq_refl).
  - pose proof (X14_mcmc_marshals_then_calls quiet_env
                  (mcmc_defaults (VStr "normal")) empty_world _ _
                  eq_refl eq_refl) as H.
    destruct (mcmc_marshal quiet_env (mcmc_defaults (VStr "normal"))) as [m|e] eqn:E.
    + destruct H as (post & H1 & H2). exists m, post. split; [reflexivity|]. split; assumption.
    + discriminate E.
Defined.

(* ================================================================= *)
(** ** [mcmc]: the rows of the parameter table *)

Lemma arg_bool_inv attr v v' :
  arg attr v (CType Tbool) false = Return v' ->
  v' = v /\ (v = VNone \/ exists b, v = VBool b).
Proof.
  destruct v; cbn; intros H; try discriminate H; apply Return_inj in H;
    subst v'; split; try reflexivity.
  - left; reflexivity.
  - right; eexists; reflexivity.
Qed.

Ltac invert_marshal H m :=
  unfold mcmc_marshal in H; cbv beta zeta in H;
  repeat marshal_step H; apply Return_inj in H; subst m.

Lemma marshalled_kind env a m d :
  mcmc_marshal env a = Return m ->
  m_distribution a = VStr d ->
  distribution_name m = d.
Proof.
  intros H Hd.
  destruct (marshal_inv env a m H)
    as (mu & sigma & xi & alpha & beta & nu & omega & L & y_min & lambda_ &
        params & Hk & _).
  rewrite Hd in Hk.
  apply (f_equal (fun v => match v with VStr s => s | _ => d end)) in Hk.
  symmetry. exact Hk.
Qed.

Ltac marshalled m E :=
  lazymatch goal with
  | |- match ?x with Return _ => _ | Raise _ => _ end =>
      destruct x as [m|?] eqn:E; [|discriminate E]
  end.

Lemma populated_one_slot name i d s :
  populated (name, i, d, s) = true ->
  (d = VNone /\ s = VNone) \/ (i = VNone /\ s = VNone) \/
  (i = VNone /\ d = VNone) ->
  one_slot (name, i, d, s).
Proof.
  intros Hp [[-> ->] | [[-> ->] | [-> ->]]]; cbn [populated is_none andb] in Hp;
    rewrite ?andb_true_r in Hp; apply negb_true_iff in Hp;
    apply is_none_false in Hp; cbn [one_slot]; auto 6.
Qed.

Lemma arg_keeps_none attr v c v' :
  arg attr v c false = Return v' -> is_none v' = is_none v.
Proof.
  destruct v; cbn [arg]; intros H;
    [apply Return_inj in H; subst v'; reflexivity | ..].
  all: destruct c as [[]| |];
    repeat match type of H with
           | (if ?b then _ else _) = _ => destruct b
           | match ?x with _ => _ end = _ => destruct x
           end;
    try discriminate H; apply Return_inj in H; subst v'; reflexivity.
Qed.

(** A row of that name is among the rows of the table. *)
Lemma sent_iff rows name :
  (exists r, In r (filter populated rows) /\ row_name r = name) <->
  existsb (fun r => String.eqb (row_name r) name && populated r) rows = true.
Proof.
  rewrite existsb_exists. split.
  - intros (r & Hin & Hn). apply filter_In in Hin. destruct Hin as [Hin Hp].
    exists r. split; [exact Hin|]. rewrite Hp, andb_true_r.
    apply String.eqb_eq. exact Hn.
  - intros (r & Hin & H). apply andb_true_iff in H. destruct H as [Hn Hp].
    exists r. split; [apply filter_In; split; assumption|].
    apply String.eqb_eq. exact Hn.
Qed.

Lemma given_iff b v : is_none v = b -> (negb b = true <-> v <> VNone).
Proof.
  intros <-. destruct v; cbn [is_none negb]; split; intros H;
    first [reflexivity | discriminate | congruence].
Qed.

Ltac sent_row :=
  unfold sent; cbn [table_rows with_data ptable_data param_rows];
  rewrite sent_iff.

Ltac eval_rows :=
  cbn [existsb row_name fst snd populated is_none is_not_False List.app
       String.eqb Ascii.eqb Bool.eqb andb orb negb];
  rewrite ?andb_true_r, ?orb_false_r.

(** X15. [mcmc] builds the twelve sampler rows, ADAPT_ENGAGED with [adapt]
    as given, and after them the seven ADAPT_ rows unless [adapt] is False
    (so also when [adapt] is left out).  The parameter table holds the built
    rows that carry a value: the rows DISTRIBUTION_NAME, DISTRIBUTION_PARAM
    and DIMENSION always, ADAPT_ENGAGED exactly when [adapt] was given, and
    the row of an ADAPT_ setting exactly when [adapt] is not False and the
    setting was given. *)
Theorem X15_adapt_rows_unless_disabled env a m :
  mcmc_marshal env a = Return m ->
  (In ("ADAPT_ENGAGED", m_adapt a, VNone, VNone) (param_rows m) /\
   ((m_adapt a = VBool false /\
     map row_name (param_rows m) = sampler_row_names) \/
    ((m_adapt a = VNone \/ m_adapt a = VBool true) /\
     map row_name (param_rows m)
     = (sampler_row_names ++ adapt_row_names)%list))) /\
  (forall r, In r (table_rows m) -> In r (param_rows m) /\ one_slot r) /\
  (forall name,
     In name ["DISTRIBUTION_NAME"; "DISTRIBUTION_PARAM"; "DIMENSION"] ->
     sent m name) /\
  (sent m "ADAPT_ENGAGED" <-> m_adapt a <> VNone) /\
  (forall name v, In (name, v) (adapt_settings a) ->
     (sent m name <-> m_adapt a <> VBool false /\ v <> VNone)).
Proof.
  intros H. invert_marshal H m.
  destruct (arg_bool_inv _ _ _ E7) as [-> Hcase].
  repeat match goal with
         | E : arg _ _ _ false = Return _ |- _ =>
             apply arg_keeps_none in E
         end.
  split; [|split; [|split; [|split]]].
  - cbn [param_rows].
    destruct Hcase as [Hn | [[|] Hb]]; [rewrite Hn | rewrite Hb | rewrite Hb];
      cbn [is_not_False]; (split; [cbn [In List.app]; pick_member|]).
    + right. split; [left; reflexivity | reflexivity].
    + right. split; [right; reflexivity | reflexivity].
    + left. split; reflexivity.
  - intros r Hr. unfold table_rows, with_data in Hr. cbn [ptable_data] in Hr.
    apply filter_In in Hr. destruct Hr as [Hin Hp].
    split; [exact Hin|]. cbn [param_rows] in Hin.
    destruct Hcase as [Hn | [[|] Hb]];
      [rewrite Hn in Hin | rewrite Hb in Hin | rewrite Hb in Hin];
      cbn [is_not_False List.app In] in Hin;
      repeat (destruct Hin as [<- | Hin]); try contradiction;
      (apply populated_one_slot; [exact Hp|]);
      first [ left; split; reflexivity
            | right; left; split; reflexivity
            | right; right; split; reflexivity ].
  - intros name Hin. cbn [In] in Hin.
    destruct Hin as [<- | [<- | [<- | []]]]; sent_row;
      destruct (is_not_False (m_adapt a)); reflexivity.
  - sent_row.
    destruct Hcase as [Hn | [[|] Hb]]; [rewrite Hn | rewrite Hb | rewrite Hb];
      eval_rows; split; intros H;
      first [reflexivity | discriminate H | congruence].
  - intros name v Hin. cbn [adapt_settings In] in Hin.
    repeat (destruct Hin as [Hin | Hin];
            [apply pair_eq_inv in Hin; destruct Hin as [<- <-]|]);
      [.. | contradiction].
    all: sent_row.
    all: destruct Hcase as [Hn | [[|] Hb]];
      [rewrite Hn | rewrite Hb | rewrite Hb]; eval_rows.
    all: try match goal with
             | E : is_none ?x = is_none ?v
               |- negb (is_none ?x) = true <-> _ =>
                 rewrite E; rewrite (given_iff (is_none v) v eq_refl)
             end.
    all: split;
      [ intros H; first [discriminate H | split; [discriminate | exact H]]
      | intros [Ha H]; first [exact H | exfalso; apply Ha; reflexivity] ].
Qed.

Lemma X15_adapt_rows_unless_disabled_witness :
  let a := tuned_args in
  match mcmc_marshal quiet_env a with
  | Return m =>
      map row_name (param_rows m)
      = (sampler_row_names ++ adapt_row_names)%list /\
      (forall r, In r (table_rows m) -> In r (param_rows m) /\ one_slot r) /\
      sent m "DIMENSION" /\
      (sent m "ADAPT_ENGAGED" <-> m_adapt a <> VNone) /\
      (sent m "ADAPT_DELTA" <-> m_adapt a <> VBool false /\ VFloat 2 <> VNone) /\
      (sent m "ADAPT_GAMMA" <-> m_adapt a <> VBool false /\ VNone <> VNone)
  | Raise _ => False
  end.
Proof.
  intros a. marshalled m E.
  destruct (X15_adapt_rows_unless_disabled quiet_env a m E)
    as ((_ & Hrows) & Hslot & Halways & Hengaged & Hadapt).
  split; [|split; [exact Hslot|split; [|split; [exact Hengaged|split]]]].
  - destruct Hrows as [[Hf _] | [_ Hrows]]; [discriminate Hf | exact Hrows].
  - apply Halways. cbn [In]. auto.
  - apply Hadapt. cbn [adapt_settings In]. right. left. reflexivity.
  - apply Hadapt. cbn [adapt_settings In]. left. reflexivity.
Defined.

(** X16. [mcmc] evaluates [1.0/scale] whenever [beta] is left out and
    the kind is not gumbel, whether or not the kind takes [beta]: such a
    call is marshalled only if [scale] is a number other than zero (a
    finite one, an infinity or NaN). *)
Theorem X16_scale_divided_unless_gumbel env a m :
  mcmc_marshal env a = Return m ->
  m_beta a = VNone ->
  distribution_name m <> "gumbel" ->
  (exists q, as_num (m_scale a) = Some q /\ ~ (q == 0)%Q) \/
  (exists x, m_scale a = VNonfinite x).
Proof.
  intros H Hn Hd.
  destruct (marshal_inv env a m H)
    as (mu & sigma & xi & alpha & beta & nu & omega & L & y_min & lambda_ &
        params & _ & _ & _ & _ & _ & _ & _ & _ & _ & _ & _ & _ & _ & _ &
        Hbeta & _).
  specialize (Hbeta Hn).
  destruct (String.eqb (distribution_name m) "gumbel") eqn:E.
  - apply String.eqb_eq in E. contradiction.
  - apply truediv_one_inv in Hbeta.
    destruct Hbeta as [(q & Hq & Hnz & _) | (x & Hx & _)].
    + left. exists q. split; assumption.
    + right. exists x. exact Hx.
Qed.

Lemma X16_scale_divided_unless_gumbel_witness :
  (exists q, as_num (m_scale (mcmc_defaults (VStr "chi_square"))) = Some q /\
             ~ (q == 0)%Q) \/
  (exists x, m_scale (mcmc_defaults (VStr "chi_square")) = VNonfinite x).
Proof.
  refine (X16_scale_divided_unless_gumbel quiet_env
            (mcmc_defaults (VStr "chi_square")) _ eq_refl eq_refl _).
  vm_compute. intros H. discriminate H.
Defined.

(* ================================================================= *)
(** ** [mcmc]: the encoded distribution parameters *)

Lemma build_distr_param_keys pv params dp :
  build_distr_param pv params = Return dp ->
  map fst dp = map upper params.
Proof.
  revert dp. induction params as [|p params IH]; intros dp H.
  - cbn in H. apply Return_inj in H. subst dp. reflexivity.
  - cbn [build_distr_param] in H.
    apply bindo_inv in H. destruct H as (v & _ & H).
    apply bindo_inv in H. destruct H as (rest & Hrest & H).
    apply Return_inj in H. subst dp. cbn [map fst]. f_equal. apply IH. exact Hrest.
Qed.

Lemma assoc_keys (X : Type) key (d : list (string * X)) :
  In key (map fst d) <-> exists v, assoc key d = Some v.
Proof.
  induction d as [|[k v] d IH]; cbn [map fst assoc In].
  - split; [contradiction | intros [v H]; discriminate H].
  - destruct (String.eqb key k) eqn:E.
    + apply String.eqb_eq in E. subst k. split; [eexists; reflexivity | left; reflexivity].
    + apply String.eqb_neq in E. rewrite <- IH. split.
      * intros [H | H]; [congruence | exact H].
      * intros H. right. exact H.
Qed.

(** X17. The dict encoded in the DISTRIBUTION_PARAM row has exactly the
    parameters of the kind as keys, upper-cased and in the order of
    [dstr_param_lst]; what the caller supplies for any other parameter is
    not encoded. *)
Theorem X17_blob_holds_the_kinds_parameters env a m :
  mcmc_marshal env a = Return m ->
  exists params,
    assoc (distribution_name m) dstr_param_lst = Some params /\
    map fst (distr_param m) = map upper params /\
    forall key, In key (map upper params) <-> exists l, encoded m key = Some l.
Proof.
  intros H.
  destruct (marshal_inv env a m H)
    as (mu & sigma & xi & alpha & beta & nu & omega & L & y_min & lambda_ &
        params & _ & Hin & Hparams & _ & Hbuild & _).
  exists params.
  apply build_distr_param_keys in Hbuild.
  split; [|split].
  - remember (distribution_name m) as d eqn:Hd. clear Hd.
    cbn [map fst dstr_param_lst] in Hin.
    repeat (destruct Hin as [Hin | Hin];
            [ subst d; vm_compute in Hparams; apply Return_inj in Hparams;
              subst params; reflexivity | ]).
    contradiction.
  - exact Hbuild.
  - intros key. rewrite <- Hbuild. unfold encoded. apply assoc_keys.
Qed.

Lemma X17_blob_holds_the_kinds_parameters_witness :
  match mcmc_marshal quiet_env lomax_args with
  | Return m =>
      exists params,
        assoc (distribution_name m) dstr_param_lst = Some params /\
        map fst (distr_param m) = map upper params /\
        forall key, In key (map upper params) <-> exists l, encoded m key = Some l
  | Raise _ => False
  end.
Proof.
  destruct (mcmc_marshal quiet_env lomax_args) as [m|e] eqn:E.
  - exact (X17_blob_holds_the_kinds_parameters quiet_env lomax_args m E).
  - discriminate E.
Defined.

Lemma arg_required_number_inv attr v v' :
  arg attr v number true = Return v' ->
  v' = v /\ exists x, py_real v x.
Proof.
  destruct v; cbn; intros H; try discriminate H; apply Return_inj in H;
    subst v'; (split; [reflexivity|]); eexists;
    first [apply RealNonfinite | apply RealNumber; constructor].
Qed.

Lemma arg_required_float_inv attr v v' :
  arg attr v (CType Tfloat) true = Return v' ->
  exists x, py_real v x /\ v' = as_float x.
Proof.
  destruct v; cbn; intros H; try discriminate H; apply Return_inj in H;
    subst v'; eexists;
    (split; [first [apply RealNonfinite | apply RealNumber; constructor]
            | reflexivity]).
Qed.

Ltac kind_cases Hd :=
  cbn [In takes_required_alpha] in Hd;
  repeat (destruct Hd as [Hd | Hd]; [symmetry in Hd; subst|]);
  try contradiction.

Ltac required_number E Henc param :=
  lazymatch type of E with
  | arg ?attr ?v _ _ = Return ?r =>
      let E' := fresh in
      let x := fresh "x" in
      let Hx := fresh "Hx" in
      assert (E' : arg attr v number true = Return r) by exact E;
      destruct (arg_required_number_inv _ _ _ E') as [-> [x Hx]];
      (split; [exists x; exact Hx|]);
      let Hy := fresh in
      pose proof (Henc param _ eq_refl eq_refl) as Hy;
      destruct Hx as [? ? []|?]; exact Hy
  end.

Ltac required_float E Henc param :=
  lazymatch type of E with
  | arg ?attr ?v _ _ = Return ?r =>
      let E' := fresh in
      let x := fresh "x" in
      let Hx := fresh "Hx" in
      assert (E' : arg attr v (CType Tfloat) true = Return r) by exact E;
      destruct (arg_required_float_inv _ _ _ E') as (x & Hx & ->);
      exists x; (split; [exact Hx|]);
      let Hy := fresh in
      pose proof (Henc param _ eq_refl eq_refl) as Hy;
      destruct x; exact Hy
  end.

(** X18. The required scalar parameters reach the encoded dict as
    given: [mu] of lognormal, [alpha] of weibull, frechet, beta, pareto,
    lomax and invgamma, [beta] of invgamma and beta, [nu] of invchi_square
    are numbers (an [int] or a [float], finite or not), encoded unchanged;
    [y_min] of pareto and [lambda_] of lomax are numbers, encoded as floats
    under Y_MIN and LAMBDA. *)
Theorem X18_required_parameters_are_encoded env a m :
  mcmc_marshal env a = Return m ->
  let d := distribution_name m in
  (d = "lognormal" ->
   (exists x, py_real (m_mu a) x) /\ encoded m "MU" = Some [m_mu a]) /\
  (In d takes_required_alpha ->
   (exists x, py_real (m_alpha a) x) /\
   encoded m "ALPHA" = Some [m_alpha a]) /\
  (In d ["invgamma"; "beta"] ->
   (exists x, py_real (m_beta a) x) /\ encoded m "BETA" = Some [m_beta a]) /\
  (d = "invchi_square" ->
   (exists x, py_real (m_nu a) x) /\ encoded m "NU" = Some [m_nu a]) /\
  (d = "pareto" ->
   exists x, py_real (m_y_min a) x /\
             encoded m "Y_MIN" = Some [as_float x]) /\
  (d = "lomax" ->
   exists x, py_real (m_lambda_ a) x /\
             encoded m "LAMBDA" = Some [as_float x]).
Proof.
  intros H.
  pose proof (encoded_of_kind env a m) as Henc.
  assert (Henc' : forall param v,
             kind_takes (distribution_name m) param = true ->
             assoc param (param_value m) = Some v ->
             encoded m (upper param) = Some (as_list v))
    by (intros param v; apply (Henc param v H)).
  clear Henc.
  invert_marshal H m.
  unfold encoded in Henc' |- *.
  cbn [distribution_name param_value distr_param] in Henc' |- *.
  split; [|split; [|split; [|split; [|split]]]].
  - intros ->. required_number E20 Henc' "mu".
  - intros Hd. kind_cases Hd; required_number E23 Henc' "alpha".
  - intros Hd. kind_cases Hd.
    all: assert (E' : arg "beta" (m_beta a) number true = Return a24)
           by exact E24;
         destruct (arg_required_number_inv _ _ _ E') as [-> [x Hx]];
         (split; [exists x; exact Hx|]);
         destruct Hx as [? ? []|?]; cbn [is_none] in E25;
         apply Return_inj in E25;
         subst a25; exact (Henc' "beta" _ eq_refl eq_refl).
  - intros ->. required_number E26 Henc' "nu".
  - intros ->. required_float E31 Henc' "y_min".
  - intros ->. required_float E32 Henc' "lambda".
Qed.

Lemma X18_required_parameters_are_encoded_witness :
  match mcmc_marshal quiet_env lomax_args with
  | Return m =>
      ((exists x, py_real (VFloat 2) x) /\
       encoded m "ALPHA" = Some [VFloat 2]) /\
      (exists x, py_real (VFloat 3) x /\
                 encoded m "LAMBDA" = Some [as_float x])
  | Raise _ => False
  end.
Proof.
  marshalled m E.
  pose proof (marshalled_kind _ _ _ "lomax" E eq_refl) as Hd.
  pose proof (X18_required_parameters_are_encoded quiet_env lomax_args m E)
    as (_ & Ha & _ & _ & _ & Hl).
  split.
  - apply Ha. rewrite Hd. cbn. tauto.
  - apply Hl. exact Hd.
Defined.

Lemma arg_required_list_inv attr v v' :
  arg attr v list_or_array true = Return v' ->
  v' = v /\ exists l, v = VList l \/ v = VNdarray l.
Proof.
  destruct v; cbn; intros H; try discriminate H; apply Return_inj in H;
    subst v'; (split; [reflexivity|]); eexists; [left | right]; reflexivity.
Qed.

Ltac eval_contains :=
  repeat match goal with
  | |- context [contains ?x ?y] =>
      let r := eval vm_compute in (contains x y) in
      change (contains x y) with r
  end.

Ltac counted_list E :=
  lazymatch type of E with
  | arg ?attr ?v _ _ = Return ?r =>
      let E' := fresh in
      let l := fresh "l" in
      let Hl := fresh "Hl" in
      assert (E' : arg attr v list_or_array true = Return r) by exact E;
      destruct (arg_required_list_inv _ _ _ E') as [-> [l Hl]];
      exists l; (split; [exact Hl|]);
      eval_contains;
      destruct Hl as [Hl | Hl]; rewrite Hl; cbn [array_to_list]
  end.

(** X19. The DIMENSION row: for the three kinds whose name contains
    "multi" (multinormal, multinormalprec, multinormalcholesky) [mu] is a
    list or an array and DIMENSION is the number of its elements; for
    dirichlet it is the number of elements of [alpha]; for every other
    kind, mutistudent_t included, it is 1. *)
Theorem X19_dimension_row env a m :
  mcmc_marshal env a = Return m ->
  let d := distribution_name m in
  In ("DIMENSION", VInt (dim m), VNone, VNone) (param_rows m) /\
  (In d counted_by_mu ->
   exists l, (m_mu a = VList l \/ m_mu a = VNdarray l) /\
             dim m = Z.of_nat (List.length l)) /\
  (d = "dirichlet" ->
   exists l, (m_alpha a = VList l \/ m_alpha a = VNdarray l) /\
             dim m = Z.of_nat (List.length l)) /\
  (~ In d ("dirichlet" :: counted_by_mu) -> dim m = 1).
Proof.
  intros H. invert_marshal H m.
  cbn [distribution_name dim param_rows].
  split; [destruct (is_not_False a7); cbn [In List.app]; pick_member|].
  split; [|split].
  - intros Hd. cbn [In counted_by_mu] in Hd.
    repeat (destruct Hd as [Hd | Hd]; [symmetry in Hd; subst|]);
      try contradiction.
    all: counted_list E20; destruct (array_to_list a23); reflexivity.
  - intros ->. counted_list E23; reflexivity.
  - intros Hnot. apply arg_distribution_inv in E. destruct E as [_ Hin].
    cbn [map fst dstr_param_lst] in Hin.
    repeat (destruct Hin as [Hin | Hin];
            [ subst s;
              first [ exfalso; apply Hnot; cbn [In counted_by_mu];
                      solve [pick_member]
                    | eval_contains;
                      destruct (array_to_list a23);
                      destruct (array_to_list a20); reflexivity ] | ]).
    contradiction.
Qed.

Lemma X19_dimension_row_witness :
  match mcmc_marshal quiet_env multinormal_args with
  | Return m =>
      In ("DIMENSION", VInt (dim m), VNone, VNone) (param_rows m) /\
      exists l, (m_mu multinormal_args = VList l \/
                 m_mu multinormal_args = VNdarray l) /\
                dim m = Z.of_nat (List.length l)
  | Raise _ => False
  end.
Proof.
  marshalled m E.
  pose proof (marshalled_kind _ _ _ "multinormal" E eq_refl) as Hd.
  pose proof (X19_dimension_row quiet_env multinormal_args m E)
    as (Hrow & Hmu & _).
  split; [exact Hrow|].
  apply Hmu. rewrite Hd. left. reflexivity.
Defined.

Ltac sent_cases E E' Henc param :=
  lazymatch type of E with
  | arg ?attr ?v _ _ = Return ?r =>
      let Ex := fresh in
      let l := fresh "l" in
      let Hl := fresh "Hl" in
      let Hx := fresh in
      assert (Ex : arg attr v list_or_array true = Return r) by exact E;
      destruct (arg_required_list_inv _ _ _ Ex) as [-> [l Hl]];
      pose proof (Henc param _ eq_refl eq_refl) as Hx;
      unfold sent_matrix;
      destruct Hl as [Hl | Hl]; rewrite Hl in E' |- *;
      [ destruct l as [|[] rest]; cbn [flatten_matrix] in E';
        try discriminate E';
        try (destruct (np_ravel _ _) as [flat|] eqn:Hflat;
             [exists flat; split; [reflexivity|] | discriminate E']);
        apply Return_inj in E'; subst; exact Hx
      | cbn [flatten_matrix] in E'; apply Return_inj in E'; subst; exact Hx ]
  end.

(** X20. [omega] of multinormalprec and [L] of multinormalcholesky are
    encoded flat: an array by its elements; a list whose first element is a
    list by the elements numpy gives for it, and only if numpy accepts it;
    any other non-empty list as it is.  An empty list is never
    marshalled. *)
Theorem X20_matrices_are_flattened env a m :
  mcmc_marshal env a = Return m ->
  (distribution_name m = "multinormalprec" ->
   sent_matrix env (m_omega a) (encoded m "OMEGA")) /\
  (distribution_name m = "multinormalcholesky" ->
   sent_matrix env (m_L a) (encoded m "L")).
Proof.
  intros H.
  assert (Henc : forall param v,
             kind_takes (distribution_name m) param = true ->
             assoc param (param_value m) = Some v ->
             encoded m (upper param) = Some (as_list v))
    by (intros param v; apply (encoded_of_kind env a m param v H)).
  invert_marshal H m.
  unfold encoded in Henc |- *.
  cbn [distribution_name param_value distr_param] in Henc |- *.
  split; intros ->.
  - sent_cases E27 E28 Henc "omega".
  - sent_cases E29 E30 Henc "L".
Qed.

Lemma X20_matrices_are_flattened_witness :
  match mcmc_marshal quiet_env multinormalprec_args with
  | Return m =>
      encoded m "OMEGA" = Some [VFloat 2; VFloat 0; VFloat 0; VFloat 2]
  | Raise _ => False
  end.
Proof.
  marshalled m E.
  pose proof (marshalled_kind _ _ _ "multinormalprec" E eq_refl) as Hd.
  destruct (proj1 (X20_matrices_are_flattened quiet_env multinormalprec_args
                     m E) Hd) as (l & Hl & Hs).
  apply (f_equal (fun o => match o with Some x => x | None => l end)) in Hl.
  cbn in Hl. subst l. exact Hs.
Defined.

(** X21. For the kind skew_normal, [omega] has no alias to fall back
    on: left out, it is encoded as [None] under OMEGA, whatever [scale] is;
    given as a number, it is encoded as a float. *)
Theorem X21_omega_has_no_fallback env a m :
  mcmc_marshal env a = Return m ->
  distribution_name m = "skew_normal" ->
  (m_omega a = VNone -> encoded m "OMEGA" = Some [VNone]) /\
  (forall q, py_number (m_omega a) q -> encoded m "OMEGA" = Some [VFloat q]).
Proof.
  intros H.
  assert (Henc : forall param v,
             kind_takes (distribution_name m) param = true ->
             assoc param (param_value m) = Some v ->
             encoded m (upper param) = Some (as_list v))
    by (intros param v; apply (encoded_of_kind env a m param v H)).
  invert_marshal H m.
  unfold encoded in Henc |- *.
  cbn [distribution_name param_value distr_param] in Henc |- *.
  intros ->.
  assert (E' : arg "omega" (m_omega a) (CType Tfloat) false = Return a27)
    by exact E27.
  pose proof (Henc "omega" _ eq_refl eq_refl) as Hx.
  split.
  - intros Hn. rewrite Hn in E'. apply arg_none_inv in E'. subst a27.
    cbn [flatten_matrix] in E28. apply Return_inj in E28. subst a28. exact Hx.
  - intros q Hq. rewrite (arg_float_number "omega" _ _ Hq) in E'.
    apply Return_inj in E'. subst a27.
    cbn [flatten_matrix] in E28. apply Return_inj in E28. subst a28. exact Hx.
Qed.

Lemma X21_omega_has_no_fallback_witness :
  match mcmc_marshal quiet_env
          (mcmc_aliases (VStr "skew_normal") (VFloat 0) (VFloat 2) (VFloat 1)
             (VFloat 1)) with
  | Return m => encoded m "OMEGA" = Some [VNone]
  | Raise _ => False
  end.
Proof.
  marshalled m E.
  pose proof (marshalled_kind _ _ _ "skew_normal" E eq_refl) as Hd.
  exact (proj1 (X21_omega_has_no_fallback quiet_env _ m E Hd) eq_refl).
Defined.
